(** * TvDatafeed: the framed WebSocket client of [main.py] and the batch
      coordinator of [data.py], embedded and verified.

    Python [str] values are modelled as [string]; every character is read as
    the Unicode code point of the same number (0..255).  Python [int] is [Z],
    [len] results are [nat].  Floating point values stay abstract: [float()]
    and [datetime.fromtimestamp] are parameters of the parser. *)

From Stdlib Require Import String Ascii List ZArith Lia Bool.
From Stdlib Require Import Decimal DecimalString DecimalNat DecimalZ.
From stdpp Require Import base gmap strings list.

Local Open Scope string_scope.
Local Open Scope list_scope.
Local Open Scope nat_scope.

Set Warnings "-register-all,-clear-no-such-hyp".

(* stdpp blocks [simpl] on string concatenation; the proofs below compute with it. *)
#[local] Arguments String.append !s1 s2 : simpl nomatch.

(* ================================================================== *)
(** * Part I: definitions                                              *)
(* ================================================================== *)

(** ** Python string primitives *)

(** [str(n)] for a non-negative [int] such as a [len] result. *)
Definition str (n : nat) : string := NilEmpty.string_of_uint (Nat.to_uint n).

(** [str(z)] for an arbitrary [int]. *)
Definition str_Z (z : Z) : string := NilZero.string_of_int (Z.to_int z).

(** [s.startswith(p)] *)
Fixpoint is_prefix (p s : string) : bool :=
  match p with
  | EmptyString => true
  | String a p' =>
      match s with
      | EmptyString => false
      | String b s' => Ascii.eqb a b && is_prefix p' s'
      end
  end.

(** [needle in hay] on strings. *)
Fixpoint str_in (needle hay : string) : bool :=
  is_prefix needle hay ||
  match hay with
  | EmptyString => false
  | String _ hay' => str_in needle hay'
  end.

(** [c in s] for a single character. *)
Fixpoint char_in (c : ascii) (s : string) : bool :=
  match s with
  | EmptyString => false
  | String a s' => Ascii.eqb c a || char_in c s'
  end.

Fixpoint count_char (c : ascii) (s : string) : nat :=
  match s with
  | EmptyString => 0
  | String a s' => (if Ascii.eqb c a then 1 else 0) + count_char c s'
  end.

Fixpoint drop_str (n : nat) (s : string) : string :=
  match n, s with
  | O, _ => s
  | S n', String _ s' => drop_str n' s'
  | S _, EmptyString => EmptyString
  end.

Fixpoint take_str (n : nat) (s : string) : string :=
  match n, s with
  | S n', String a s' => String a (take_str n' s')
  | _, _ => EmptyString
  end.

Definition dquote : string := String (ascii_of_nat 34) EmptyString.
Definition newline : ascii := ascii_of_nat 10.
Definition nl : string := String newline EmptyString.

(** The UTF-8 encoding of a string of code points below 256: one byte below
    128, two bytes from 128 on. *)
Fixpoint utf8_encode (s : string) : string :=
  match s with
  | EmptyString => EmptyString
  | String c s' =>
      let n := nat_of_ascii c in
      if n <? 128 then String c (utf8_encode s')
      else String (ascii_of_nat (192 + n / 64))
             (String (ascii_of_nat (128 + n mod 64)) (utf8_encode s'))
  end.

Definition byte_length (s : string) : nat := String.length (utf8_encode s).

(** ** JSON values and [json.dumps] *)

Inductive json : Type :=
| JNull
| JBool (b : bool)
| JInt (z : Z)
| JStr (s : string)
| JList (l : list json)
| JDict (kvs : list (string * json)).

Definition hex_digit (n : nat) : ascii :=
  match n with
  | 0 => "0" | 1 => "1" | 2 => "2" | 3 => "3" | 4 => "4" | 5 => "5" | 6 => "6"
  | 7 => "7" | 8 => "8" | 9 => "9" | 10 => "a" | 11 => "b" | 12 => "c"
  | 13 => "d" | 14 => "e" | _ => "f"
  end%char.

(** [ESCAPE_DCT] and the [\uXXXX] fallback of [json.encoder]: everything
    outside [' '..'~'], and the two characters backslash and double quote,
    is escaped. *)
Definition escape_char (c : ascii) : string :=
  let n := nat_of_ascii c in
  if n =? 92 then "\\"
  else if n =? 34 then String "\" dquote
  else if n =? 8 then "\b"
  else if n =? 12 then "\f"
  else if n =? 10 then "\n"
  else if n =? 13 then "\r"
  else if n =? 9 then "\t"
  else if (32 <=? n) && (n <=? 126) then String c EmptyString
  else "\u00" +:+ String (hex_digit (n / 16)) (String (hex_digit (n mod 16)) EmptyString).

Fixpoint escape_body (s : string) : string :=
  match s with
  | EmptyString => EmptyString
  | String c s' => escape_char c +:+ escape_body s'
  end.

(** [py_encode_basestring_ascii] ([ensure_ascii=True], the default). *)
Definition encode_basestring_ascii (s : string) : string :=
  dquote +:+ escape_body s +:+ dquote.

(** [json.dumps(v, separators=(item_sep, key_sep))]. *)
Fixpoint json_dumps (item_sep key_sep : string) (v : json) : string :=
  match v with
  | JNull => "null"
  | JBool true => "true"
  | JBool false => "false"
  | JInt z => str_Z z
  | JStr s => encode_basestring_ascii s
  | JList l =>
      "[" +:+ String.concat item_sep (List.map (json_dumps item_sep key_sep) l) +:+ "]"
  | JDict kvs =>
      "{" +:+ String.concat item_sep
               (List.map (fun kv => encode_basestring_ascii (fst kv) +:+ key_sep
                                      +:+ json_dumps item_sep key_sep (snd kv)) kvs)
          +:+ "}"
  end.

(** ** MessageCodec: [TvDatafeed.__prepend_header], [__construct_message],
       [__create_message] *)

Definition prepend_header (st : string) : string :=
  "~m~" +:+ str (String.length st) +:+ "~m~" +:+ st.

Definition construct_message (func : string) (param_list : list json) : string :=
  json_dumps "," ":" (JDict [("m", JStr func); ("p", JList param_list)]).

Definition create_message (func : string) (param_list : list json) : string :=
  prepend_header (construct_message func param_list).

(** Reading a frame back from the bytes on the wire: the length prefix is
    decoded and that many bytes are taken as the payload. *)
Definition is_digit (c : ascii) : bool :=
  let n := nat_of_ascii c in (48 <=? n) && (n <=? 57).

Fixpoint span_digits (s : string) : string * string :=
  match s with
  | EmptyString => (EmptyString, EmptyString)
  | String c s' =>
      if is_digit c then let '(d, r) := span_digits s' in (String c d, r)
      else (EmptyString, s)
  end.

Definition strip_prefix (p s : string) : option string :=
  if is_prefix p s then Some (drop_str (String.length p) s) else None.

Definition decode_frame (wire : string) : option (nat * string * string) :=
  match strip_prefix "~m~" wire with
  | None => None
  | Some r =>
      let '(ds, r') := span_digits r in
      match NilEmpty.uint_of_string ds, strip_prefix "~m~" r' with
      | Some d, Some body =>
          let n := Nat.of_uint d in
          if n <=? String.length body
          then Some (n, take_str n body, drop_str n body)
          else None
      | _, _ => None
      end
  end.

(** Spaces that are part of the data: those inside string leaves and keys. *)
Fixpoint json_spaces (v : json) : nat :=
  match v with
  | JStr s => count_char " " s
  | JList l => list_sum (List.map json_spaces l)
  | JDict kvs =>
      list_sum (List.map (fun kv => count_char " " (fst kv) + json_spaces (snd kv)) kvs)
  | _ => 0
  end.

(** ** Exceptions and results *)

(** The exception classes that occur; all of them derive from [Exception]. *)
Inductive exn : Type :=
| AttributeError
| IndexError
| ValueError (msg : string)
| OverflowError
| TypeError (msg : string)
| OSError (msg : string)
| Exception (msg : string).

Inductive res (A : Type) : Type :=
| Ok (a : A)
| Raise (e : exn).
Arguments Ok {A} a.
Arguments Raise {A} e.

(** ** ChartStreamParser: [TvDatafeed.__create_df] *)

(** What [datetime.datetime.fromtimestamp] raises on a number it rejects:
    [ValueError] (a year out of range, not a number), [OverflowError] (out of
    range for the platform's [time_t]) or [OSError] (when [localtime] fails). *)
Inductive timestamp_error : Type :=
| TsValueError (msg : string)
| TsOverflowError
| TsOSError (msg : string).

Definition timestamp_exn (err : timestamp_error) : exn :=
  match err with
  | TsValueError msg => ValueError msg
  | TsOverflowError => OverflowError
  | TsOSError msg => OSError msg
  end.

(** [float(s)] and [datetime.datetime.fromtimestamp(f)] are taken from the
    Python runtime; for [float], [None] stands for the [ValueError] it
    raises. *)
Class PyFloat : Type := {
  F : Type;
  F0 : F;
  float_of_str : string -> option F;
  T : Type;
  fromtimestamp : F -> T + timestamp_error;
}.

(** [(.+?)\}\]] tried at the head of [s]: the shortest non-empty run of
    characters, none a newline, that is followed by [}]]. *)
Fixpoint lazy_until_close (s : string) : option string :=
  match s with
  | EmptyString => None
  | String c s' =>
      if Ascii.eqb c newline then None
      else if is_prefix "}]" s' then Some (String c EmptyString)
      else match lazy_until_close s' with
           | Some g => Some (String c g)
           | None => None
           end
  end.

Definition series_key : string := dquote +:+ "s" +:+ dquote +:+ ":[".

(** [re.search('"s":\[(.+?)\}\]', raw_data)], group 1 of the leftmost match. *)
Fixpoint search_series (raw_data : string) : option string :=
  match (if is_prefix series_key raw_data
         then lazy_until_close (drop_str (String.length series_key) raw_data)
         else None) with
  | Some g => Some g
  | None =>
      match raw_data with
      | EmptyString => None
      | String _ r' => search_series r'
      end
  end.

(** [s.split(sep)] for a non-empty [sep]; [skip] counts the characters of a
    separator occurrence still to be consumed. *)
Fixpoint py_split_go (sep : string) (skip : nat) (s : string) : string * list string :=
  match s with
  | EmptyString => (EmptyString, [])
  | String c s' =>
      match skip with
      | S k => py_split_go sep k s'
      | O =>
          if is_prefix sep s
          then let '(p, ps) := py_split_go sep (String.length sep - 1) s' in
               (EmptyString, p :: ps)
          else let '(p, ps) := py_split_go sep 0 s' in (String c p, ps)
      end
  end.

Definition py_split (sep s : string) : list string :=
  let '(p, ps) := py_split_go sep 0 s in p :: ps.

Definition record_sep : string := ",{" +:+ dquote.

(** [re.split("\[|:|,|\]", xi)] *)
Definition is_field_sep (c : ascii) : bool := char_in c "[:,]".

Fixpoint re_split_go (s : string) : string * list string :=
  match s with
  | EmptyString => (EmptyString, [])
  | String c s' =>
      let '(p, ps) := re_split_go s' in
      if is_field_sep c then (EmptyString, p :: ps) else (String c p, ps)
  end.

Definition re_split_fields (s : string) : list string :=
  let '(p, ps) := re_split_go s in p :: ps.

Section Parser.
Context `{PyFloat}.

(** One line of the frame: the [symbol] column, the [datetime] index and the
    five price and volume columns. *)
Record bar : Type := {
  b_symbol : string;
  b_datetime : T;
  b_open : F;
  b_high : F;
  b_low : F;
  b_close : F;
  b_volume : F;
}.

(** A [pd.DataFrame]; [pd.DataFrame()] is the empty list, and [df.empty]
    holds of it alone. *)
Definition DataFrame : Type := list bar.

Definition df_empty (df : DataFrame) : bool :=
  match df with [] => true | _ => false end.

(** State of the inner loop [for i in range(5, 10)]: the sticky flag, the
    columns appended so far, and (as a ghost) the positions whose parse was
    attempted. *)
Record field_state : Type := {
  volume_data : bool;
  row : list F;
  attempted : list nat;
}.

Definition field_step (xi : list string) (st : field_state) (i : nat) : field_state :=
  if negb (volume_data st) && (i =? 9) then
    {| volume_data := volume_data st; row := row st ++ [F0];
       attempted := attempted st |}
  else
    match xi !! i with
    | Some tok =>
        match float_of_str tok with
        | Some f =>
            {| volume_data := volume_data st; row := row st ++ [f];
               attempted := attempted st ++ [i] |}
        | None =>
            {| volume_data := if i =? 9 then false else volume_data st;
               row := row st ++ [F0]; attempted := attempted st ++ [i] |}
        end
    | None =>
        {| volume_data := if i =? 9 then false else volume_data st;
           row := row st ++ [F0]; attempted := attempted st ++ [i] |}
    end.

Definition parse_fields (xi : list string) (vd : bool) : field_state :=
  fold_left (field_step xi)
    (seq 5 5) {| volume_data := vd; row := []; attempted := [] |}.

(** [datetime.datetime.fromtimestamp(float(xi[4]))] *)
Definition parse_ts (xi : list string) : res T :=
  match xi !! 4 with
  | None => Raise IndexError
  | Some tok =>
      match float_of_str tok with
      | None => Raise (ValueError "could not convert string to float")
      | Some f =>
          match fromtimestamp f with
          | inr err => Raise (timestamp_exn err)
          | inl ts => Ok ts
          end
      end
  end.

(** A parsed record: timestamp, the five columns, and the ghost list of
    positions on which [float] was tried. *)
Definition parsed_row : Type := T * list F * list nat.

(** The loop [for xi in x], threading [volume_data]. *)
Fixpoint parse_rows (vd : bool) (x : list string) : res (list parsed_row) :=
  match x with
  | [] => Ok []
  | chunk :: rest =>
      let xi := re_split_fields chunk in
      match parse_ts xi with
      | Raise e => Raise e
      | Ok ts =>
          let st := parse_fields xi vd in
          match parse_rows (volume_data st) rest with
          | Raise e => Raise e
          | Ok rows => Ok ((ts, row st, attempted st) :: rows)
          end
      end
  end.

(** [pd.DataFrame(data, columns=[...]).set_index("datetime")] followed by
    [data.insert(0, "symbol", value=symbol)]. *)
Definition mk_bar (symbol : string) (r : parsed_row) : bar :=
  let '(ts, cols, _) := r in
  {| b_symbol := symbol; b_datetime := ts;
     b_open := nth 0 cols F0; b_high := nth 1 cols F0; b_low := nth 2 cols F0;
     b_close := nth 3 cols F0; b_volume := nth 4 cols F0 |}.

Definition create_df (raw_data symbol : string) : res DataFrame :=
  match search_series raw_data with
  | None => Ok []                          (* AttributeError, caught *)
  | Some out =>
      match parse_rows true (py_split record_sep out) with
      | Ok rows => Ok (List.map (mk_bar symbol) rows)
      | Raise AttributeError => Ok []
      | Raise IndexError => Ok []
      | Raise e => Raise e
      end
  end.
End Parser.

(** ** Symbol formatting: [TvDatafeed.__format_symbol] *)

(** The values a caller can pass for [contract]. *)
Inductive pyval : Type :=
| PyNone
| PyBool (b : bool)
| PyInt (z : Z)
| PyStr (s : string).

Definition is_None (v : pyval) : bool :=
  match v with PyNone => true | _ => false end.

(** [isinstance(v, int)]; [bool] is a subclass of [int]. *)
Definition isinstance_int (v : pyval) : bool :=
  match v with
  | PyBool _ | PyInt _ => true
  | _ => false
  end.

(** [f"{v}"] *)
Definition format_value (v : pyval) : string :=
  match v with
  | PyNone => "None"
  | PyBool true => "True"
  | PyBool false => "False"
  | PyInt z => str_Z z
  | PyStr s => s
  end.

Definition format_symbol (symbol : string) (exchange : option string)
    (contract : pyval) : res string :=
  if str_in ":" symbol then Ok symbol
  else if is_None contract then Ok symbol
  else if isinstance_int contract
       then Ok (symbol +:+ format_value contract +:+ "!")
       else Raise (ValueError "Not a valid contract").

Inductive Interval : Type :=
| in_1_minute | in_3_minute | in_5_minute | in_15_minute | in_30_minute
| in_45_minute | in_1_hour | in_2_hour | in_3_hour | in_4_hour
| in_daily | in_weekly | in_monthly.

Definition interval_value (i : Interval) : string :=
  match i with
  | in_1_minute => "1" | in_3_minute => "3" | in_5_minute => "5"
  | in_15_minute => "15" | in_30_minute => "30" | in_45_minute => "45"
  | in_1_hour => "1H" | in_2_hour => "2H" | in_3_hour => "3H" | in_4_hour => "4H"
  | in_daily => "1D" | in_weekly => "1W" | in_monthly => "1M"
  end.

(** ** Argument values *)







(** ** The outside world: the WebSocket peer and the random source *)

(** [websocket.create_connection], the methods [send], [recv] and [close] of
    the connection it returns (named by a handle), and [random]'s choice of an
    index below a bound.  [W] is the state of the world; a [Raise] is the
    exception the call ends with. *)
Class Transport (W : Type) : Type := {
  create_connection : W -> res nat * W;
  ws_send : nat -> string -> W -> res unit * W;
  ws_recv : nat -> W -> res string * W;
  ws_close : nat -> W -> res unit * W;
  randbelow : nat -> W -> nat * W;
}.

(** The Qt signals of [DataFetchThread].  [progress] carries the operands
    [idx + 1] and [total_symbols] of [int(((idx + 1) / total_symbols) * 100)],
    which Python computes in floating point. *)
Inductive signal `{PyFloat} : Type :=
| log_message (msg color : string)
| progress (done total : nat)
| data_fetched (results : gmap string DataFrame)
| error (msg : string).

(** What a run does to the world, in order. *)
Inductive event `{PyFloat} : Type :=
| EvConnect (r : res nat)
| EvSend (h : nat) (func : string) (params : list json) (r : res unit)
| EvRecv (h : nat) (r : res string)
| EvClose (h : nat)
| EvSleep (secs : nat)
| EvEmit (s : signal)
| EvPrint (line : string).

(** The mutable part of a [TvDatafeed] object together with the world it
    acts on: [ws] is [None] until the attribute [self.ws] has been assigned.
    [self.token] is fixed by [__init__] and is passed as a parameter. *)
Record client (W : Type) : Type := {
  world : W;
  ws : option nat;
}.
Arguments world {W} c.
Arguments ws {W} c.

Definition set_world {W} (c : client W) (w : W) : client W :=
  {| world := w; ws := ws c |}.

Definition set_ws {W} (c : client W) (h : nat) : client W :=
  {| world := world c; ws := Some h |}.

(** Computations of the client: state, exceptions and the trace of events. *)
Definition M `{PyFloat} (W A : Type) : Type :=
  client W -> res A * client W * list event.

Section Monad.
Context `{PyFloat}.

Definition ret {W A} (a : A) : M W A := fun c => (Ok a, c, []).

Definition raise {W A} (e : exn) : M W A := fun c => (Raise e, c, []).

Definition bind {W A B} (m : M W A) (k : A -> M W B) : M W B :=
fun c =>
  let '(r, c1, t1) := m c in
  match r with
  | Raise e => (Raise e, c1, t1)
  | Ok a => let '(r2, c2, t2) := k a c1 in (r2, c2, t1 ++ t2)
  end.

(** [try: m  except Exception as e: h e] *)
Definition try_except {W A} (m : M W A) (h : exn -> M W A) : M W A :=
fun c =>
  let '(r, c1, t1) := m c in
  match r with
  | Ok a => (Ok a, c1, t1)
  | Raise e => let '(r2, c2, t2) := h e c1 in (r2, c2, t1 ++ t2)
  end.

(** [try: m  finally: fin] *)
Definition try_finally {W A} (m : M W A) (fin : M W unit) : M W A :=
fun c =>
  let '(r, c1, t1) := m c in
  let '(rf, c2, t2) := fin c1 in
  match rf with
  | Raise e => (Raise e, c2, t1 ++ t2)
  | Ok _ => (r, c2, t1 ++ t2)
  end.

Definition lift {W A} (r : res A) : M W A := fun c => (r, c, []).

End Monad.

Notation "'let*' x ':=' m 'in' k" := (bind m (fun x => k))
  (at level 10, x name, m at level 100, k at level 200).
Notation "m '>>' k" := (bind m (fun _ => k))
  (at level 100, k at level 200, right associativity).

(** ** The client: [TvDatafeed] *)

Definition max_retries : nat := 3.
Definition retry_delay : nat := 3.
Definition max_messages : nat := 100.
Definition ascii_lowercase : string := "abcdefghijklmnopqrstuvwxyz".

Section Client.
Context `{PyFloat} {W : Type} `{Transport W}.
Variable token : string.

Definition sleep (secs : nat) : M W unit := fun c => (Ok tt, c, [EvSleep secs]).

(** [random.choice(seq)] *)
Definition random_choice (letters : string) : M W ascii :=
  fun c =>
    let '(k, w) := randbelow (String.length letters) (world c) in
    let ch := match String.get (k mod String.length letters) letters with
              | Some a => a
              | None => "a"%char
              end in
    (Ok ch, set_world c w, []).

(** ["".join(random.choice(letters) for i in range(n))] *)
Fixpoint random_string (n : nat) : M W string :=
  match n with
  | O => ret EmptyString
  | S k =>
      let* ch := random_choice ascii_lowercase in
      let* rest := random_string k in
      ret (String ch rest)
  end.

Definition generate_session : M W string :=
  let* random_string := random_string 12 in
  ret ("qs_" +:+ random_string).

Definition generate_chart_session : M W string :=
  let* random_string := random_string 12 in
  ret ("cs_" +:+ random_string).

(** One call of [create_connection]; on success [self.ws] is assigned. *)
Definition connect_once : M W unit :=
  fun c =>
    let '(r, w) := create_connection (world c) in
    match r with
    | Ok h => (Ok tt, set_ws (set_world c w) h, [EvConnect r])
    | Raise e => (Raise e, set_world c w, [EvConnect r])
    end.

(** [__create_connection]: the loop over [range(max_retries)]. *)
Fixpoint create_connection_loop (attempts : list nat) : M W unit :=
  match attempts with
  | [] => raise (Exception "Failed to create WebSocket connection after all retries")
  | attempt :: rest =>
      let* connected :=
        try_except (connect_once >> ret true)
          (fun _ =>
             (if attempt <? max_retries - 1 then sleep retry_delay else ret tt) >>
             ret false) in
      if connected then ret tt else create_connection_loop rest
  end.

Definition create_connection_retry : M W unit :=
  create_connection_loop (seq 0 max_retries).

(** [__send_message]: [self.ws.send(m)], re-raising what [send] raises. *)
Definition send_message (func : string) (args : list json) : M W unit :=
  fun c =>
    let m := create_message func args in
    match ws c with
    | None => (Raise AttributeError, c, [])
    | Some h =>
        let '(r, w) := ws_send h m (world c) in
        (r, set_world c w, [EvSend h func args r])
    end.

(** [self.ws.recv()] *)
Definition recv : M W string :=
  fun c =>
    match ws c with
    | None => (Raise AttributeError, c, [])
    | Some h =>
        let '(r, w) := ws_recv h (world c) in
        (r, set_world c w, [EvRecv h r])
    end.

(** The [finally] clause of an attempt: close [self.ws] if the attribute is
    set, swallowing whatever [close] raises. *)
Definition close_ws : M W unit :=
  fun c =>
    match ws c with
    | None => (Ok tt, c, [])
    | Some h =>
        let '(_, w) := ws_close h (world c) in
        (Ok tt, set_world c w, [EvClose h])
    end.

Fixpoint send_all (msgs : list (string * list json)) : M W unit :=
  match msgs with
  | [] => ret tt
  | (func, args) :: rest => send_message func args >> send_all rest
  end.

Definition quote_fields : list string :=
  ["ch"; "chp"; "current_session"; "description"; "local_description";
   "language"; "exchange"; "fractional"; "is_tradable"; "lp"; "lp_time";
   "minmov"; "minmove2"; "original_name"; "pricescale"; "pro_name";
   "short_name"; "type"; "update_mode"; "volume"; "currency_code"; "rchp"; "rtc"].

Definition resolve_payload (formatted_symbol : string) (extended_session : bool) : string :=
  "={" +:+ dquote +:+ "symbol" +:+ dquote +:+ ":" +:+ dquote +:+ formatted_symbol
    +:+ dquote +:+ "," +:+ dquote +:+ "adjustment" +:+ dquote +:+ ":" +:+ dquote
    +:+ "splits" +:+ dquote +:+ "," +:+ dquote +:+ "session" +:+ dquote +:+ ":"
    +:+ dquote +:+ (if negb extended_session then "regular" else "extended")
    +:+ dquote +:+ "}".

(** The nine [__send_message] calls of an attempt, in program order. *)
Definition handshake (tok session chart_session formatted_symbol interval_value : string)
    (n_bars : Z) (extended_session : bool) : list (string * list json) :=
  [ ("set_auth_token", [JStr tok]);
    ("chart_create_session", [JStr chart_session; JStr ""]);
    ("quote_create_session", [JStr session]);
    ("quote_set_fields", JStr session :: List.map JStr quote_fields);
    ("quote_add_symbols",
      [JStr session; JStr formatted_symbol;
       JDict [("flags", JList [JStr "force_permission"])]]);
    ("quote_fast_symbols", [JStr session; JStr formatted_symbol]);
    ("resolve_symbol",
      [JStr chart_session; JStr "symbol_1";
       JStr (resolve_payload formatted_symbol extended_session)]);
    ("create_series",
      [JStr chart_session; JStr "s1"; JStr "s1"; JStr "symbol_1";
       JStr interval_value; JInt n_bars]);
    ("switch_timezone", [JStr chart_session; JStr "exchange"]) ].

(** How one turn of the [while] loop ends. *)
Inductive turn : Type :=
| Continue (raw_data : string)
| Break
| Return (df : DataFrame).

(** The body of [while message_count < max_messages], with its own
    [try ... except Exception: break]. *)
Definition read_turn (formatted_symbol raw_data : string) : M W turn :=
  try_except
    (let* result := recv in
     let raw_data := raw_data +:+ result +:+ nl in
     if str_in "series_completed" result then
       let* df := lift (create_df raw_data formatted_symbol) in
       if negb (df_empty df) then ret (Return df) else ret Break
     else if str_in "series_error" result then ret Break
     else ret (Continue raw_data))
    (fun _ => ret Break).

(** The [while] loop; [remaining] is [max_messages - message_count].  The
    result is [Some df] for [return df] and [None] when the loop is left. *)
Fixpoint read_loop (formatted_symbol : string) (remaining : nat) (raw_data : string)
    : M W (option DataFrame) :=
  match remaining with
  | O => ret None
  | S k =>
      let* t := read_turn formatted_symbol raw_data in
      match t with
      | Continue raw_data' => read_loop formatted_symbol k raw_data'
      | Break => ret None
      | Return df => ret (Some df)
      end
  end.

(** The [try] block of one attempt. *)
Definition attempt_try (session chart_session formatted_symbol interval_value : string)
    (n_bars : Z) (extended_session : bool) : M W (option DataFrame) :=
  create_connection_retry >>
  send_all (handshake token session chart_session formatted_symbol
              interval_value n_bars extended_session) >>
  read_loop formatted_symbol max_messages EmptyString.

(** One iteration of [for attempt in range(max_retries)]. *)
Definition attempt_body (session chart_session formatted_symbol interval_value : string)
    (n_bars : Z) (extended_session : bool) (attempt : nat) : M W (option DataFrame) :=
  let* returned :=
    try_finally
      (try_except
         (attempt_try session chart_session formatted_symbol interval_value
            n_bars extended_session)
         (fun _ => ret None))
      close_ws in
  match returned with
  | Some df => ret (Some df)
  | None =>
      (if attempt <? max_retries - 1 then sleep retry_delay else ret tt) >>
      ret None
  end.

Fixpoint attempt_loop (body : nat -> M W (option DataFrame)) (attempts : list nat)
    : M W DataFrame :=
  match attempts with
  | [] => ret []
  | attempt :: rest =>
      let* returned := body attempt in
      match returned with
      | Some df => ret df
      | None => attempt_loop body rest
      end
  end.

(** [get_hist] from [__format_symbol] on, for a [symbol] and an [exchange]
    that are strings and an [interval] that is a member of [Interval]; the
    [print] of its first line and arguments of other types are the matter of
    [get_hist_call] below. *)
Definition get_hist (symbol exchange : string) (interval : Interval) (n_bars : Z)
    (fut_contract : pyval) (extended_session : bool) : M W DataFrame :=
  let* formatted_symbol := lift (format_symbol symbol None fut_contract) in
  let interval_value := interval_value interval in
  let* session := generate_session in
  let* chart_session := generate_chart_session in
  attempt_loop
    (attempt_body session chart_session formatted_symbol interval_value
       n_bars extended_session)
    (seq 0 max_retries).



(** [get_multiple_hist]: the loop [for symbol in symbols] filling [results]. *)
Fixpoint get_multiple_hist_loop (n_symbols : nat) (exchange : string)
    (interval : Interval) (n_bars : Z) (fut_contract : pyval)
    (extended_session : bool) (results : gmap string DataFrame)
    (symbols : list string) : M W (gmap string DataFrame) :=
  match symbols with
  | [] => ret results
  | symbol :: rest =>
      let* df := get_hist symbol exchange interval n_bars fut_contract
                   extended_session in
      let results := <[symbol := df]> results in
      (if 1 <? n_symbols then sleep 2 else ret tt) >>
      get_multiple_hist_loop n_symbols exchange interval n_bars fut_contract
        extended_session results rest
  end.

Definition get_multiple_hist (symbols : list string) (exchange : string)
    (interval : Interval) (n_bars : Z) (fut_contract : pyval)
    (extended_session : bool) : M W (gmap string DataFrame) :=
  get_multiple_hist_loop (length symbols) exchange interval n_bars fut_contract
    extended_session ∅ symbols.
End Client.

(** ** The batch coordinator: [DataFetchThread.run] of [data.py] *)

(** [s.replace(old, new)] for a non-empty [old]; [skip] counts the characters
    of the occurrence being replaced that are still to be dropped. *)
Fixpoint str_replace_go (old new : string) (skip : nat) (s : string) : string :=
  match s with
  | EmptyString => EmptyString
  | String c s' =>
      match skip with
      | S k => str_replace_go old new k s'
      | O =>
          if is_prefix old s
          then new +:+ str_replace_go old new (String.length old - 1) s'
          else String c (str_replace_go old new 0 s')
      end
  end.

Definition str_replace (old new s : string) : string := str_replace_go old new 0 s.

(** [str(e)] *)
Definition exn_str (e : exn) : string :=
  match e with
  | AttributeError => "'NoneType' object has no attribute"
  | IndexError => "list index out of range"
  | ValueError msg => msg
  | OverflowError => "timestamp out of range for platform time_t"
  | TypeError msg => msg
  | OSError msg => msg
  | Exception msg => msg
  end.

(** The two copies of the per-symbol attempt loop differ in their log texts
    only: the first pass, and retry round [retry_round]. *)
Inductive phase : Type :=
| FirstPass
| RetryRound (retry_round : nat).

Section Batch.
Context `{PyFloat} {W : Type} `{Transport W}.
Variable token : string.
Variables (exchange : string) (interval : Interval) (n_bars : Z).
Variable thread_max_retries : nat.

Definition emit (s : signal) : M W unit := fun c => (Ok tt, c, [EvEmit s]).

Definition msg_fetching (ph : phase) (symbol : string) (attempt : nat) : string :=
  match ph with
  | FirstPass =>
      "Fetching " +:+ str_Z n_bars +:+ " rows for " +:+ symbol +:+ " (Attempt "
        +:+ str (attempt + 1) +:+ "/" +:+ str thread_max_retries +:+ ")"
  | RetryRound retry_round =>
      "Retrying " +:+ symbol +:+ " (Round " +:+ str retry_round +:+ ", Attempt "
        +:+ str (attempt + 1) +:+ "/" +:+ str thread_max_retries +:+ ")"
  end.

Definition msg_downloaded (ph : phase) (rows : nat) (symbol : string) : string :=
  "Downloaded " +:+ str rows +:+ " rows for " +:+ symbol
    +:+ match ph with FirstPass => "" | RetryRound _ => " on retry" end.

Definition msg_no_data (ph : phase) (symbol : string) (attempt : nat) : string :=
  "No data for " +:+ symbol
    +:+ match ph with FirstPass => " (Attempt " | RetryRound _ => " (Retry attempt " end
    +:+ str (attempt + 1) +:+ ")".

Definition msg_error (ph : phase) (symbol : string) (attempt : nat) (e : exn) : string :=
  match ph with FirstPass => "Error fetching " | RetryRound _ => "Error retrying " end
    +:+ symbol +:+ " (Attempt " +:+ str (attempt + 1) +:+ "): " +:+ exn_str e.

(** [df["symbol"].str.replace(f"{self.exchange}:", "", regex=False)] on the
    frame after [reset_index]. *)
Definition strip_exchange (df : DataFrame) : DataFrame :=
  List.map
    (fun b =>
       {| b_symbol := str_replace (exchange +:+ ":") "" (b_symbol b);
          b_datetime := b_datetime b; b_open := b_open b; b_high := b_high b;
          b_low := b_low b; b_close := b_close b; b_volume := b_volume b |})
    df.

(** The [try] block around one [self.tv.get_hist] call: [Some df] when the
    attempt succeeded and [results[symbol] = df] is to be done. *)
Definition fetch_once (ph : phase) (symbol : string) (attempt : nat)
    : M W (option DataFrame) :=
  try_except
    (let* df := get_hist token symbol exchange interval n_bars PyNone false in
     if negb (df_empty df) then
       let df := strip_exchange df in
       emit (log_message (msg_downloaded ph (length df) symbol) "#22c55e") >>
       ret (Some df)
     else
       emit (log_message (msg_no_data ph symbol attempt) "#ef4444") >> ret None)
    (fun e =>
       emit (log_message (msg_error ph symbol attempt e) "#ef4444") >> ret None).

(** [for attempt in range(self.max_retries)] with its [break]; the result is
    [success] and the updated [results]. *)
Fixpoint fetch_attempts (ph : phase) (symbol : string)
    (results : gmap string DataFrame) (attempts : list nat)
    : M W (bool * gmap string DataFrame) :=
  match attempts with
  | [] => ret (false, results)
  | attempt :: rest =>
      emit (log_message (msg_fetching ph symbol attempt) "#60a5fa") >>
      let* got := fetch_once ph symbol attempt in
      match got with
      | Some df => ret (true, <[symbol := df]> results)
      | None => sleep 1 >> fetch_attempts ph symbol results rest
      end
  end.

(** [for idx, symbol in enumerate(self.symbols)] *)
Fixpoint first_pass (total_symbols idx : nat) (results : gmap string DataFrame)
    (failed_symbols symbols : list string)
    : M W (gmap string DataFrame * list string) :=
  match symbols with
  | [] => ret (results, failed_symbols)
  | symbol :: rest =>
      let* p := fetch_attempts FirstPass symbol results (seq 0 thread_max_retries) in
      let '(success, results) := p in
      let* failed_symbols :=
        (if success then ret failed_symbols
         else
           emit (log_message
                   ("Failed to download " +:+ symbol +:+ " after "
                      +:+ str thread_max_retries +:+ " attempts") "#ef4444") >>
           ret (failed_symbols ++ [symbol])) in
      emit (progress (idx + 1) total_symbols) >>
      first_pass total_symbols (S idx) results failed_symbols rest
  end.

(** [for symbol in failed_symbols] of one retry round. *)
Fixpoint retry_symbols (retry_round : nat) (results : gmap string DataFrame)
    (new_failed symbols : list string)
    : M W (gmap string DataFrame * list string) :=
  match symbols with
  | [] => ret (results, new_failed)
  | symbol :: rest =>
      let* p := fetch_attempts (RetryRound retry_round) symbol results
                  (seq 0 thread_max_retries) in
      let '(success, results) := p in
      let new_failed := if success then new_failed else new_failed ++ [symbol] in
      retry_symbols retry_round results new_failed rest
  end.

(** [while failed_symbols and retry_round <= self.max_retries]; [rounds] lists
    the values [retry_round] still has to take. *)
Fixpoint retry_rounds (rounds : list nat) (results : gmap string DataFrame)
    (failed_symbols : list string)
    : M W (gmap string DataFrame * list string) :=
  match rounds with
  | [] => ret (results, failed_symbols)
  | retry_round :: rest =>
      match failed_symbols with
      | [] => ret (results, failed_symbols)
      | _ :: _ =>
          emit (log_message
                  ("Retry round " +:+ str retry_round +:+ " for "
                     +:+ str (length failed_symbols) +:+ " symbols: "
                     +:+ String.concat ", " failed_symbols) "#f59e0b") >>
          let* p := retry_symbols retry_round results [] failed_symbols in
          let '(results, new_failed) := p in
          retry_rounds rest results new_failed
      end
  end.

(** Everything of [run] before the closing log line: the final [results] and
    [failed_symbols]. *)
Definition run_fetch (symbols : list string)
    : M W (gmap string DataFrame * list string) :=
  let total_symbols := length symbols in
  let* p := first_pass total_symbols 0 ∅ [] symbols in
  let '(results, failed_symbols) := p in
  retry_rounds (seq 1 thread_max_retries) results failed_symbols.

Definition final_log (total_symbols : nat) (failed_symbols : list string) : signal :=
  match failed_symbols with
  | _ :: _ =>
      log_message ("Final failures: " +:+ String.concat ", " failed_symbols) "#ef4444"
  | [] =>
      log_message ("All " +:+ str total_symbols +:+ " symbols fetched successfully")
        "#22c55e"
  end.

Definition run (symbols : list string) : M W unit :=
  try_except
    (let* p := run_fetch symbols in
     let '(results, failed_symbols) := p in
     emit (final_log (length symbols) failed_symbols) >>
     emit (data_fetched results))
    (fun e => emit (error (exn_str e))).
End Batch.

(** ** A scripted world and a small number model, for running the model *)

(** A world that answers from scripts: each call consumes the next entry of
    its list.  When a script has run out, opening a connection and receiving
    fail, sending and closing succeed, and the random source yields 0. *)
Record scripted : Type := {
  opens : list (res nat);
  sends : list (res unit);
  recvs : list (res string);
  draws : list nat;
}.

#[export] Instance scripted_transport : Transport scripted := {|
  create_connection w :=
    match opens w with
    | [] => (Raise (Exception "connection refused"), w)
    | r :: rest =>
        (r, {| opens := rest; sends := sends w; recvs := recvs w; draws := draws w |})
    end;
  ws_send _ _ w :=
    match sends w with
    | [] => (Ok tt, w)
    | r :: rest =>
        (r, {| opens := opens w; sends := rest; recvs := recvs w; draws := draws w |})
    end;
  ws_recv _ w :=
    match recvs w with
    | [] => (Raise (Exception "timed out"), w)
    | r :: rest =>
        (r, {| opens := opens w; sends := sends w; recvs := rest; draws := draws w |})
    end;
  ws_close _ w := (Ok tt, w);
  randbelow _ w :=
    match draws w with
    | [] => (0, w)
    | k :: rest =>
        (k, {| opens := opens w; sends := sends w; recvs := recvs w; draws := rest |})
    end;
|}.

(** A sample runtime.  Numbers are restricted to unsigned decimal integer
    literals, which [float] accepts, and timestamps are kept as the number of
    seconds.  [fromtimestamp] rejects large numbers in the three ways CPython
    does on a 64-bit platform, with the boundaries rounded to powers of two:
    from [2^38] on the year is out of range (CPython: after the year 9999),
    from [2^56] on [localtime] fails because the year does not fit an [int],
    and from [2^63] on the number does not fit [time_t]. *)
#[export] Instance int_floats : PyFloat := {|
  F := Z;
  F0 := 0%Z;
  float_of_str s :=
    match s with
    | EmptyString => None
    | _ => option_map Z.of_uint (NilEmpty.uint_of_string s)
    end;
  T := Z;
  fromtimestamp f :=
    if (Z.log2 f <=? 37)%Z then inl f
    else if (Z.log2 f <=? 55)%Z then inr (TsValueError "year is out of range")
    else if (Z.log2 f <=? 62)%Z then
      inr (TsOSError "[Errno 75] Value too large for defined data type")
    else inr TsOverflowError;
|}.

Definition fresh_client (w : scripted) : client scripted :=
  {| world := w; ws := None |}.

Definition anonymous_token : string := "unauthorized_user_token".

Definition dead_world : scripted :=
  {| opens := []; sends := []; recvs := []; draws := [] |}.

(** ** Character classes *)

Fixpoint all_chars (P : ascii -> bool) (s : string) : bool :=
  match s with
  | EmptyString => true
  | String c s' => P c && all_chars P s'
  end.

Definition is_ascii (c : ascii) : bool := nat_of_ascii c <? 128.

Definition is_digit_or_minus (c : ascii) : bool := is_digit c || Ascii.eqb c "-".

Definition is_lower (c : ascii) : bool :=
  let n := nat_of_ascii c in (97 <=? n) && (n <=? 122).

Definition no_newline (c : ascii) : bool := negb (Ascii.eqb c newline).

(** ** Observations on runs and traces *)

Definition is_raise {A} (r : res A) : bool :=
  match r with Raise _ => true | Ok _ => false end.

Definition is_ok {A} (r : res A) : bool :=
  match r with Ok _ => true | Raise _ => false end.

Section Observables.
Context `{PyFloat}.

Definition result {W A} (x : res A * client W * list event) : res A := x.1.1.

Definition final {W A} (x : res A * client W * list event) : client W := x.1.2.

Definition trace {W A} (x : res A * client W * list event) : list event := x.2.

(** The [(func, args)] of the [send] calls, the results of the [recv] calls,
    the results of the [create_connection] calls and the emitted signals of a
    trace, each in order. *)
Definition sent (t : list event) : list (string * list json) :=
  omap (fun e => match e with EvSend _ f p _ => Some (f, p) | _ => None end) t.

Definition received (t : list event) : list (res string) :=
  omap (fun e => match e with EvRecv _ r => Some r | _ => None end) t.

Definition connects (t : list event) : list (res nat) :=
  omap (fun e => match e with EvConnect r => Some r | _ => None end) t.

Definition signals (t : list event) : list signal :=
  omap (fun e => match e with EvEmit s => Some s | _ => None end) t.

(** A trace without sends, receives and signals. *)
Definition quiet (t : list event) : Prop :=
  sent t = [] /\ received t = [] /\ signals t = [].

End Observables.

(** The first parameter of the two session-creating messages of a trace. *)
Definition session_ids `{PyFloat} (t : list event) : list json :=
  omap (fun fp =>
          if String.eqb (fst fp) "quote_create_session"
             || String.eqb (fst fp) "chart_create_session"
          then head (snd fp) else None)
       (sent t).

Definition is_log `{PyFloat} (s : signal) : bool :=
  match s with log_message _ _ => true | _ => false end.

(** A signal that reports on the way: a log line or a progress value. *)
Definition is_report `{PyFloat} (s : signal) : bool :=
  match s with log_message _ _ | progress _ _ => true | _ => false end.

Definition reports `{PyFloat} (t : list event) : bool := forallb is_report (signals t).

(** The signals other than log lines. *)
Definition without_logs `{PyFloat} (sigs : list signal) : list signal :=
  List.filter (fun s => negb (is_log s)) sigs.

(** ** Terminal markers and the accumulated text *)

Definition completed_marker : string := "series_completed".

Definition error_marker : string := "series_error".

(** No terminal marker occurs in [msg]. *)
Definition unmarked (msg : string) : Prop :=
  str_in completed_marker msg = false /\ str_in error_marker msg = false.

(** Every receive that is followed by another one returned a message, and
    none of those messages carries a terminal marker. *)
Definition reads_on (rs : list (res string)) : Prop :=
  forall pre x post, rs = pre ++ x :: post ->
    exists msgs, pre = List.map Ok msgs /\ Forall unmarked msgs.

(** The text [raw_data] after the messages [msgs] have been received. *)
Definition accumulated (msgs : list string) : string :=
  fold_left (fun raw_data result => raw_data +:+ result +:+ nl) msgs "".

Fixpoint joined_lines (msgs : list string) : string :=
  match msgs with
  | [] => ""
  | m :: rest => m +:+ String newline (joined_lines rest)
  end.

(** ** Attempts *)

(** The combinations of symbol and [fut_contract] that [__format_symbol]
    accepts. *)
Definition contract_accepted (symbol : string) (fut_contract : pyval) : bool :=
  str_in ":" symbol || is_None fut_contract || isinstance_int fut_contract.

(** The names of the protocol functions, in the order of the program text. *)
Definition send_order : list string :=
  ["set_auth_token"; "chart_create_session"; "quote_create_session";
   "quote_set_fields"; "quote_add_symbols"; "quote_fast_symbols";
   "resolve_symbol"; "create_series"; "switch_timezone"].

Section Attempts.
Context `{PyFloat} {W : Type} `{Transport W}.
Variable token : string.

(** What the trace of one attempt looks like. *)
Record attempt_ok (msgs : list (string * list json)) (t : list event) : Prop := {
  att_sent : sent t `prefix_of` msgs;
  att_sent_all : received t <> [] -> sent t = msgs;
  att_connects : length (connects t) <= max_retries;
  att_received : length (received t) <= max_messages;
  att_reads_on : reads_on (received t);
  att_signals : signals t = [];
}.

(** The traces of the attempts a loop makes from state [c], one per attempt. *)
Fixpoint attempt_traces (body : nat -> M W (option DataFrame)) (attempts : list nat)
    (c : client W) : list (list event) :=
  match attempts with
  | [] => []
  | attempt :: rest =>
      let '(r, c1, t1) := body attempt c in
      t1 :: match r with
            | Ok None => attempt_traces body rest c1
            | _ => []
            end
  end.

(** The traces of the attempts of one [get_hist] call. *)
Definition get_hist_attempts (symbol : string) (interval : Interval) (n_bars : Z)
    (fut_contract : pyval) (extended_session : bool) (c : client W)
    : list (list event) :=
  match format_symbol symbol None fut_contract with
  | Raise _ => []
  | Ok formatted_symbol =>
      let '(rs, c1, _) := generate_session c in
      let '(rcs, c2, _) := generate_chart_session c1 in
      match rs, rcs with
      | Ok session, Ok chart_session =>
          attempt_traces
            (attempt_body token session chart_session formatted_symbol
               (interval_value interval) n_bars extended_session)
            (seq 0 max_retries) c2
      | _, _ => []
      end
  end.

End Attempts.

(** ** Parsed fields *)

Section Fields.
Context `{PyFloat}.

(** [float(xi[i])], with [None] for both [IndexError] and [ValueError]. *)
Definition field (xi : list string) (i : nat) : option F :=
  match xi !! i with
  | Some tok => float_of_str tok
  | None => None
  end.

(** The value a column gets: the parsed number, or [0.0]. *)
Definition number (xi : list string) (i : nat) : F :=
  match field xi i with
  | Some f => f
  | None => F0
  end.

Definition some_field (xi : list string) (i : nat) : bool :=
  match field xi i with Some _ => true | None => false end.

Definition volume_parses (chunk : string) : bool :=
  match field (re_split_fields chunk) 9 with
  | Some _ => true
  | None => false
  end.

Definition timestamp_parses (chunk : string) : bool :=
  is_ok (parse_ts (re_split_fields chunk)).

End Fields.

(** ** Invariants of the batch loops *)

Section BatchInvariants.
Context `{PyFloat}.

(** What a loop of the coordinator maintains: [results] only grows, by
    non-empty frames of the symbols it handles. *)
Definition grows (symbols : list string) (results results' : gmap string DataFrame)
    : Prop :=
  dom results ⊆ dom results'
  /\ dom results' ⊆ dom results ∪ list_to_set symbols
  /\ (map_Forall (fun _ df => df <> []) results ->
      map_Forall (fun _ df => df <> []) results').

(** After a loop over [symbols]: the failures recorded before are kept, new
    ones come from [symbols], and every symbol of [symbols] is now either a
    key of [results'] or recorded as failed. *)
Definition sorted_out (symbols failed failed' : list string)
    (results' : gmap string DataFrame) : Prop :=
  (forall s, s ∈ failed -> s ∈ failed')
  /\ (forall s, s ∈ failed' -> s ∈ failed \/ s ∈ symbols)
  /\ (forall s, s ∈ symbols -> s ∈ dom results' \/ s ∈ failed').

End BatchInvariants.

(** ** Worlds and inputs used in the examples *)

(** The world in which nothing can be reached. *)
#[export] Instance unreachable : Transport unit := {|
  create_connection w := (Raise (Exception "connection refused"), w);
  ws_send _ _ w := (Raise (Exception "not connected"), w);
  ws_recv _ w := (Raise (Exception "not connected"), w);
  ws_close _ w := (Ok tt, w);
  randbelow _ w := (0, w);
|}.

(** A peer that accepts three connections and answers each handshake with a
    series error. *)
Definition failing_series_world : scripted :=
  {| opens := [Ok 1; Ok 2; Ok 3];
     sends := [];
     recvs := [Ok "series_error"; Ok "series_error"; Ok "series_error"];
     draws := seq 0 24 |}.

Definition quoted (s : string) : string := dquote +:+ s +:+ dquote.

(** One bar of a [timescale_update] message. *)
Definition bar_json (i values : string) : string :=
  "{" +:+ quoted "i" +:+ ":" +:+ i +:+ "," +:+ quoted "v" +:+ ":[" +:+ values +:+ "]}".

(** A [timescale_update] message with five bars; the third has no volume
    field, the fourth and fifth have one again. *)
Definition five_bar_message : string :=
  "~m~420~m~{" +:+ quoted "m" +:+ ":" +:+ quoted "timescale_update" +:+ ","
    +:+ quoted "p" +:+ ":[" +:+ quoted "cs_mnopqrstuvwx" +:+ ",{" +:+ quoted "s1"
    +:+ ":{" +:+ quoted "node" +:+ ":" +:+ quoted "x" +:+ "," +:+ quoted "s" +:+ ":["
    +:+ String.concat ","
          [ bar_json "0" "1600000000,100,101,99,100,5000";
            bar_json "1" "1600086400,101,102,100,101,6000";
            bar_json "2" "1600172800,102,103,101,102";
            bar_json "3" "1600259200,103,104,102,103,7000";
            bar_json "4" "1600345600,104,105,103,104,8000" ]
    +:+ "]," +:+ quoted "ns" +:+ ":{" +:+ quoted "d" +:+ ":" +:+ quoted ""
    +:+ "}}}]}".

(** The record chunks [__create_df] cuts out of that message. *)
Definition five_records : list string :=
  match search_series five_bar_message with
  | Some out => py_split record_sep out
  | None => []
  end.

(** A peer that answers the handshake with the five bars and the completion
    notice. *)
Definition five_bar_world : scripted :=
  {| opens := [Ok 1];
     sends := [];
     recvs := [Ok five_bar_message;
               Ok ("~m~60~m~{" +:+ quoted "m" +:+ ":" +:+ quoted "series_completed" +:+ "}")];
     draws := seq 0 24 |}.

(** A batch of one symbol run against the world in which nothing can be
    reached, and the [failed_symbols] it ends with. *)
Definition dead_batch (symbol : string) : res unit * client scripted * list event :=
  run (H := int_floats) anonymous_token "NSE" in_daily 10 3 [symbol]
    (fresh_client dead_world).

Definition dead_batch_failed (symbol : string)
    : res (gmap string DataFrame * list string) :=
  result (run_fetch (H := int_floats) anonymous_token "NSE" in_daily 10 3 [symbol]
            (fresh_client dead_world)).

(** ** Further observations *)

(** The characters [' '] to ['~']. *)
Definition is_printable (c : ascii) : bool :=
  let n := nat_of_ascii c in (32 <=? n) && (n <=? 126).

Section MoreObservables.
Context `{PyFloat}.

(** The durations of the [time.sleep] calls of a trace, the handles on which
    [send] or [recv] was called, and the handles that were closed. *)
Definition sleeps (t : list event) : list nat :=
  omap (fun e => match e with EvSleep secs => Some secs | _ => None end) t.

Definition handles_used (t : list event) : list nat :=
  omap (fun e => match e with
                 | EvSend h _ _ _ | EvRecv h _ => Some h
                 | _ => None
                 end) t.

Definition closes (t : list event) : list nat :=
  omap (fun e => match e with EvClose h => Some h | _ => None end) t.


(** The trace without its [time.sleep] calls. *)
Definition without_sleeps (t : list event) : list event :=
  List.filter (fun e => match e with EvSleep _ => false | _ => true end) t.

End MoreObservables.

(** The frame [get_hist] returns against [five_bar_world]. *)
Definition five_bar_frame : DataFrame (H := int_floats) :=
  List.map
    (fun '(ts, o, h, l, cl, v) =>
       {| b_symbol := "RELIANCE"; b_datetime := ts; b_open := o; b_high := h;
          b_low := l; b_close := cl; b_volume := v |})
    [ (1600000000, 100, 101, 99, 100, 5000); (1600086400, 101, 102, 100, 101, 6000);
      (1600172800, 102, 103, 101, 102, 0); (1600259200, 103, 104, 102, 103, 0);
      (1600345600, 104, 105, 103, 104, 0) ]%Z.

(** A peer that accepts every connection and every message and answers each
    read with a [series_error] notice; its state counts the connections. *)
#[export] Instance rejecting_peer : Transport nat := {|
  create_connection n := (Ok n, S n);
  ws_send _ _ n := (Ok tt, n);
  ws_recv _ n :=
    (Ok ("~m~20~m~{" +:+ quoted "m" +:+ ":" +:+ quoted "series_error" +:+ "}"), n);
  ws_close _ n := (Ok tt, n);
  randbelow _ n := (0, n);
|}.

(** The events of an attempt that connects to [h], sends [msgs] and reads
    [msg] once before closing. *)
Definition one_read_attempt `{PyFloat} (h : nat) (msgs : list (string * list json))
    (msg : string) : list event :=
  EvConnect (Ok h) :: List.map (fun m => EvSend h m.1 m.2 (Ok tt)) msgs
    ++ [EvRecv h (Ok msg); EvClose h].

(** [timescale_update] payloads of two bars: the second bar with a timestamp
    that is not a number, with a timestamp in milliseconds, and with a record
    that stops before the timestamp. *)
Definition series_payload (bars : list string) : string :=
  "{" +:+ quoted "s" +:+ ":[" +:+ String.concat "," bars +:+ "]," +:+ quoted "ns"
    +:+ ":{}}".

Definition bad_timestamp_message : string :=
  series_payload [ bar_json "0" "1600000000,100,101,99,100,5000";
                   bar_json "1" "null,101,102,100,101,6000" ].

Definition late_timestamp_message : string :=
  series_payload [ bar_json "0" "1600000000,100,101,99,100,5000";
                   bar_json "1" "10000000000000,101,102,100,101,6000" ].

(** The record chunks [__create_df] cuts out of it. *)
Definition late_timestamp_records : list string :=
  match search_series late_timestamp_message with
  | Some out => py_split record_sep out
  | None => []
  end.

Definition short_record_message : string :=
  series_payload [ bar_json "0" "1600000000,100,101,99,100,5000";
                   "{" +:+ quoted "i" +:+ ":1}" ].

(** ** What the coordinator stores and reports *)

Section BatchObservables.
Context `{PyFloat} {W : Type} `{Transport W}.
Variable token : string.
Variables (exchange : string) (interval : Interval) (n_bars : Z).

(** [df] is what [run] stores for [symbol]: a non-empty frame some
    [get_hist] call for that symbol returned, with the exchange prefix removed
    from its symbol column. *)
Definition stored_frame (symbol : string) (df : DataFrame) : Prop :=
  exists (c0 : client W) (df0 : DataFrame),
    result (get_hist token symbol exchange interval n_bars PyNone false c0) = Ok df0
    /\ df0 <> [] /\ df = strip_exchange exchange df0.

(** The [progress] signals for the symbols at positions [idx], ...,
    [idx + count - 1] of [total_symbols]. *)
Definition progress_steps (total_symbols idx count : nat) : list signal :=
  List.map (fun i => progress (i + 1) total_symbols) (seq idx count).

End BatchObservables.

(** ** Sign-in and symbol search: [__init__], [__auth] and [search_symbol] *)

(** Decoded JSON values, as far as the client handles them: it subscripts
    them, takes their [len], tests them against [None] and returns them. *)
Class PyValue : Type := {
  V : Type;
  py_none : V;
  py_str : string -> V;
  py_list_empty : V;
  is_none : V -> bool;
  (** [v[key]]; [None] when the subscript raises ([KeyError], [TypeError]) *)
  subscript : V -> string -> option V;
  (** whether [len(v)] returns *)
  has_len : V -> bool;
  is_none_none : is_none py_none = true;
  is_none_str : forall s, is_none (py_str s) = false;
  has_len_empty : has_len py_list_empty = true;
}.

(** A [requests.Response]. *)
Record response : Type := {
  status_code : Z;
  text : string;
}.

(** The HTTP side of the outside world; [json] decoding yields [None] when it
    raises. *)
Class Http (W : Type) `{PyValue} : Type := {
  requests_post : string -> list (string * string) -> W -> res response * W;
  requests_get : string -> W -> res response * W;
  response_json : response -> option V;
  json_loads : string -> option V;
}.

Inductive http_event : Type :=
| HttpPost (url : string) (data : list (string * string)) (r : res response)
| HttpGet (url : string) (r : res response)
| HttpSleep (secs : nat).

Definition sign_in_url : string := "https://www.tradingview.com/accounts/signin/".

(** [self.__search_url.format(text, exchange)] *)
Definition search_url (text exchange : string) : string :=
  "https://symbol-search.tradingview.com/symbol_search/?text=" +:+ text
    +:+ "&hl=1&exchange=" +:+ exchange +:+ "&lang=en&type=&domain=production".

Section Http.
Context `{PyValue} {W : Type} `{!Http W}.

(** [response.json()['user']['auth_token']] *)
Definition auth_token_of (resp : response) : option V :=
  match response_json resp with
  | None => None
  | Some j =>
      match subscript j "user" with
      | None => None
      | Some user => subscript user "auth_token"
      end
  end.

(** What the [except] clause of both retry loops does before the next turn. *)
Definition pause_after (attempt : nat) : list http_event :=
  if attempt <? max_retries - 1 then [HttpSleep retry_delay] else [].

(** The loop of [__auth] over [range(max_retries)]. *)
Fixpoint auth_loop (data : list (string * string)) (attempts : list nat) (w : W)
    : V * W * list http_event :=
  match attempts with
  | [] => (py_none, w, [])
  | attempt :: rest =>
      let '(r, w1) := requests_post sign_in_url data w in
      let next_attempt (pause : list http_event) :=
        let '(token, w2, t) := auth_loop data rest w1 in
        (token, w2, HttpPost sign_in_url data r :: pause ++ t) in
      match r with
      | Ok resp =>
          if (status_code resp =? 200)%Z then
            match auth_token_of resp with
            | Some token => (token, w1, [HttpPost sign_in_url data r])
            | None => next_attempt (pause_after attempt)
            end
          else next_attempt []
      | Raise _ => next_attempt (pause_after attempt)
      end
  end.

(** [__auth] *)
Definition auth (username password : option string) (w : W)
    : V * W * list http_event :=
  match username, password with
  | Some u, Some p =>
      auth_loop [("username", u); ("password", p); ("remember", "on")]
        (seq 0 max_retries) w
  | _, _ => (py_none, w, [])
  end.

(** [__init__]: the value of [self.token]. *)
Definition init (username password : option string) (w : W)
    : V * W * list http_event :=
  let '(token, w1, t) := auth username password w in
  (if is_none token then py_str "unauthorized_user_token" else token, w1, t).

(** [json.loads(resp.text.replace('</em>', '').replace('<em>', ''))], with
    the [len(symbols_list)] of the log line that follows it. *)
Definition symbols_list_of (resp : response) : option V :=
  match json_loads (str_replace "<em>" "" (str_replace "</em>" "" (text resp))) with
  | Some symbols_list => if has_len symbols_list then Some symbols_list else None
  | None => None
  end.

(** The loop of [search_symbol]. *)
Fixpoint search_loop (url : string) (attempts : list nat) (w : W)
    : V * W * list http_event :=
  match attempts with
  | [] => (py_list_empty, w, [])
  | attempt :: rest =>
      let '(r, w1) := requests_get url w in
      let next_attempt (pause : list http_event) :=
        let '(found, w2, t) := search_loop url rest w1 in
        (found, w2, HttpGet url r :: pause ++ t) in
      match r with
      | Ok resp =>
          if (status_code resp =? 200)%Z then
            match symbols_list_of resp with
            | Some symbols_list => (symbols_list, w1, [HttpGet url r])
            | None => next_attempt (pause_after attempt)
            end
          else next_attempt []
      | Raise _ => next_attempt (pause_after attempt)
      end
  end.

Definition search_symbol (text exchange : string) (w : W)
    : V * W * list http_event :=
  search_loop (search_url text exchange) (seq 0 max_retries) w.

(** The requests of a trace with their outcomes, and its sleeps. *)
Definition http_requests (t : list http_event) : list (string * res response) :=
  omap (fun e => match e with
                 | HttpPost url _ r => Some (url, r)
                 | HttpGet url r => Some (url, r)
                 | HttpSleep _ => None
                 end) t.

Definition http_sleeps (t : list http_event) : list nat :=
  omap (fun e => match e with HttpSleep secs => Some secs | _ => None end) t.

(** The token a sign-in request yielded, if it did. *)
Definition signed_in (r : res response) : option V :=
  match r with
  | Ok resp => if (status_code resp =? 200)%Z then auth_token_of resp else None
  | Raise _ => None
  end.

(** The list a search request yielded, if it did. *)
Definition found_symbols (r : res response) : option V :=
  match r with
  | Ok resp => if (status_code resp =? 200)%Z then symbols_list_of resp else None
  | Raise _ => None
  end.

(** A request that ended in the [except] clause: it raised, or it was
    answered with status 200 and a body the client could not use. *)
Definition ended_in_except (usable : response -> bool) (r : res response) : bool :=
  match r with
  | Ok resp => (status_code resp =? 200)%Z && negb (usable resp)
  | Raise _ => true
  end.

End Http.

(** JSON values as decoded values, and an HTTP world that answers from
    scripts and decodes the texts it is given a decoding for. *)
Definition json_subscript (v : json) (key : string) : option json :=
  match v with
  | JDict kvs =>
      match List.find (fun kv => String.eqb (fst kv) key) kvs with
      | Some kv => Some (snd kv)
      | None => None
      end
  | _ => None
  end.

#[export] Instance json_values : PyValue := {|
  V := json;
  py_none := JNull;
  py_str := JStr;
  py_list_empty := JList [];
  is_none v := match v with JNull => true | _ => false end;
  subscript := json_subscript;
  has_len v := match v with JStr _ | JList _ | JDict _ => true | _ => false end;
  is_none_none := eq_refl;
  is_none_str := fun _ => eq_refl;
  has_len_empty := eq_refl;
|}.

Record scripted_http : Type := {
  post_replies : list (res response);
  get_replies : list (res response);
}.

Definition decode_known (known : list json) (s : string) : option json :=
  List.find (fun j => String.eqb (json_dumps ", " ": " j) s) known.

Definition known_bodies : list json :=
  [ JDict [("user", JDict [("auth_token", JStr "secret")])];
    JDict [("error", JStr "invalid credentials")];
    JList [JDict [("symbol", JStr "RELIANCE")]];
    JInt 7 ].

#[export] Instance scripted_http_world : Http scripted_http := {|
  requests_post _ _ w :=
    match post_replies w with
    | [] => (Raise (Exception "timed out"), w)
    | r :: rest => (r, {| post_replies := rest; get_replies := get_replies w |})
    end;
  requests_get _ w :=
    match get_replies w with
    | [] => (Raise (Exception "timed out"), w)
    | r :: rest => (r, {| post_replies := post_replies w; get_replies := rest |})
    end;
  response_json resp := decode_known known_bodies (text resp);
  json_loads := decode_known known_bodies;
|}.

(** The common form of the two retry loops of the HTTP functions: [request]
    is the call made, [extract] what is done with an answer of status 200,
    [default] the value returned when every attempt has failed. *)
Section RetryLoop.
Context `{PyValue} {W : Type} `{!Http W}.
Variables (request : W -> res response * W) (extract : response -> option V).
Variables (default : V) (event : res response -> http_event).

Fixpoint retry_loop (attempts : list nat) (w : W) : V * W * list http_event :=
  match attempts with
  | [] => (default, w, [])
  | attempt :: rest =>
      let '(r, w1) := request w in
      let next_attempt (pause : list http_event) :=
        let '(v, w2, t) := retry_loop rest w1 in
        (v, w2, event r :: pause ++ t) in
      match r with
      | Ok resp =>
          if (status_code resp =? 200)%Z then
            match extract resp with
            | Some v => (v, w1, [event r])
            | None => next_attempt (pause_after attempt)
            end
          else next_attempt []
      | Raise _ => next_attempt (pause_after attempt)
      end
  end.

(** What a request yielded, if it was answered with status 200 and a usable
    body. *)
Definition yielded (r : res response) : option V :=
  match r with
  | Ok resp => if (status_code resp =? 200)%Z then extract resp else None
  | Raise _ => None
  end.

Definition usable (resp : response) : bool :=
  match extract resp with Some _ => true | None => false end.

End RetryLoop.

(** The outcomes of the requests of a trace. *)
Definition responses (t : list http_event) : list (res response) :=
  List.map snd (http_requests t).

(** The texts of the bodies in [known_bodies], as a server would send them. *)
Definition body (j : json) : string := json_dumps ", " ": " j.

Definition reply (status : Z) (j : json) : res response :=
  Ok {| status_code := status; text := body j |}.

Definition credentials : list (string * string) :=
  [("username", "u"); ("password", "p"); ("remember", "on")].

(** ** The window's handler of [data_fetched]: [on_data_fetched] of [data.py] *)


Section Window.
Context `{PyFloat}.








End Window.


(* ================================================================== *)
(** * Part II: properties                                              *)
(* ================================================================== *)

(** ** Strings *)

Lemma app_assoc_str (a b c : string) : (a +:+ b) +:+ c = a +:+ (b +:+ c).
Proof. induction a as [|x a IH]; simpl; [reflexivity | now rewrite IH]. Qed.

Lemma app_empty_r (a : string) : a +:+ "" = a.
Proof. induction a as [|x a IH]; simpl; [reflexivity | now rewrite IH]. Qed.

Lemma length_app_str (a b : string) :
  String.length (a +:+ b) = String.length a + String.length b.
Proof. induction a as [|x a IH]; simpl; [reflexivity | now rewrite IH]. Qed.

Lemma all_chars_app P (a b : string) :
  all_chars P (a +:+ b) = all_chars P a && all_chars P b.
Proof.
  induction a as [|x a IH]; simpl; [reflexivity |].
  now rewrite IH, andb_assoc.
Qed.

Lemma all_chars_impl (P Q : ascii -> bool) (s : string) :
  (forall c, P c = true -> Q c = true) ->
  all_chars P s = true -> all_chars Q s = true.
Proof.
  intros HPQ. induction s as [|x s IH]; simpl; [reflexivity |].
  intros [Hx Hs]%andb_true_iff. rewrite (HPQ _ Hx). now apply IH.
Qed.

Lemma all_chars_concat P sep (l : list string) :
  all_chars P sep = true ->
  Forall (fun s => all_chars P s = true) l ->
  all_chars P (String.concat sep l) = true.
Proof.
  intros Hsep. induction 1 as [|s l Hs Hl IH]; simpl; [reflexivity |].
  destruct l as [|s' l']; [assumption |].
  rewrite !all_chars_app, Hs, Hsep. exact IH.
Qed.

Lemma count_char_app c (a b : string) :
  count_char c (a +:+ b) = count_char c a + count_char c b.
Proof. induction a as [|x a IH]; simpl; [reflexivity | rewrite IH; lia]. Qed.

Lemma count_char_absent c P (s : string) :
  P c = false -> all_chars P s = true -> count_char c s = 0.
Proof.
  intros Hc. induction s as [|x s IH]; simpl; [reflexivity |].
  intros [Hx Hs]%andb_true_iff. rewrite (IH Hs).
  destruct (Ascii.eqb_spec c x) as [->|]; [congruence | reflexivity].
Qed.

Lemma take_str_length (s : string) : take_str (String.length s) s = s.
Proof. induction s as [|x s IH]; simpl; [reflexivity | now rewrite IH]. Qed.

Lemma drop_str_length (s : string) : drop_str (String.length s) s = "".
Proof. induction s as [|x s IH]; simpl; [reflexivity | exact IH]. Qed.

Lemma utf8_encode_ascii (s : string) :
  all_chars is_ascii s = true -> utf8_encode s = s.
Proof.
  induction s as [|x s IH]; simpl; [reflexivity |].
  intros [Hx Hs]%andb_true_iff. unfold is_ascii in Hx. rewrite Hx.
  now rewrite IH.
Qed.

(** ** Decimal numerals *)

Lemma digits_string_of_uint (d : Decimal.uint) :
  all_chars is_digit (NilEmpty.string_of_uint d) = true.
Proof. induction d; simpl; auto. Qed.

Lemma is_digit_ascii c : is_digit c = true -> is_ascii c = true.
Proof.
  unfold is_digit, is_ascii. intros [_ Hle]%andb_true_iff.
  apply Nat.leb_le in Hle. apply Nat.ltb_lt. lia.
Qed.

Lemma str_digits (n : nat) : all_chars is_digit (str n) = true.
Proof. apply digits_string_of_uint. Qed.

Lemma str_Z_chars (z : Z) : all_chars is_digit_or_minus (str_Z z) = true.
Proof.
  assert (Hu : forall d, all_chars is_digit_or_minus (NilZero.string_of_uint d) = true).
  { intros d. apply all_chars_impl with (P := is_digit).
    - intros c Hc. unfold is_digit_or_minus. now rewrite Hc.
    - destruct d; try apply digits_string_of_uint. reflexivity. }
  unfold str_Z, NilZero.string_of_int.
  destruct (Z.to_int z); simpl; auto.
Qed.

Lemma span_digits_app (ds rest : string) :
  all_chars is_digit ds = true ->
  match rest with EmptyString => True | String c _ => is_digit c = false end ->
  span_digits (ds +:+ rest) = (ds, rest).
Proof.
  intros Hds Hrest. induction ds as [|x ds IH]; simpl in *.
  - destruct rest as [|c r]; simpl; [reflexivity | now rewrite Hrest].
  - apply andb_true_iff in Hds as [Hx Hds]. rewrite Hx, (IH Hds). reflexivity.
Qed.

(** ** JSON *)

(** Induction on JSON values, through the lists of children. *)
Lemma json_rect' (P : json -> Prop) :
  P JNull -> (forall b, P (JBool b)) -> (forall z, P (JInt z)) ->
  (forall s, P (JStr s)) ->
  (forall l, Forall P l -> P (JList l)) ->
  (forall kvs, Forall (fun kv => P (snd kv)) kvs -> P (JDict kvs)) ->
  forall v, P v.
Proof.
  intros Hn Hb Hz Hs Hl Hd.
  fix IH 1. intros [| b | z | s | l | kvs].
  - exact Hn.
  - apply Hb.
  - apply Hz.
  - apply Hs.
  - apply Hl. induction l as [|v l IHl]; constructor; [apply IH | exact IHl].
  - apply Hd. induction kvs as [|[k v] kvs IHl]; constructor;
      [apply IH | exact IHl].
Qed.

Lemma escape_char_ascii c : all_chars is_ascii (escape_char c) = true.
Proof. destruct c as [[] [] [] [] [] [] [] []]; reflexivity. Qed.

Lemma escape_char_spaces c :
  count_char " " (escape_char c) = if Ascii.eqb " " c then 1 else 0.
Proof. destruct c as [[] [] [] [] [] [] [] []]; reflexivity. Qed.

Lemma escape_body_ascii s : all_chars is_ascii (escape_body s) = true.
Proof.
  induction s as [|c s IH]; simpl; [reflexivity |].
  now rewrite all_chars_app, escape_char_ascii, IH.
Qed.

Lemma escape_body_spaces s : count_char " " (escape_body s) = count_char " " s.
Proof.
  induction s as [|c s IH]; simpl; [reflexivity |].
  now rewrite count_char_app, escape_char_spaces, IH.
Qed.

Lemma encode_basestring_ascii_ascii s :
  all_chars is_ascii (encode_basestring_ascii s) = true.
Proof.
  unfold encode_basestring_ascii.
  now rewrite !all_chars_app, escape_body_ascii.
Qed.

Lemma encode_basestring_ascii_spaces s :
  count_char " " (encode_basestring_ascii s) = count_char " " s.
Proof.
  unfold encode_basestring_ascii.
  rewrite !count_char_app, escape_body_spaces. simpl. lia.
Qed.

Lemma str_Z_ascii z : all_chars is_ascii (str_Z z) = true.
Proof.
  apply all_chars_impl with (P := is_digit_or_minus); [| apply str_Z_chars].
  intros c [Hc|Hc]%orb_true_iff; [now apply is_digit_ascii |].
  apply Ascii.eqb_eq in Hc as ->. reflexivity.
Qed.

Lemma str_Z_spaces z : count_char " " (str_Z z) = 0.
Proof.
  apply count_char_absent with (P := is_digit_or_minus);
    [reflexivity | apply str_Z_chars].
Qed.

(** With [ensure_ascii], the output of [json.dumps] is pure ASCII whenever
    the separators are. *)
Lemma json_dumps_ascii item_sep key_sep v :
  all_chars is_ascii item_sep = true -> all_chars is_ascii key_sep = true ->
  all_chars is_ascii (json_dumps item_sep key_sep v) = true.
Proof.
  intros Hi Hk. induction v as [| b | z | s | l IH | kvs IH] using json_rect'.
  - reflexivity.
  - now destruct b.
  - apply str_Z_ascii.
  - apply encode_basestring_ascii_ascii.
  - cbn [json_dumps]. rewrite !all_chars_app.
    apply andb_true_iff; split; [reflexivity |].
    apply andb_true_iff; split; [| reflexivity].
    apply all_chars_concat; [exact Hi |].
    induction IH; constructor; auto.
  - cbn [json_dumps]. rewrite !all_chars_app.
    apply andb_true_iff; split; [reflexivity |].
    apply andb_true_iff; split; [| reflexivity].
    apply all_chars_concat; [exact Hi |].
    induction IH as [|kv kvs Hkv _ IHk]; constructor; [| exact IHk].
    cbv beta. now rewrite !all_chars_app, encode_basestring_ascii_ascii, Hk, Hkv.
Qed.

Lemma count_char_concat c sep (l : list string) :
  count_char c sep = 0 ->
  count_char c (String.concat sep l) = list_sum (List.map (count_char c) l).
Proof.
  intros Hsep. induction l as [|s l IH]; simpl; [reflexivity |].
  destruct l as [|s' l'].
  - simpl. lia.
  - rewrite !count_char_app, Hsep, IH. simpl. lia.
Qed.

(** The compact separators add no space: the spaces of the output are those
    of the string leaves and keys. *)
Lemma json_dumps_compact_spaces v :
  count_char " " (json_dumps "," ":" v) = json_spaces v.
Proof.
  induction v as [| b | z | s | l IH | kvs IH] using json_rect'.
  - reflexivity.
  - now destruct b.
  - apply str_Z_spaces.
  - apply encode_basestring_ascii_spaces.
  - cbn [json_dumps json_spaces].
    rewrite !count_char_app, count_char_concat, List.map_map by reflexivity.
    change (count_char " " "[") with 0. change (count_char " " "]") with 0.
    rewrite Nat.add_0_r, Nat.add_0_l. f_equal.
    now apply List.map_ext_Forall.
  - cbn [json_dumps json_spaces].
    rewrite !count_char_app, count_char_concat, List.map_map by reflexivity.
    change (count_char " " "{") with 0. change (count_char " " "}") with 0.
    rewrite Nat.add_0_r, Nat.add_0_l. f_equal.
    apply List.map_ext_Forall.
    induction IH as [|kv kvs Hkv _ IHk]; constructor; [| exact IHk].
    rewrite !count_char_app, encode_basestring_ascii_spaces, Hkv.
    change (count_char " " ":") with 0. lia.
Qed.

(** ** MessageCodec *)

Lemma construct_message_ascii func param_list :
  all_chars is_ascii (construct_message func param_list) = true.
Proof. now apply json_dumps_ascii. Qed.

Lemma byte_length_ascii s :
  all_chars is_ascii s = true -> byte_length s = String.length s.
Proof. intros Hs. unfold byte_length. now rewrite utf8_encode_ascii. Qed.

Lemma strip_frame_marker (x : string) : strip_prefix "~m~" ("~m~" +:+ x) = Some x.
Proof. reflexivity. Qed.

Lemma decode_frame_header (payload : string) :
  decode_frame ("~m~" +:+ str (String.length payload) +:+ "~m~" +:+ payload)
  = Some (String.length payload, payload, "").
Proof.
  unfold decode_frame. rewrite strip_frame_marker.
  rewrite span_digits_app; [| apply str_digits | reflexivity].
  unfold str at 1. rewrite NilEmpty.usu, strip_frame_marker.
  cbv zeta. rewrite DecimalNat.Unsigned.of_to, Nat.leb_refl.
  now rewrite take_str_length, drop_str_length.
Qed.

(** C5.  The encoded message is ["~m~" + L + "~m~" + J], where [J] is the
    JSON text of [{"m": func, "p": param_list}] written with the separators
    [","] and [":"] (its only spaces are those of the strings it carries) and
    [L] is the number of bytes of [J]; reading the length prefix back from
    the bytes on the wire yields that length and exactly the bytes of [J],
    with nothing left over. *)
Theorem create_message_frame (func : string) (param_list : list json) :
  let J := json_dumps "," ":" (JDict [("m", JStr func); ("p", JList param_list)]) in
  create_message func param_list = "~m~" +:+ str (byte_length J) +:+ "~m~" +:+ J
  /\ count_char " " J
     = count_char " " func + list_sum (List.map json_spaces param_list)
  /\ decode_frame (utf8_encode (create_message func param_list))
     = Some (byte_length J, utf8_encode J, "").
Proof.
  intros J.
  assert (HJ : all_chars is_ascii J = true) by apply construct_message_ascii.
  assert (HL : byte_length J = String.length J) by now apply byte_length_ascii.
  assert (Hmsg : create_message func param_list
                 = "~m~" +:+ str (byte_length J) +:+ "~m~" +:+ J).
  { unfold create_message, prepend_header, construct_message. fold J.
    now rewrite HL. }
  split; [exact Hmsg |]. split.
  - unfold J. rewrite json_dumps_compact_spaces. simpl. lia.
  - rewrite Hmsg, utf8_encode_ascii.
    + rewrite HL, (utf8_encode_ascii J HJ). apply decode_frame_header.
    + rewrite !all_chars_app, HJ.
      rewrite (all_chars_impl is_digit is_ascii _ is_digit_ascii (str_digits _)).
      reflexivity.
Qed.

(** ** Observations on runs and traces *)

Section Observations.
Context `{PyFloat}.

Lemma sent_app t1 t2 : sent (t1 ++ t2) = sent t1 ++ sent t2.
Proof. apply omap_app. Qed.

Lemma received_app t1 t2 : received (t1 ++ t2) = received t1 ++ received t2.
Proof. apply omap_app. Qed.

Lemma connects_app t1 t2 : connects (t1 ++ t2) = connects t1 ++ connects t2.
Proof. apply omap_app. Qed.

Lemma signals_app t1 t2 : signals (t1 ++ t2) = signals t1 ++ signals t2.
Proof. apply omap_app. Qed.

#[local] Arguments sent {_} !t / : simpl nomatch.
#[local] Arguments received {_} !t / : simpl nomatch.
#[local] Arguments connects {_} !t / : simpl nomatch.
#[local] Arguments signals {_} !t / : simpl nomatch.

Context {W : Type}.

Lemma result_bind {A B} (m : M W A) (k : A -> M W B) c :
  result (bind m k c)
  = match result (m c) with
    | Ok a => result (k a (final (m c)))
    | Raise e => Raise e
    end.
Proof.
  unfold bind, result, final. destruct (m c) as [[[a|e] c1] t1]; simpl; [| reflexivity].
  now destruct (k a c1) as [[r2 c2] t2].
Qed.

Lemma final_bind {A B} (m : M W A) (k : A -> M W B) c :
  final (bind m k c)
  = match result (m c) with
    | Ok a => final (k a (final (m c)))
    | Raise e => final (m c)
    end.
Proof.
  unfold bind, result, final. destruct (m c) as [[[a|e] c1] t1]; simpl; [| reflexivity].
  now destruct (k a c1) as [[r2 c2] t2].
Qed.

Lemma trace_bind {A B} (m : M W A) (k : A -> M W B) c :
  trace (bind m k c)
  = trace (m c) ++ match result (m c) with
                   | Ok a => trace (k a (final (m c)))
                   | Raise e => []
                   end.
Proof.
  unfold bind, result, final, trace.
  destruct (m c) as [[[a|e] c1] t1]; simpl; [| now rewrite app_nil_r].
  now destruct (k a c1) as [[r2 c2] t2].
Qed.

Lemma result_try_except {A} (m : M W A) (h : exn -> M W A) c :
  result (try_except m h c)
  = match result (m c) with
    | Ok a => Ok a
    | Raise e => result (h e (final (m c)))
    end.
Proof.
  unfold try_except, result, final. destruct (m c) as [[[a|e] c1] t1]; simpl; [reflexivity |].
  now destruct (h e c1) as [[r2 c2] t2].
Qed.

Lemma final_try_except {A} (m : M W A) (h : exn -> M W A) c :
  final (try_except m h c)
  = match result (m c) with
    | Ok a => final (m c)
    | Raise e => final (h e (final (m c)))
    end.
Proof.
  unfold try_except, result, final. destruct (m c) as [[[a|e] c1] t1]; simpl; [reflexivity |].
  now destruct (h e c1) as [[r2 c2] t2].
Qed.

Lemma trace_try_except {A} (m : M W A) (h : exn -> M W A) c :
  trace (try_except m h c)
  = trace (m c) ++ match result (m c) with
                   | Ok a => []
                   | Raise e => trace (h e (final (m c)))
                   end.
Proof.
  unfold try_except, result, final, trace.
  destruct (m c) as [[[a|e] c1] t1]; simpl; [now rewrite app_nil_r |].
  now destruct (h e c1) as [[r2 c2] t2].
Qed.

Lemma result_try_finally {A} (m : M W A) (fin : M W unit) c :
  result (try_finally m fin c)
  = match result (fin (final (m c))) with
    | Ok _ => result (m c)
    | Raise e => Raise e
    end.
Proof.
  unfold try_finally, result, final. destruct (m c) as [[r c1] t1]; simpl.
  now destruct (fin c1) as [[[u|e] c2] t2].
Qed.

Lemma final_try_finally {A} (m : M W A) (fin : M W unit) c :
  final (try_finally m fin c) = final (fin (final (m c))).
Proof.
  unfold try_finally, result, final. destruct (m c) as [[r c1] t1]; simpl.
  now destruct (fin c1) as [[[u|e] c2] t2].
Qed.

Lemma trace_try_finally {A} (m : M W A) (fin : M W unit) c :
  trace (try_finally m fin c) = trace (m c) ++ trace (fin (final (m c))).
Proof.
  unfold try_finally, result, final, trace. destruct (m c) as [[r c1] t1]; simpl.
  now destruct (fin c1) as [[[u|e] c2] t2].
Qed.

(** Inversion of a run through each combinator. *)
Lemma bind_run {A B} (m : M W A) (k : A -> M W B) c r c' t :
  bind m k c = (r, c', t) ->
  (exists e, m c = (Raise e, c', t) /\ r = Raise e)
  \/ (exists a c1 t1 t2, m c = (Ok a, c1, t1) /\ k a c1 = (r, c', t2) /\ t = t1 ++ t2).
Proof.
  unfold bind. destruct (m c) as [[[a|e] c1] t1].
  - destruct (k a c1) as [[r2 c2] t2] eqn:Hk. intros [= <- <- <-].
    right. now exists a, c1, t1, t2.
  - intros [= <- <- <-]. left. now exists e.
Qed.

Lemma try_except_run {A} (m : M W A) (h : exn -> M W A) c r c' t :
  try_except m h c = (r, c', t) ->
  (exists a, m c = (Ok a, c', t) /\ r = Ok a)
  \/ (exists e c1 t1 t2, m c = (Raise e, c1, t1) /\ h e c1 = (r, c', t2) /\ t = t1 ++ t2).
Proof.
  unfold try_except. destruct (m c) as [[[a|e] c1] t1].
  - intros [= <- <- <-]. left. now exists a.
  - destruct (h e c1) as [[r2 c2] t2] eqn:Hh. intros [= <- <- <-].
    right. now exists e, c1, t1, t2.
Qed.

Lemma try_finally_run {A} (m : M W A) (fin : M W unit) c r c' t :
  try_finally m fin c = (r, c', t) ->
  exists r1 c1 t1 rf t2,
    m c = (r1, c1, t1) /\ fin c1 = (rf, c', t2) /\ t = t1 ++ t2
    /\ r = match rf with Ok _ => r1 | Raise e => Raise e end.
Proof.
  unfold try_finally. destruct (m c) as [[r1 c1] t1].
  destruct (fin c1) as [[rf c2] t2] eqn:Hf.
  destruct rf as [u|e]; intros [= <- <- <-].
  - now exists r1, c1, t1, (Ok u), t2.
  - now exists r1, c1, t1, (Raise e), t2.
Qed.

Lemma bind_silent {A B} (m : M W A) (k : A -> M W B) c a c1 :
  m c = (Ok a, c1, []) -> bind m k c = k a c1.
Proof.
  intros Hm. unfold bind. rewrite Hm. now destruct (k a c1) as [[r2 c2] t2].
Qed.

Lemma run_eta {A} (x : res A * client W * list event) :
  x = (result x, final x, trace x).
Proof. now destruct x as [[r c] t]. Qed.

End Observations.

(** Inverts the hypotheses that describe a run through the combinators. *)
Ltac inv_step :=
  match goal with
  | H : bind _ _ _ = (_, _, _) |- _ =>
      apply bind_run in H as [(? & H & ?) | (? & ? & ? & ? & H & ? & ?)]
  | H : try_except _ _ _ = (_, _, _) |- _ =>
      apply try_except_run in H as [(? & H & ?) | (? & ? & ? & ? & H & ? & ?)]
  | H : try_finally _ _ _ = (_, _, _) |- _ =>
      apply try_finally_run in H as (? & ? & ? & ? & ? & H & ? & ? & ?)
  | H : ret _ _ = (_, _, _) |- _ => unfold ret in H
  | H : raise _ _ = (_, _, _) |- _ => unfold raise in H
  | H : lift _ _ = (_, _, _) |- _ => unfold lift in H
  | H : sleep _ _ = (_, _, _) |- _ => unfold sleep in H
  | H : (if ?b then _ else _) _ = (_, _, _) |- _ => destruct b eqn:?
  | H : match ?x with _ => _ end _ = (_, _, _) |- _ => is_var x; destruct x
  end.

Ltac inv_run := repeat (simplify_eq; inv_step); simplify_eq.

(** Computes the observations of a trace built from known events. *)
Ltac obs := autorewrite with run; cbn [sent received connects signals omap list_omap
                                        app length]; cbv beta iota.

#[local] Arguments sent {_} !t / : simpl nomatch.
#[local] Arguments received {_} !t / : simpl nomatch.
#[local] Arguments connects {_} !t / : simpl nomatch.
#[local] Arguments signals {_} !t / : simpl nomatch.
#[local] Arguments bind : simpl never.
#[local] Arguments try_except : simpl never.
#[local] Arguments try_finally : simpl never.

Create Rewrite HintDb run.
#[local] Hint Rewrite @result_bind @final_bind @trace_bind
  @result_try_except @final_try_except @trace_try_except
  @result_try_finally @final_try_finally @trace_try_finally : run.
#[local] Hint Rewrite @sent_app @received_app @connects_app @signals_app : run.

(** ** The client: what each part of an attempt does *)

Section ClientFacts.
Context `{PyFloat} {W : Type} `{Transport W}.
Variable token : string.

Lemma get_lowercase (k : nat) :
  k < 26 -> exists a, String.get k ascii_lowercase = Some a /\ is_lower a = true.
Proof.
  intros Hk.
  do 26 (destruct k as [|k]; [eexists; split; reflexivity |]). lia.
Qed.

Lemma random_choice_run c :
  exists a c', random_choice ascii_lowercase c = (Ok a, c', []) /\ is_lower a = true.
Proof.
  unfold random_choice.
  destruct (randbelow (String.length ascii_lowercase) (world c)) as [k w].
  destruct (get_lowercase (k mod String.length ascii_lowercase)) as (a & Ha & Hlow).
  { apply Nat.mod_upper_bound. discriminate. }
  rewrite Ha. eauto.
Qed.

Lemma random_string_run n c :
  exists s c', random_string n c = (Ok s, c', [])
               /\ String.length s = n /\ all_chars is_lower s = true.
Proof.
  revert c. induction n as [|n IH]; intros c; simpl.
  - exists "", c. auto.
  - destruct (random_choice_run c) as (a & c1 & Ha & Hlow).
    destruct (IH c1) as (s & c2 & Hs & Hlen & Hall).
    exists (String a s), c2. unfold bind. rewrite Ha, Hs. simpl.
    rewrite Hlen, Hlow, Hall. auto.
Qed.

Lemma generate_session_run c :
  exists s c', generate_session c = (Ok ("qs_" +:+ s), c', [])
               /\ String.length s = 12 /\ all_chars is_lower s = true.
Proof.
  destruct (random_string_run 12 c) as (s & c' & Hs & Hlen & Hall).
  exists s, c'. unfold generate_session, bind. rewrite Hs. auto.
Qed.

Lemma generate_chart_session_run c :
  exists s c', generate_chart_session c = (Ok ("cs_" +:+ s), c', [])
               /\ String.length s = 12 /\ all_chars is_lower s = true.
Proof.
  destruct (random_string_run 12 c) as (s & c' & Hs & Hlen & Hall).
  exists s, c'. unfold generate_chart_session, bind. rewrite Hs. auto.
Qed.

(** *** [__create_connection] *)

Lemma quiet_nil : quiet [].
Proof. now repeat split. Qed.

Lemma quiet_app t1 t2 : quiet t1 -> quiet t2 -> quiet (t1 ++ t2).
Proof.
  intros (A1 & A2 & A3) (B1 & B2 & B3). unfold quiet.
  autorewrite with run. now rewrite A1, A2, A3, B1, B2, B3.
Qed.

Lemma quiet_cons e t :
  match e with EvSend _ _ _ _ | EvRecv _ _ | EvEmit _ => False | _ => True end ->
  quiet t -> quiet (e :: t).
Proof. intros He (A1 & A2 & A3). unfold quiet. destruct e; cbn; done. Qed.

Lemma connect_once_run c r c' t :
  connect_once c = (r, c', t) ->
  t = [EvConnect (create_connection (world c)).1]
  /\ is_ok r = is_ok (create_connection (world c)).1.
Proof.
  unfold connect_once. destruct (create_connection (world c)) as [[h|e] w];
    intros [= <- <- <-]; now repeat split.
Qed.

Lemma create_connection_loop_run attempts c r c' t :
  create_connection_loop attempts c = (r, c', t) ->
  quiet t /\ length (connects t) <= length attempts.
Proof.
  revert c r c' t. induction attempts as [|a rest IH]; intros c r c' t Hrun.
  - cbn in Hrun. inv_run. split; [apply quiet_nil | cbn; lia].
  - cbn [create_connection_loop] in Hrun. inv_run.
    all: repeat match goal with
           | Hc : connect_once _ = _ |- _ => apply connect_once_run in Hc as (? & ?)
           | Hl : create_connection_loop _ _ = _ |- _ => apply IH in Hl as (? & ?)
           end; simplify_eq.
    all: split; [repeat first [apply quiet_app | apply quiet_cons]; auto using quiet_nil |].
    all: obs; rewrite ?length_app; cbn; lia.
Qed.

(** *** Sending *)

Lemma send_message_run func args c r c' t :
  send_message func args c = (r, c', t) ->
  (exists h, t = [EvSend h func args r]) \/ (t = [] /\ is_ok r = false).
Proof.
  unfold send_message. destruct (ws c) as [h|].
  - destruct (ws_send h _ (world c)) as [r0 w]. intros [= <- <- <-]. eauto.
  - intros [= <- <- <-]. auto.
Qed.

Lemma send_all_run msgs c r c' t :
  send_all msgs c = (r, c', t) ->
  received t = [] /\ connects t = [] /\ signals t = []
  /\ sent t `prefix_of` msgs
  /\ (is_ok r = true -> sent t = msgs).
Proof.
  revert c r c' t. induction msgs as [|[func args] rest IH]; intros c r c' t Hrun.
  - cbn in Hrun. inv_run. now repeat split.
  - cbn [send_all] in Hrun. inv_run.
    all: repeat match goal with
           | Hs : send_message _ _ _ = _ |- _ =>
               apply send_message_run in Hs as [[? ?] | [? ?]]
           | Hl : send_all _ _ = _ |- _ => apply IH in Hl as (? & ? & ? & ? & ?)
           end; simplify_eq.
    + obs. repeat split; try done. now apply prefix_cons, prefix_nil.
    + obs. repeat split; try done. apply prefix_nil.
    + obs. repeat split; try done.
      * now apply prefix_cons.
      * intros Hr. f_equal. auto.
Qed.

(** *** Receiving *)

Lemma recv_run c r c' t :
  recv c = (r, c', t) ->
  (exists h, t = [EvRecv h r]) \/ (t = [] /\ is_ok r = false).
Proof.
  unfold recv. destruct (ws c) as [h|].
  - destruct (ws_recv h (world c)) as [r0 w]. intros [= <- <- <-]. eauto.
  - intros [= <- <- <-]. auto.
Qed.

Lemma read_turn_run formatted_symbol raw_data c r c' t :
  read_turn formatted_symbol raw_data c = (r, c', t) ->
  sent t = [] /\ connects t = [] /\ signals t = []
  /\ match r with
     | Ok (Continue raw_data') =>
         exists msg, received t = [Ok msg] /\ unmarked msg
                     /\ raw_data' = raw_data +:+ msg +:+ nl
     | Ok Break => length (received t) <= 1
     | Ok (Return df) => length (received t) <= 1 /\ df <> []
     | Raise _ => False
     end.
Proof.
  unfold read_turn. intros Hrun. inv_run.
  all: repeat match goal with
         | Hr : recv _ = _ |- _ => apply recv_run in Hr as [[? ?] | [? ?]]
         end; simplify_eq.
  all: obs; repeat split; try done; try lia.
  - match goal with Hn : negb (df_empty ?df) = true |- _ => now destruct df end.
  - eexists. repeat split; done.
Qed.

Lemma reads_on_short rs : length rs <= 1 -> reads_on rs.
Proof.
  intros Hlen pre x post ->. rewrite length_app in Hlen. cbn in Hlen.
  destruct pre; [| cbn in Hlen; lia]. exists []. now split.
Qed.

Lemma reads_on_cons msg rs : unmarked msg -> reads_on rs -> reads_on (Ok msg :: rs).
Proof.
  intros Hm Hrs pre x post Heq. destruct pre as [|p pre].
  - exists []. now split.
  - cbn in Heq. injection Heq as <- Heq.
    destruct (Hrs _ _ _ Heq) as (msgs & -> & Hall).
    exists (msg :: msgs). split; [reflexivity | now constructor].
Qed.

Lemma read_loop_run formatted_symbol remaining raw_data c r c' t :
  read_loop formatted_symbol remaining raw_data c = (r, c', t) ->
  sent t = [] /\ connects t = [] /\ signals t = []
  /\ match r with
     | Ok (Some df) => df <> []
     | Ok None => True
     | Raise _ => False
     end
  /\ length (received t) <= remaining
  /\ reads_on (received t).
Proof.
  revert raw_data c r c' t.
  induction remaining as [|k IH]; intros raw_data c r c' t Hrun.
  - cbn in Hrun. inv_run. repeat split; try done. apply reads_on_short. cbn. lia.
  - cbn [read_loop] in Hrun. inv_run.
    all: match goal with
         | Ht : read_turn _ _ _ = _ |- _ =>
             apply read_turn_run in Ht as (S1 & C1 & G1 & Hturn); cbn in Hturn
         end; try done.
    + (* another turn follows *)
      destruct Hturn as (msg & R1 & Hmsg & ->).
      match goal with Hl : read_loop _ _ _ _ = _ |- _ =>
        apply IH in Hl as (S2 & C2 & G2 & Hr & Hlen & Hreads) end.
      obs. rewrite S1, C1, G1, S2, C2, G2, R1. repeat split; try done.
      * cbn. lia.
      * now apply reads_on_cons.
    + obs. rewrite !app_nil_r, S1, C1, G1. repeat split; try done; [lia |].
      apply reads_on_short. lia.
    + destruct Hturn as [Hlen Hdf].
      obs. rewrite !app_nil_r, S1, C1, G1. repeat split; try done; [lia |].
      apply reads_on_short. lia.
Qed.

(** *** One attempt *)

Lemma close_ws_run c r c' t :
  close_ws c = (r, c', t) -> r = Ok tt /\ (t = [] \/ exists h, t = [EvClose h]).
Proof.
  unfold close_ws. destruct (ws c) as [h|].
  - destruct (ws_close h (world c)) as [r0 w]. intros [= <- <- <-]. eauto.
  - intros [= <- <- <-]. auto.
Qed.

Section Attempt.
Variables (session chart_session formatted_symbol interval_value : string).
Variables (n_bars : Z) (extended_session : bool).

Local Abbreviation msgs :=
  (handshake token session chart_session formatted_symbol interval_value
     n_bars extended_session).

Lemma attempt_try_run c r c' t :
  attempt_try token session chart_session formatted_symbol interval_value n_bars
    extended_session c = (r, c', t) ->
  attempt_ok msgs t
  /\ match r with Ok (Some df) => df <> [] | _ => True end.
Proof.
  unfold attempt_try. intros Hrun. inv_run.
  all: repeat match goal with
         | Hc : create_connection_retry _ = _ |- _ =>
             apply create_connection_loop_run in Hc as ((? & ? & ?) & ?)
         | Hs : send_all _ _ = _ |- _ => apply send_all_run in Hs as (? & ? & ? & ? & ?)
         | Hl : read_loop _ _ _ _ = _ |- _ =>
             apply read_loop_run in Hl as (? & ? & ? & ? & ? & ?)
         end.
  all: (split; [split |]); obs;
    repeat match goal with Hx : _ = _ |- _ => rewrite Hx end;
    rewrite ?app_nil_r; cbn; try done; try lia; auto using prefix_nil, reads_on_short.
  destruct r as [[df|]|]; done.
Qed.


Lemma attempt_body_run attempt c r c' t :
  attempt_body token session chart_session formatted_symbol interval_value n_bars
    extended_session attempt c = (r, c', t) ->
  attempt_ok msgs t
  /\ match r with
     | Ok (Some df) => df <> []
     | Ok None => True
     | Raise _ => False
     end.
Proof.
  unfold attempt_body. intros Hrun. inv_run.
  all: repeat match goal with
         | Ha : attempt_try _ _ _ _ _ _ _ _ = _ |- _ =>
             apply attempt_try_run in Ha as [[] ?]
         | Hc : close_ws _ = _ |- _ => apply close_ws_run in Hc as [? [? | [? ?]]]
         end; simplify_eq.
  all: (split; [split |]); obs; rewrite ?app_nil_r; cbn; try done.
Qed.
End Attempt.

(** *** The attempt loop and [get_hist] *)

Lemma attempt_traces_length (body : nat -> M W (option DataFrame)) attempts c :
  length (attempt_traces body attempts c) <= length attempts.
Proof.
  revert c. induction attempts as [|a rest IH]; intros c; cbn; [lia |].
  destruct (body a c) as [[[[df|]|e] c1] t1]; cbn; try lia.
  specialize (IH c1). lia.
Qed.

Lemma attempt_loop_run (P : list event -> Prop)
    (body : nat -> M W (option DataFrame)) attempts c r c' t :
  (forall a c r c' t, body a c = (r, c', t) ->
     P t /\ match r with Ok (Some df) => df <> [] | Ok None => True | Raise _ => False end) ->
  attempt_loop body attempts c = (r, c', t) ->
  t = concat (attempt_traces body attempts c)
  /\ Forall P (attempt_traces body attempts c)
  /\ is_ok r = true.
Proof.
  intros Hbody. revert c r c' t.
  induction attempts as [|a rest IH]; intros c r c' t Hrun.
  - cbn in Hrun. inv_run. now repeat split.
  - cbn [attempt_loop attempt_traces] in *. inv_run.
    all: match goal with Hb : ?f _ _ = (_, _, _) |- _ =>
           is_var f; rewrite Hb; destruct (Hbody _ _ _ _ _ Hb) as [HP Hr] end;
      try done.
    + cbn. rewrite app_nil_r. repeat split; auto.
    + match goal with Hl : attempt_loop _ _ _ = _ |- _ =>
        apply IH in Hl as (-> & Hall & Hok) end.
      cbn. repeat split; auto.
Qed.

Lemma get_hist_unfold symbol exchange interval n_bars fut_contract extended_session c
    formatted_symbol :
  format_symbol symbol None fut_contract = Ok formatted_symbol ->
  exists s c1 cs c2,
    generate_session c = (Ok s, c1, [])
    /\ generate_chart_session c1 = (Ok cs, c2, [])
    /\ get_hist token symbol exchange interval n_bars fut_contract extended_session c
       = attempt_loop
           (attempt_body token s cs formatted_symbol (interval_value interval)
              n_bars extended_session)
           (seq 0 max_retries) c2
    /\ get_hist_attempts token symbol interval n_bars fut_contract extended_session c
       = attempt_traces
           (attempt_body token s cs formatted_symbol (interval_value interval)
              n_bars extended_session)
           (seq 0 max_retries) c2.
Proof.
  intros Hfmt.
  destruct (generate_session_run c) as (s & c1 & Hs & _).
  destruct (generate_chart_session_run c1) as (cs & c2 & Hcs & _).
  exists ("qs_" +:+ s), c1, ("cs_" +:+ cs), c2. repeat split; try done.
  - unfold get_hist.
    rewrite (bind_silent _ _ c formatted_symbol c) by (unfold lift; now rewrite Hfmt).
    rewrite (bind_silent _ _ c _ c1 Hs). now rewrite (bind_silent _ _ c1 _ c2 Hcs).
  - unfold get_hist_attempts. now rewrite Hfmt, Hs, Hcs.
Qed.

(** [get_hist] on a call that gets past symbol formatting: it returns a frame,
    its trace is the concatenation of at most [max_retries] attempt traces,
    which all use the session identifiers generated on entry. *)
Lemma get_hist_run symbol exchange interval n_bars fut_contract extended_session c
    formatted_symbol :
  format_symbol symbol None fut_contract = Ok formatted_symbol ->
  let run := get_hist token symbol exchange interval n_bars fut_contract
               extended_session c in
  let attempts := get_hist_attempts token symbol interval n_bars fut_contract
                    extended_session c in
  exists s c1 cs c2,
    generate_session c = (Ok s, c1, [])
    /\ generate_chart_session c1 = (Ok cs, c2, [])
    /\ is_ok (result run) = true
    /\ trace run = concat attempts
    /\ length attempts <= max_retries
    /\ Forall (attempt_ok (handshake token s cs formatted_symbol
                             (interval_value interval) n_bars extended_session))
         attempts.
Proof.
  intros Hfmt run attempts.
  destruct (get_hist_unfold symbol exchange interval n_bars fut_contract
              extended_session c _ Hfmt) as (s & c1 & cs & c2 & Hs & Hcs & Hg & Ha).
  exists s, c1, cs, c2. subst run attempts. rewrite Hg, Ha.
  destruct (attempt_loop _ _ c2) as [[r c'] t] eqn:Hloop.
  eapply attempt_loop_run in Hloop as (-> & Hall & Hok);
    [| intros a c0 r0 c0' t0; apply attempt_body_run].
  repeat split; try done.
  etrans; [apply attempt_traces_length |]. now rewrite length_seq.
Qed.

End ClientFacts.

(** ** Terminal markers and the accumulated text *)

Lemma accumulated_joined msgs : accumulated msgs = joined_lines msgs.
Proof.
  unfold accumulated.
  enough (Hgen : forall raw,
             fold_left (fun raw_data result => raw_data +:+ result +:+ nl) msgs raw
             = raw +:+ joined_lines msgs) by apply Hgen.
  induction msgs as [|m rest IH]; intros raw; cbn [fold_left joined_lines].
  - now rewrite app_empty_r.
  - rewrite IH, !app_assoc_str. reflexivity.
Qed.

Lemma is_prefix_app_newline (mk a b : string) :
  all_chars no_newline mk = true ->
  is_prefix mk (a +:+ String newline b) = is_prefix mk a.
Proof.
  revert a. induction mk as [|x mk IH]; intros a Hmk; [now destruct a |].
  cbn in Hmk. apply andb_true_iff in Hmk as [Hx Hmk].
  destruct a as [|y a]; cbn.
  - unfold no_newline in Hx. apply negb_true_iff in Hx. now rewrite Hx.
  - now rewrite IH.
Qed.

Lemma str_in_empty (mk : string) : mk <> "" -> str_in mk "" = false.
Proof. now destruct mk. Qed.

Lemma str_in_app_newline (mk a b : string) :
  mk <> "" -> all_chars no_newline mk = true ->
  str_in mk (a +:+ String newline b) = str_in mk a || str_in mk b.
Proof.
  intros Hne Hmk. induction a as [|y a IH].
  - rewrite (str_in_empty mk Hne). cbn [String.append str_in].
    replace (is_prefix mk (String newline b)) with false; [done |].
    destruct mk as [|x mk]; [done |]. cbn in *.
    apply andb_true_iff in Hmk as [Hx _].
    unfold no_newline in Hx. apply negb_true_iff in Hx. now rewrite Hx.
  - change (String y a +:+ String newline b)
      with (String y (a +:+ String newline b)).
    cbn [str_in]. rewrite IH.
    change (String y (a +:+ String newline b))
      with (String y a +:+ String newline b).
    rewrite is_prefix_app_newline by done. now rewrite !orb_assoc.
Qed.

Lemma str_in_joined_lines (mk : string) msgs :
  mk <> "" -> all_chars no_newline mk = true ->
  Forall (fun m => str_in mk m = false) msgs ->
  str_in mk (joined_lines msgs) = false.
Proof.
  intros Hne Hmk. induction 1 as [|m rest Hm _ IH]; cbn [joined_lines].
  - now apply str_in_empty.
  - now rewrite str_in_app_newline, Hm, IH.
Qed.

(** Neither marker can straddle two messages, since a newline separates
    them: the accumulated text of unmarked messages is unmarked. *)
Lemma accumulated_unmarked msgs :
  Forall unmarked msgs -> unmarked (accumulated msgs).
Proof.
  intros Hall. rewrite accumulated_joined. split.
  - apply str_in_joined_lines; [done | reflexivity |].
    eapply Forall_impl; [exact Hall | now intros m [? ?]].
  - apply str_in_joined_lines; [done | reflexivity |].
    eapply Forall_impl; [exact Hall | now intros m [? ?]].
Qed.

(** ** [get_hist]: outcome, message order, sessions and reading *)

Lemma format_symbol_accepted symbol exchange fut_contract :
  contract_accepted symbol fut_contract = true ->
  exists formatted_symbol, format_symbol symbol exchange fut_contract = Ok formatted_symbol.
Proof.
  unfold contract_accepted, format_symbol.
  destruct (str_in ":" symbol); [eauto |].
  destruct (is_None fut_contract); [eauto |].
  destruct (isinstance_int fut_contract); [eauto | discriminate].
Qed.

Lemma format_symbol_rejected symbol exchange fut_contract :
  contract_accepted symbol fut_contract = false ->
  format_symbol symbol exchange fut_contract = Raise (ValueError "Not a valid contract").
Proof.
  unfold contract_accepted, format_symbol.
  destruct (str_in ":" symbol); [discriminate |].
  destruct (is_None fut_contract); [discriminate |].
  destruct (isinstance_int fut_contract); [discriminate | reflexivity].
Qed.

Section ClientProperties.
Context `{PyFloat} {W : Type} `{Transport W}.
Variable token : string.

(** The trace of [get_hist] is made of the traces of its attempts. *)
Lemma get_hist_trace_attempts symbol exchange interval n_bars fut_contract
    extended_session (c : client W) :
  trace (get_hist token symbol exchange interval n_bars fut_contract extended_session c)
  = concat (get_hist_attempts token symbol interval n_bars fut_contract
              extended_session c)
  /\ length (get_hist_attempts token symbol interval n_bars fut_contract
               extended_session c) <= max_retries.
Proof.
  destruct (format_symbol symbol None fut_contract) as [fs|e] eqn:Hfmt.
  - destruct (get_hist_run token symbol exchange interval n_bars fut_contract
                extended_session c fs Hfmt) as (s & c1 & cs & c2 & _ & _ & _ & Ht & Hl & _).
    now split.
  - unfold get_hist_attempts, get_hist, bind, lift. rewrite Hfmt. cbn.
    split; [reflexivity | lia].
Qed.

(** With an accepted [fut_contract], [get_hist] returns a frame. *)
Lemma get_hist_returns symbol exchange interval n_bars fut_contract
    extended_session (c : client W) :
  contract_accepted symbol fut_contract = true ->
  exists df : DataFrame,
    result (get_hist token symbol exchange interval n_bars fut_contract
              extended_session c) = Ok df.
Proof.
  intros Hacc.
  destruct (format_symbol_accepted symbol None fut_contract Hacc) as [fs Hfmt].
  destruct (get_hist_run token symbol exchange interval n_bars fut_contract
              extended_session c fs Hfmt) as (s & c1 & cs & c2 & _ & _ & Hok & _).
  destruct (result _) as [df|e]; [eauto | discriminate].
Qed.



(** C9.  In every attempt of [get_hist] at most [max_messages] receive
    operations are performed, and a receive is only followed by another one
    while the text accumulated so far contains neither [series_completed] nor
    [series_error] (and the receive did not fail). *)
Theorem attempts_read_bounded symbol interval n_bars fut_contract extended_session
    (c : client W) :
  Forall
    (fun t => length (received t) <= max_messages
              /\ forall pre x post, received t = pre ++ x :: post ->
                   exists msgs, pre = List.map Ok msgs
                     /\ str_in "series_completed" (accumulated msgs) = false
                     /\ str_in "series_error" (accumulated msgs) = false)
    (get_hist_attempts token symbol interval n_bars fut_contract extended_session c).
Proof.
  destruct (format_symbol symbol None fut_contract) as [fs|e] eqn:Hfmt.
  - destruct (get_hist_run token symbol "" interval n_bars fut_contract
                extended_session c fs Hfmt) as (s & c1 & cs & c2 & _ & _ & _ & _ & _ & Hall).
    eapply Forall_impl; [exact Hall |]. intros t [_ _ _ Hlen Hreads _].
    split; [exact Hlen |]. intros pre x post Heq.
    destruct (Hreads pre x post Heq) as (msgs & -> & Hun).
    exists msgs. split; [reflexivity |]. now apply accumulated_unmarked.
  - unfold get_hist_attempts. rewrite Hfmt. constructor.
Qed.

(** C4, amended.  The quote-session and chart-session identifiers are
    generated once per [get_hist] call, on entry, as [qs_] resp. [cs_]
    followed by twelve random lowercase letters; every attempt of that call
    sends only messages built from this one pair, so retries reuse it. *)
Theorem sessions_fixed_per_call symbol interval n_bars fut_contract extended_session
    (c : client W) :
  match format_symbol symbol None fut_contract with
  | Raise _ =>
      get_hist_attempts token symbol interval n_bars fut_contract extended_session c = []
  | Ok formatted_symbol =>
      exists qs c1 cs c2,
        generate_session c = (Ok ("qs_" +:+ qs), c1, [])
        /\ generate_chart_session c1 = (Ok ("cs_" +:+ cs), c2, [])
        /\ String.length qs = 12 /\ all_chars is_lower qs = true
        /\ String.length cs = 12 /\ all_chars is_lower cs = true
        /\ Forall
             (fun t => sent t `prefix_of`
                         handshake token ("qs_" +:+ qs) ("cs_" +:+ cs) formatted_symbol
                           (interval_value interval) n_bars extended_session)
             (get_hist_attempts token symbol interval n_bars fut_contract
                extended_session c)
  end.
Proof.
  destruct (format_symbol symbol None fut_contract) as [fs|e] eqn:Hfmt.
  - destruct (get_hist_run token symbol "" interval n_bars fut_contract
                extended_session c fs Hfmt)
      as (s & c1 & cs & c2 & Hs & Hcs & _ & _ & _ & Hall).
    destruct (generate_session_run c) as (qs & c1' & Hs' & Hl1 & Hlow1).
    destruct (generate_chart_session_run c1) as (cs' & c2' & Hcs' & Hl2 & Hlow2).
    rewrite Hs in Hs'. rewrite Hcs in Hcs'. simplify_eq.
    exists qs, c1', cs', c2'. repeat split; try done.
    eapply Forall_impl; [exact Hall |]. now intros t [].
  - unfold get_hist_attempts. now rewrite Hfmt.
Qed.

(** C8.  The symbol sent for resolution is the symbol itself when it contains
    [":"]; otherwise the symbol followed by the contract index and ["!"] when
    an index is given, and the symbol itself when [fut_contract] is [None].
    The exchange argument never enters: [__format_symbol] ignores it,
    [get_hist] does not pass it on, and every [resolve_symbol] message carries
    the formatted symbol. *)
Theorem format_symbol_rule symbol (exchange : option string) (z : Z) :
  format_symbol symbol exchange PyNone = Ok symbol
  /\ format_symbol symbol exchange (PyInt z)
     = Ok (if str_in ":" symbol then symbol else symbol +:+ str_Z z +:+ "!")
  /\ (forall contract,
        format_symbol symbol exchange contract = format_symbol symbol None contract)
  /\ (forall ex ex' interval n_bars contract extended_session (c : client W),
        get_hist token symbol ex interval n_bars contract extended_session c
        = get_hist token symbol ex' interval n_bars contract extended_session c)
  /\ (forall interval n_bars contract extended_session (c : client W),
        match format_symbol symbol None contract with
        | Raise _ => True
        | Ok formatted_symbol =>
            Forall
              (fun t => forall params,
                 In ("resolve_symbol", params) (sent t) ->
                 params !! 2
                 = Some (JStr (resolve_payload formatted_symbol extended_session)))
              (get_hist_attempts token symbol interval n_bars contract
                 extended_session c)
        end).
Proof.
  split; [| split; [| split; [| split]]].
  - unfold format_symbol. now destruct (str_in ":" symbol).
  - unfold format_symbol. now destruct (str_in ":" symbol).
  - reflexivity.
  - reflexivity.
  - intros interval n_bars contract extended_session c.
    destruct (format_symbol symbol None contract) as [fs|e] eqn:Hfmt; [| done].
    destruct (get_hist_run token symbol "" interval n_bars contract
                extended_session c fs Hfmt) as (s & c1 & cs & c2 & _ & _ & _ & _ & _ & Hall).
    eapply Forall_impl; [exact Hall |]. intros t [[k Hk] _ _ _ _ _] params Hin.
    assert (Hin' : In ("resolve_symbol", params)
                     (handshake token s cs fs (interval_value interval) n_bars
                        extended_session)).
    { rewrite Hk. apply in_or_app. now left. }
    cbn in Hin'.
    repeat (destruct Hin' as [Heq | Hin']; [try discriminate Heq |]); try done.
    now injection Heq as <-.
Qed.

End ClientProperties.

(** ** A transport that refuses every connection *)

Section Refused.
Context `{PyFloat} {W : Type} `{Transport W}.
Variable token : string.
Hypothesis refuses : forall w : W, is_ok (create_connection w).1 = false.

Lemma create_connection_loop_refused attempts (c : client W) r c' t :
  create_connection_loop attempts c = (r, c', t) ->
  is_ok r = false /\ length (connects t) = length attempts.
Proof.
  revert c r c' t. induction attempts as [|a rest IH]; intros c r c' t Hrun.
  - cbn in Hrun. inv_run. now split.
  - cbn [create_connection_loop] in Hrun. inv_run.
    all: repeat match goal with
           | Hc : connect_once ?c0 = _ |- _ =>
               apply connect_once_run in Hc as (? & Hok);
               rewrite (refuses (world c0)) in Hok
           | Hl : create_connection_loop _ _ = _ |- _ => apply IH in Hl as (? & ?)
           end; simplify_eq; try done.
    all: split; [done |]; obs; rewrite ?length_app; cbn; lia.
Qed.

Lemma attempt_body_refused session chart_session formatted_symbol interval_value
    n_bars extended_session attempt (c : client W) r c' t :
  attempt_body token session chart_session formatted_symbol interval_value n_bars
    extended_session attempt c = (r, c', t) ->
  r = Ok None /\ length (connects t) = max_retries.
Proof.
  unfold attempt_body, attempt_try. intros Hrun. inv_run.
  all: repeat match goal with
         | Hc : create_connection_retry _ = _ |- _ =>
             apply create_connection_loop_refused in Hc as (? & ?)
         | Hc : close_ws _ = _ |- _ => apply close_ws_run in Hc as [? [? | [? ?]]]
         end; simplify_eq; try done.
  all: split; [done |]; obs; rewrite ?length_app, ?app_nil_r; cbn;
    rewrite ?length_seq in *; lia.
Qed.

Lemma attempt_loop_all_fail (P : list event -> Prop)
    (body : nat -> M W (option DataFrame)) attempts (c : client W) :
  (forall a c r c' t, body a c = (r, c', t) -> r = Ok None /\ P t) ->
  result (attempt_loop body attempts c) = Ok []
  /\ length (attempt_traces body attempts c) = length attempts
  /\ Forall P (attempt_traces body attempts c).
Proof.
  intros Hbody. revert c. induction attempts as [|a rest IH]; intros c.
  - now repeat split.
  - cbn [attempt_loop attempt_traces]. unfold bind.
    destruct (body a c) as [[r c1] t1] eqn:Hb.
    destruct (Hbody _ _ _ _ _ Hb) as [-> HP].
    destruct (IH c1) as (Hr & Hl & Hall).
    destruct (attempt_loop body rest c1) as [[r2 c2] t2]. cbn in *.
    repeat split; auto.
Qed.

Lemma connects_concat (k : nat) (ts : list (list event)) :
  Forall (fun t => length (connects t) = k) ts ->
  length (connects (concat ts)) = k * length ts.
Proof.
  induction 1 as [|t ts Ht _ IH]; cbn; [lia |].
  rewrite connects_app, length_app, Ht, IH. lia.
Qed.

(** C2, amended.  When [create_connection] fails on every invocation,
    [get_hist] (called with an accepted [fut_contract]) makes [max_retries]
    attempts, each of which calls [create_connection] [max_retries] times, so
    [max_retries * max_retries] connection-open operations in total; it then
    returns the empty frame and raises nothing. *)
Theorem refused_connection_retries symbol exchange interval n_bars fut_contract
    extended_session (c : client W) :
  contract_accepted symbol fut_contract = true ->
  let run := get_hist token symbol exchange interval n_bars fut_contract
               extended_session c in
  let attempts := get_hist_attempts token symbol interval n_bars fut_contract
                    extended_session c in
  result run = Ok []
  /\ length attempts = max_retries
  /\ Forall (fun t => length (connects t) = max_retries) attempts
  /\ length (connects (trace run)) = max_retries * max_retries.
Proof.
  intros Hacc run attempts.
  destruct (format_symbol_accepted symbol None fut_contract Hacc) as [fs Hfmt].
  destruct (get_hist_unfold token symbol exchange interval n_bars fut_contract
              extended_session c fs Hfmt) as (s & c1 & cs & c2 & _ & _ & Hg & Ha).
  destruct (get_hist_trace_attempts token symbol exchange interval n_bars
              fut_contract extended_session c) as [Ht _].
  fold run attempts in Ht. subst run attempts. rewrite Ht, Hg, Ha.
  destruct (attempt_loop_all_fail
              (fun t => length (connects t) = max_retries)
              (attempt_body token s cs fs (interval_value interval) n_bars
                 extended_session)
              (seq 0 max_retries) c2) as (Hr & Hl & Hall).
  { intros a c0 r c0' t. apply attempt_body_refused. }
  rewrite length_seq in Hl.
  repeat split; try done.
  now rewrite (connects_concat max_retries _ Hall), Hl.
Qed.

End Refused.

Lemma refused_connection_retries_witness :
  let run := get_hist (H := int_floats) anonymous_token "RELIANCE" "NSE" in_daily 10
               PyNone false {| world := tt; ws := None |} in
  result run = Ok [] /\ length (connects (trace run)) = max_retries * max_retries.
Proof.
  pose proof (refused_connection_retries (H := int_floats) (W := unit)
                anonymous_token (fun w => eq_refl)
                "RELIANCE" "NSE" in_daily 10 PyNone false
                {| world := tt; ws := None |} eq_refl) as (Hr & _ & _ & Hn).
  split; [exact Hr | exact Hn].
Defined.

(** C2 as stated fails: with every connection refused, one call of [get_hist]
    performs nine connection-open operations, not [max_retries] = 3. *)
Lemma refused_connection_nine_opens :
  let t := trace (get_hist (H := int_floats) anonymous_token "RELIANCE" "NSE" in_daily
                    10 PyNone false (fresh_client dead_world)) in
  forallb is_raise (connects t) = true
  /\ length (connects t) = 9
  /\ length (connects t) <> max_retries.
Proof. vm_compute. repeat split; discriminate. Qed.


(** C4 as stated fails: the second and third attempt of a call send the very
    session identifiers of the first. *)
Lemma sessions_reused_across_attempts :
  List.map session_ids
    (get_hist_attempts (H := int_floats) anonymous_token "RELIANCE" in_daily 10 PyNone
       false (fresh_client failing_series_world))
  = [ [JStr "cs_mnopqrstuvwx"; JStr "qs_abcdefghijkl"];
      [JStr "cs_mnopqrstuvwx"; JStr "qs_abcdefghijkl"];
      [JStr "cs_mnopqrstuvwx"; JStr "qs_abcdefghijkl"] ].
Proof. vm_compute. reflexivity. Qed.

(** ** [get_multiple_hist] *)

Section MultipleHist.
Context `{PyFloat} {W : Type} `{Transport W}.
Variable token : string.
Variables (exchange : string) (interval : Interval) (n_bars : Z).
Variables (fut_contract : pyval) (extended_session : bool).

Lemma contract_accepted_any symbol :
  is_None fut_contract || isinstance_int fut_contract = true ->
  contract_accepted symbol fut_contract = true.
Proof.
  unfold contract_accepted. intros Hc. rewrite <- orb_assoc, Hc. apply orb_true_r.
Qed.

Lemma get_multiple_hist_loop_run n_symbols results symbols (c : client W) :
  is_None fut_contract || isinstance_int fut_contract = true ->
  exists results',
    result (get_multiple_hist_loop token n_symbols exchange interval n_bars
              fut_contract extended_session results symbols c) = Ok results'
    /\ dom results' = dom results ∪ list_to_set symbols
    /\ forall s df, results' !! s = Some df ->
         results !! s = Some df
         \/ (s ∈ symbols
             /\ exists c0 : client W,
                  result (get_hist token s exchange interval n_bars fut_contract
                            extended_session c0) = Ok df).
Proof.
  intros Hc. revert results c.
  induction symbols as [|symbol rest IH]; intros results c.
  - exists results. cbn. repeat split; [set_solver | auto].
  - cbn [get_multiple_hist_loop]. rewrite result_bind.
    destruct (get_hist_returns token symbol exchange interval n_bars fut_contract
                extended_session c (contract_accepted_any symbol Hc)) as [df Hdf].
    rewrite Hdf, result_bind.
    set (c1 := final (get_hist _ _ _ _ _ _ _ c)).
    assert (Hpause : result ((if 1 <? n_symbols then sleep 2 else ret tt) c1) = Ok tt)
      by now destruct (1 <? n_symbols).
    rewrite Hpause.
    destruct (IH (<[symbol := df]> results)
                 (final ((if 1 <? n_symbols then sleep 2 else ret tt) c1)))
      as (results' & Hr & Hdom & Hval).
    exists results'. split; [exact Hr |]. split.
    + rewrite Hdom, dom_insert_L. set_solver.
    + intros s df' Hs. destruct (Hval s df' Hs) as [Hin | [Hin Hcall]].
      * destruct (decide (symbol = s)) as [<- | Hne].
        -- rewrite lookup_insert_eq in Hin. injection Hin as <-.
           right. split; [set_solver | eauto].
        -- rewrite lookup_insert_ne in Hin by done. now left.
      * right. split; [set_solver | exact Hcall].
Qed.

(** C10.  Called with a [fut_contract] that is [None] or an [int],
    [get_multiple_hist] returns a mapping whose keys are exactly the input
    symbols; every value is the frame a [get_hist] call for that symbol
    returned, so a symbol whose fetch failed is present and mapped to the
    empty frame it got back. *)
Theorem get_multiple_hist_keys symbols (c : client W) :
  is_None fut_contract || isinstance_int fut_contract = true ->
  exists results : gmap string DataFrame,
    result (get_multiple_hist token symbols exchange interval n_bars fut_contract
              extended_session c) = Ok results
    /\ dom results = list_to_set symbols
    /\ forall s df, results !! s = Some df ->
         s ∈ symbols
         /\ exists c0 : client W,
              result (get_hist token s exchange interval n_bars fut_contract
                        extended_session c0) = Ok df.
Proof.
  intros Hc. unfold get_multiple_hist.
  destruct (get_multiple_hist_loop_run (length symbols) ∅ symbols c Hc)
    as (results & Hr & Hdom & Hval).
  exists results. split; [exact Hr |]. split.
  - rewrite Hdom, dom_empty_L. set_solver.
  - intros s df Hs. destruct (Hval s df Hs) as [Hin | Hcall]; [| exact Hcall].
    now rewrite lookup_empty in Hin.
Qed.

End MultipleHist.

Lemma get_multiple_hist_keys_witness :
  exists results : gmap string DataFrame,
    result (get_multiple_hist (H := int_floats) anonymous_token ["TCS"; "INFY"] "NSE"
              in_daily 10 PyNone false (fresh_client dead_world)) = Ok results
    /\ dom results = list_to_set ["TCS"; "INFY"].
Proof.
  destruct (get_multiple_hist_keys (H := int_floats) anonymous_token "NSE" in_daily 10
              PyNone false ["TCS"; "INFY"] (fresh_client dead_world) eq_refl)
    as (results & Hr & Hdom & _).
  exists results. split; [exact Hr | exact Hdom].
Defined.

(** With nothing reachable both symbols are kept, mapped to empty frames. *)
Example get_multiple_hist_all_failed :
  result (get_multiple_hist (H := int_floats) anonymous_token ["TCS"; "INFY"] "NSE"
            in_daily 10 PyNone false (fresh_client dead_world))
  = Ok (<["INFY" := []]> (<["TCS" := []]> ∅)).
Proof. vm_compute. reflexivity. Qed.

(** ** ChartStreamParser: the sticky volume fallback *)

Section ParserFacts.
Context `{PyFloat}.

Lemma field_step_price xi st i :
  (i =? 9) = false ->
  field_step xi st i
  = {| volume_data := volume_data st; row := row st ++ [number xi i];
       attempted := attempted st ++ [i] |}.
Proof.
  intros Hi. unfold field_step, number, field. rewrite Hi, andb_false_r.
  destruct (xi !! i) as [tok|]; [| reflexivity].
  now destruct (float_of_str tok).
Qed.

Lemma field_step_volume xi st :
  field_step xi st 9
  = {| volume_data := volume_data st && some_field xi 9;
       row := row st ++ [if volume_data st then number xi 9 else F0];
       attempted := attempted st ++ (if volume_data st then [9] else []) |}.
Proof.
  unfold field_step, number, some_field, field.
  destruct (volume_data st); cbn.
  - destruct (xi !! 9) as [tok|]; [| reflexivity].
    now destruct (float_of_str tok).
  - now rewrite app_nil_r.
Qed.

Lemma parse_fields_closed xi vd :
  parse_fields xi vd
  = {| volume_data := vd && some_field xi 9;
       row := [number xi 5; number xi 6; number xi 7; number xi 8;
               if vd then number xi 9 else F0];
       attempted := [5; 6; 7; 8] ++ (if vd then [9] else []) |}.
Proof.
  unfold parse_fields. cbn [seq fold_left].
  rewrite (field_step_price xi _ 5), (field_step_price xi _ 6),
    (field_step_price xi _ 7), (field_step_price xi _ 8) by reflexivity.
  rewrite field_step_volume. reflexivity.
Qed.

Lemma parse_rows_sticky (vd : bool) (x : list string) :
  forallb timestamp_parses x = true ->
  exists rows,
    parse_rows vd x = Ok rows
    /\ length rows = length x
    /\ forall j chunk, x !! j = Some chunk ->
         exists ts,
           parse_ts (re_split_fields chunk) = Ok ts
           /\ rows !! j
              = Some (ts,
                      [number (re_split_fields chunk) 5; number (re_split_fields chunk) 6;
                       number (re_split_fields chunk) 7; number (re_split_fields chunk) 8;
                       if vd && forallb volume_parses (take (S j) x)
                       then number (re_split_fields chunk) 9 else F0],
                      [5; 6; 7; 8]
                        ++ (if vd && forallb volume_parses (take j x) then [9] else [])).
Proof.
  revert vd. induction x as [|chunk rest IH]; intros vd Hts.
  - exists []. repeat split. intros j chunk Hj. now rewrite lookup_nil in Hj.
  - cbn in Hts. apply andb_true_iff in Hts as [Hc Hrest].
    unfold timestamp_parses in Hc.
    destruct (parse_ts (re_split_fields chunk)) as [ts|e] eqn:Hpts; [| discriminate].
    destruct (IH (vd && volume_parses chunk) Hrest) as (rows & Hrows & Hlen & Hat).
    cbn [parse_rows]. rewrite Hpts, parse_fields_closed. cbn [volume_data row attempted].
    change (some_field (re_split_fields chunk) 9) with (volume_parses chunk).
    rewrite Hrows. eexists. split; [reflexivity |]. split; [cbn; now rewrite Hlen |].
    intros [|j] chunk' Hj; cbn in Hj.
    + injection Hj as <-. exists ts. split; [exact Hpts |]. cbn.
      rewrite ?andb_true_r.
      replace (if vd && volume_parses chunk
               then number (re_split_fields chunk) 9 else F0)
        with (if vd then number (re_split_fields chunk) 9 else F0); [reflexivity |].
      unfold volume_parses, number. destruct vd; [| reflexivity].
      now destruct (field (re_split_fields chunk) 9).
    + destruct (Hat j chunk' Hj) as (ts' & Hts' & Hrow).
      exists ts'. split; [exact Hts' |]. cbn. rewrite !andb_assoc. exact Hrow.
Qed.

(** C6.  For every list of record chunks whose timestamps parse, the parser
    raises nothing and yields one row per chunk.  The volume of record [j] is
    the parsed value as long as the volume field (position 9) has parsed on
    every record up to and including [j]; from the first record on which it
    fails, that record and all later ones get volume [0.0], and position 9 is
    no longer among the positions whose parse is attempted.  Each of the four
    price columns is the parsed value of its own position, or [0.0] when that
    position alone fails. *)
Theorem volume_fallback_sticky (symbol : string) (x : list string) :
  forallb timestamp_parses x = true ->
  exists rows,
    parse_rows true x = Ok rows
    /\ length rows = length x
    /\ forall j chunk, x !! j = Some chunk ->
         let xi := re_split_fields chunk in
         exists ts cols att,
           rows !! j = Some (ts, cols, att)
           /\ mk_bar symbol (ts, cols, att)
              = {| b_symbol := symbol; b_datetime := ts;
                   b_open := number xi 5; b_high := number xi 6;
                   b_low := number xi 7; b_close := number xi 8;
                   b_volume := if forallb volume_parses (take (S j) x)
                               then number xi 9 else F0 |}
           /\ att = [5; 6; 7; 8]
                      ++ (if forallb volume_parses (take j x) then [9] else []).
Proof.
  intros Hts. destruct (parse_rows_sticky true x Hts) as (rows & Hrows & Hlen & Hat).
  exists rows. split; [exact Hrows |]. split; [exact Hlen |].
  intros j chunk Hj xi. destruct (Hat j chunk Hj) as (ts & _ & Hrow).
  rewrite !andb_true_l in Hrow.
  eexists ts, _, _. split; [exact Hrow |]. split; reflexivity.
Qed.

End ParserFacts.

Lemma volume_fallback_sticky_witness :
  exists rows,
    parse_rows (H := int_floats) true five_records = Ok rows
    /\ length rows = 5.
Proof.
  destruct (volume_fallback_sticky (H := int_floats) "RELIANCE" five_records eq_refl)
    as (rows & Hrows & Hlen & _).
  exists rows. split; [exact Hrows | exact Hlen].
Defined.

(** The chunks are the bars as they come on the wire, cut at [record_sep]. *)
Example five_records_chunks :
  List.map String.length five_records = [44; 43; 38; 43; 42]
  /\ head five_records = Some (bar_json "0" "1600000000,100,101,99,100,5000").
Proof. vm_compute. split; reflexivity. Qed.

(** Records 1 and 2 keep their volume, records 3 to 5 get 0, and the volume
    position of records 4 and 5 is not parsed any more. *)
Example five_records_volumes :
  match parse_rows (H := int_floats) true five_records with
  | Ok rows =>
      List.map (fun r => b_volume (mk_bar "RELIANCE" r)) rows
      = [5000; 6000; 0; 0; 0]%Z
      /\ List.map snd rows
         = [[5; 6; 7; 8; 9]; [5; 6; 7; 8; 9]; [5; 6; 7; 8; 9]; [5; 6; 7; 8]; [5; 6; 7; 8]]
  | Raise _ => False
  end.
Proof. vm_compute. split; reflexivity. Qed.

(** ** The batch coordinator *)

Section BatchFacts.
Context `{PyFloat} {W : Type} `{Transport W}.
Variable token : string.
Variables (exchange : string) (interval : Interval) (n_bars : Z).
Variable thread_max_retries : nat.

Lemma reports_app t1 t2 : reports (t1 ++ t2) = reports t1 && reports t2.
Proof. unfold reports. now rewrite signals_app, forallb_app. Qed.

Lemma signals_concat (ts : list (list event)) :
  Forall (fun t => signals t = []) ts -> signals (concat ts) = [].
Proof.
  induction 1 as [|t ts Ht _ IH]; cbn; [reflexivity |].
  now rewrite signals_app, Ht, IH.
Qed.

Lemma get_hist_cash_run symbol ext (c : client W) r c' t :
  get_hist token symbol exchange interval n_bars PyNone ext c = (r, c', t) ->
  is_ok r = true /\ reports t = true.
Proof.
  intros Hrun.
  assert (Hacc : contract_accepted symbol PyNone = true).
  { unfold contract_accepted. cbn. now rewrite orb_true_r. }
  destruct (format_symbol_accepted symbol None PyNone Hacc) as [fs Hfmt].
  destruct (get_hist_run token symbol exchange interval n_bars PyNone ext c fs Hfmt)
    as (s & c1 & cs & c2 & _ & _ & Hok & Ht & _ & Hall).
  rewrite Hrun in Hok, Ht. cbn in Hok, Ht. split; [exact Hok |].
  unfold reports. rewrite Ht, signals_concat; [reflexivity |].
  eapply Forall_impl; [exact Hall | now intros t0 []].
Qed.

Ltac inv_batch :=
  repeat (simplify_eq;
          first [ inv_step
                | match goal with
                  | Hg : get_hist _ _ _ _ _ _ _ _ = (_, _, _) |- _ =>
                      apply get_hist_cash_run in Hg as [? ?]
                  | He : emit _ _ = (_, _, _) |- _ => unfold emit in He
                  end ]);
  simplify_eq.

Ltac reports_done :=
  rewrite ?reports_app;
  repeat match goal with Hr : reports _ = true |- _ => rewrite Hr; clear Hr end;
  reflexivity.

Lemma fetch_once_run ph symbol attempt (c : client W) r c' t :
  fetch_once token exchange interval n_bars ph symbol attempt c = (r, c', t) ->
  reports t = true
  /\ match r with
     | Ok (Some df) => df <> []
     | Ok None => True
     | Raise _ => False
     end.
Proof.
  unfold fetch_once. intros Hrun. inv_batch.
  all: split; [reports_done |]; try done.
  match goal with Hn : negb (df_empty ?df) = true |- _ => destruct df end; [done |].
  unfold strip_exchange. cbn. done.
Qed.

Lemma grows_refl symbols results : grows symbols results results.
Proof. unfold grows. set_solver. Qed.

Lemma grows_insert symbol df results :
  df <> [] -> grows [symbol] results (<[symbol := df]> results).
Proof.
  intros Hdf. unfold grows. rewrite dom_insert_L. repeat split; [set_solver.. |].
  intros Hall. now apply map_Forall_insert_2.
Qed.

Lemma grows_trans l1 l2 l r1 r2 r3 :
  grows l1 r1 r2 -> grows l2 r2 r3 ->
  (forall s, s ∈ l1 \/ s ∈ l2 -> s ∈ l) ->
  grows l r1 r3.
Proof.
  intros (A1 & A2 & A3) (B1 & B2 & B3) Hl. unfold grows.
  repeat split; [set_solver.. | auto].
Qed.

Lemma grows_cons symbol rest r1 r2 r3 :
  grows [symbol] r1 r2 -> grows rest r2 r3 -> grows (symbol :: rest) r1 r3.
Proof.
  intros G1 G2. apply (grows_trans [symbol] rest _ r1 r2 r3 G1 G2).
  intros s [Hs | Hs].
  - apply list_elem_of_singleton in Hs as ->. apply elem_of_cons. now left.
  - apply elem_of_cons. now right.
Qed.

Lemma fetch_attempts_run ph symbol results attempts (c : client W) r c' t :
  fetch_attempts token exchange interval n_bars thread_max_retries ph symbol results
    attempts c = (r, c', t) ->
  reports t = true
  /\ exists success results',
       r = Ok (success, results')
       /\ grows [symbol] results results'
       /\ (if success then symbol ∈ dom results' else results' = results).
Proof.
  revert c r c' t. induction attempts as [|a rest IH]; intros c r c' t Hrun.
  - cbn in Hrun. inv_batch. split; [done |]. eexists _, _.
    split; [reflexivity |]. split; [apply grows_refl | reflexivity].
  - cbn [fetch_attempts] in Hrun. inv_batch.
    all: repeat match goal with
           | Hf : fetch_once _ _ _ _ _ _ _ _ = _ |- _ =>
               apply fetch_once_run in Hf as [? ?]
           | Hl : fetch_attempts _ _ _ _ _ _ _ _ _ _ = _ |- _ =>
               apply IH in Hl as (? & ? & ? & ? & ? & ?)
           end; simplify_eq; try done.
    + split; [reports_done |]. eexists _, _.
      split; [reflexivity |]. split; [now apply grows_insert |].
      rewrite dom_insert_L. set_solver.
    + split; [reports_done |]. eexists _, _.
      split; [reflexivity |]. split; assumption.
Qed.

Ltac keep_domains :=
  repeat match goal with
    | G : grows _ _ _ |- _ => destruct G as (? & _ & _)
    | Hr : reports _ = true |- _ => clear Hr
    end.

Lemma first_pass_run total_symbols idx results failed symbols (c : client W) r c' t :
  first_pass token exchange interval n_bars thread_max_retries total_symbols idx
    results failed symbols c = (r, c', t) ->
  reports t = true
  /\ exists results' failed',
       r = Ok (results', failed')
       /\ grows symbols results results'
       /\ sorted_out symbols failed failed' results'.
Proof.
  revert idx results failed c r c' t.
  induction symbols as [|symbol rest IH]; intros idx results failed c r c' t Hrun.
  - cbn in Hrun. inv_batch. split; [done |]. eexists _, _.
    split; [reflexivity |]. split; [apply grows_refl |].
    unfold sorted_out. set_solver.
  - cbn [first_pass] in Hrun. inv_batch.
    all: repeat match goal with
           | Hf : fetch_attempts _ _ _ _ _ _ _ _ _ _ = _ |- _ =>
               apply fetch_attempts_run in Hf as (? & ? & ? & ? & ? & ?)
           | Hl : first_pass _ _ _ _ _ _ _ _ _ _ _ = _ |- _ =>
               apply IH in Hl as (? & ? & ? & ? & ? & (? & ? & ?))
           end; simplify_eq; try done.
    all: split; [reports_done |]; eexists _, _; (split; [reflexivity |]).
    all: split; [eapply grows_cons; eassumption |].
    all: keep_domains; unfold sorted_out; repeat split; set_solver.
Qed.

Lemma retry_symbols_run retry_round results new_failed symbols (c : client W) r c' t :
  retry_symbols token exchange interval n_bars thread_max_retries retry_round
    results new_failed symbols c = (r, c', t) ->
  reports t = true
  /\ exists results' failed',
       r = Ok (results', failed')
       /\ grows symbols results results'
       /\ sorted_out symbols new_failed failed' results'.
Proof.
  revert results new_failed c r c' t.
  induction symbols as [|symbol rest IH]; intros results new_failed c r c' t Hrun.
  - cbn in Hrun. inv_batch. split; [done |]. eexists _, _.
    split; [reflexivity |]. split; [apply grows_refl |].
    unfold sorted_out. set_solver.
  - cbn [retry_symbols] in Hrun. inv_batch.
    all: repeat match goal with
           | Hf : fetch_attempts _ _ _ _ _ _ _ _ _ _ = _ |- _ =>
               apply fetch_attempts_run in Hf as (? & ? & ? & ? & ? & ?)
           | Hl : retry_symbols _ _ _ _ _ _ _ _ _ _ = _ |- _ =>
               apply IH in Hl as (? & ? & ? & ? & ? & (? & ? & ?))
           end; simplify_eq; try done.
    all: split; [reports_done |]; eexists _, _; (split; [reflexivity |]).
    all: split; [eapply grows_cons; eassumption |].
    all: keep_domains; match goal with b : bool |- _ => destruct b end;
      unfold sorted_out; repeat split; set_solver.
Qed.

Lemma retry_rounds_run rounds results failed (c : client W) r c' t :
  retry_rounds token exchange interval n_bars thread_max_retries rounds results
    failed c = (r, c', t) ->
  reports t = true
  /\ exists results' failed',
       r = Ok (results', failed')
       /\ grows failed results results'
       /\ (forall s, s ∈ failed' -> s ∈ failed)
       /\ (forall s, s ∈ failed -> s ∈ dom results' \/ s ∈ failed').
Proof.
  revert results failed c r c' t.
  induction rounds as [|retry_round rest IH]; intros results failed c r c' t Hrun.
  - cbn in Hrun. inv_batch. split; [done |]. eexists _, _.
    split; [reflexivity |]. split; [apply grows_refl |]. auto.
  - cbn [retry_rounds] in Hrun. destruct failed as [|f failed].
    + inv_batch. split; [done |]. eexists _, _.
      split; [reflexivity |]. split; [apply grows_refl |]. auto.
    + inv_batch.
      all: repeat match goal with
             | Hf : retry_symbols _ _ _ _ _ _ _ _ _ _ = _ |- _ =>
                 apply retry_symbols_run in Hf as (? & ? & ? & ? & ? & (? & ? & ?))
             | Hl : retry_rounds _ _ _ _ _ _ _ _ _ = _ |- _ =>
                 apply IH in Hl as (? & ? & ? & ? & ? & ? & ?)
             end; simplify_eq; try done.
      split; [reports_done |]. eexists _, _. split; [reflexivity |].
      split; [eapply grows_trans; [eassumption | eassumption |] |].
      * intros s [Hs | Hs]; [exact Hs |].
        match goal with Hsub : forall s, s ∈ _ -> s ∈ [] \/ _ |- _ =>
          destruct (Hsub s Hs) as [Hnil | Hin]; [| exact Hin] end.
        now apply elem_of_nil in Hnil.
      * keep_domains. split; set_solver.
Qed.

Lemma run_fetch_run symbols (c : client W) r c' t :
  run_fetch token exchange interval n_bars thread_max_retries symbols c = (r, c', t) ->
  reports t = true
  /\ exists results failed,
       r = Ok (results, failed)
       /\ (forall s, s ∈ symbols -> s ∈ dom results \/ s ∈ failed)
       /\ (forall s, s ∈ failed -> s ∈ symbols)
       /\ (forall s df, results !! s = Some df -> s ∈ symbols /\ df <> []).
Proof.
  unfold run_fetch. intros Hrun. inv_batch.
  all: repeat match goal with
         | Hf : first_pass _ _ _ _ _ _ _ _ _ _ _ = _ |- _ =>
             apply first_pass_run in Hf as (? & ? & ? & ? & ? & (? & ? & ?))
         | Hl : retry_rounds _ _ _ _ _ _ _ _ _ = _ |- _ =>
             apply retry_rounds_run in Hl as (? & ? & ? & ? & ? & ? & ?)
         end; simplify_eq; try done.
  split; [reports_done |]. eexists _, _. split; [reflexivity |].
  match goal with
  | G1 : grows symbols ∅ _ |- _ => destruct G1 as (? & D1 & N1)
  end.
  match goal with
  | G2 : grows _ _ _ |- _ => destruct G2 as (? & D2 & N2)
  end.
  rewrite dom_empty_L in D1.
  split; [set_solver |]. split; [set_solver |].
  intros s df Hs. split.
  - apply elem_of_dom_2 in Hs. set_solver.
  - eapply (N2 (N1 (map_Forall_empty _))); eauto.
Qed.

(** C3, amended.  For every symbol list, [run] throws nothing and emits no
    [error] signal.  Its output is one [data_fetched] signal, emitted last,
    whose payload is the results mapping alone: the keys are input symbols
    and the values non-empty frames.  The symbols that never succeeded are
    not part of that payload; they are named in the closing log line, and
    every input symbol is a key of the mapping or one of them. *)
Theorem run_output symbols (c : client W) :
  exists (results : gmap string DataFrame) (failed_symbols : list string)
         (before : list signal),
    let out := run token exchange interval n_bars thread_max_retries symbols c in
    result out = Ok tt
    /\ signals (trace out)
       = before ++ [final_log (length symbols) failed_symbols; data_fetched results]
    /\ forallb is_report before = true
    /\ (forall s, s ∈ symbols -> s ∈ dom results \/ s ∈ failed_symbols)
    /\ (forall s, s ∈ failed_symbols -> s ∈ symbols)
    /\ (forall s df, results !! s = Some df -> s ∈ symbols /\ df <> []).
Proof.
  destruct (run token exchange interval n_bars thread_max_retries symbols c)
    as [[r c'] t] eqn:Hrun.
  unfold run in Hrun. inv_batch.
  all: repeat match goal with
         | Hf : run_fetch _ _ _ _ _ _ _ = _ |- _ =>
             apply run_fetch_run in Hf as (Hrep & ? & ? & ? & Hcov & Hsub & Hval)
         end; simplify_eq; try done.
  match type of Hrep with reports ?t0 = true =>
    match type of Hsub with (forall s, s ∈ ?failed -> _) =>
      match type of Hval with (forall s df, ?results !! s = _ -> _) =>
        exists results, failed, (signals t0)
      end
    end
  end.
  cbv zeta. unfold result, trace. cbn [fst snd].
  split; [reflexivity |]. split.
  - now rewrite !signals_app.
  - split; [exact Hrep |]. split; [exact Hcov |]. split; [exact Hsub | exact Hval].
Qed.

End BatchFacts.

(** C3 as stated fails: the payload of [data_fetched] is the results mapping
    and nothing else.  Two batches with different permanent failures produce
    the same signals apart from their log lines; the failed symbol appears in
    the closing log line only. *)
Lemma failures_only_in_log :
  dead_batch_failed "TCS" = Ok (∅, ["TCS"])
  /\ dead_batch_failed "INFY" = Ok (∅, ["INFY"])
  /\ without_logs (signals (trace (dead_batch "TCS")))
     = [progress 1 1; data_fetched ∅]
  /\ without_logs (signals (trace (dead_batch "INFY")))
     = [progress 1 1; data_fetched ∅]
  /\ firstn 2 (rev (signals (trace (dead_batch "TCS"))))
     = [data_fetched ∅; log_message "Final failures: TCS" "#ef4444"].
Proof. vm_compute. repeat split; reflexivity. Qed.

(** Against a peer that sends five bars and the completion notice, one call
    returns the five bars in the order received, tagged with the symbol, after
    a single attempt. *)
Example fetch_five_bars :
  let out := get_hist (H := int_floats) anonymous_token "RELIANCE" "NSE" in_daily 5
               PyNone false (fresh_client five_bar_world) in
  option_map (List.map (fun b => (b_symbol b, b_datetime b, b_close b, b_volume b)))
    (match result out with Ok df => Some df | Raise _ => None end)
  = Some [ ("RELIANCE", 1600000000, 100, 5000); ("RELIANCE", 1600086400, 101, 6000);
           ("RELIANCE", 1600172800, 102, 0); ("RELIANCE", 1600259200, 103, 0);
           ("RELIANCE", 1600345600, 104, 0) ]%Z
  /\ List.map fst (sent (trace out)) = send_order
  /\ length (connects (trace out)) = 1
  /\ length (received (trace out)) = 2.
Proof. vm_compute. repeat split; reflexivity. Qed.

(* ================================================================== *)
(** * Part III: further properties of the code                         *)
(* ================================================================== *)

(** ** MessageCodec: what a frame is made of *)

Lemma escape_char_printable c : all_chars is_printable (escape_char c) = true.
Proof. destruct c as [[] [] [] [] [] [] [] []]; reflexivity. Qed.

Lemma escape_body_printable s : all_chars is_printable (escape_body s) = true.
Proof.
  induction s as [|c s IH]; cbn [escape_body]; [reflexivity |].
  now rewrite all_chars_app, escape_char_printable, IH.
Qed.

Lemma digit_or_minus_printable c : is_digit_or_minus c = true -> is_printable c = true.
Proof.
  unfold is_digit_or_minus, is_digit, is_printable.
  intros [Hd | Hm]%orb_true_iff.
  - apply andb_true_iff in Hd as [H1 H2]. apply Nat.leb_le in H1, H2.
    apply andb_true_iff. split; apply Nat.leb_le; lia.
  - apply Ascii.eqb_eq in Hm as ->. reflexivity.
Qed.

Lemma json_dumps_printable item_sep key_sep v :
  all_chars is_printable item_sep = true -> all_chars is_printable key_sep = true ->
  all_chars is_printable (json_dumps item_sep key_sep v) = true.
Proof.
  intros Hi Hk. induction v as [| b | z | s | l IH | kvs IH] using json_rect'.
  - reflexivity.
  - now destruct b.
  - apply all_chars_impl with (P := is_digit_or_minus);
      [apply digit_or_minus_printable | apply str_Z_chars].
  - unfold json_dumps, encode_basestring_ascii.
    now rewrite !all_chars_app, escape_body_printable.
  - cbn [json_dumps]. rewrite !all_chars_app.
    apply andb_true_iff; split; [reflexivity |].
    apply andb_true_iff; split; [| reflexivity].
    apply all_chars_concat; [exact Hi |].
    induction IH; constructor; auto.
  - cbn [json_dumps]. rewrite !all_chars_app.
    apply andb_true_iff; split; [reflexivity |].
    apply andb_true_iff; split; [| reflexivity].
    apply all_chars_concat; [exact Hi |].
    induction IH as [|kv kvs Hkv _ IHk]; constructor; [| exact IHk].
    cbv beta. unfold encode_basestring_ascii.
    now rewrite !all_chars_app, escape_body_printable, Hk, Hkv.
Qed.

(** X1.  Whatever the function name and the parameters contain, the message
    handed to [send] consists of printable ASCII characters only: control
    characters, line breaks and non-ASCII characters of the arguments are
    escaped by [json.dumps]. *)
Theorem create_message_printable (func : string) (param_list : list json) :
  all_chars is_printable (create_message func param_list) = true.
Proof.
  unfold create_message, prepend_header, construct_message.
  rewrite !all_chars_app, json_dumps_printable by reflexivity.
  rewrite (all_chars_impl is_digit is_printable (str _)); [reflexivity | | apply str_digits].
  intros c Hc. apply digit_or_minus_printable. unfold is_digit_or_minus. now rewrite Hc.
Qed.

(** ** Session identifiers *)

Section SessionIds.
Context `{PyFloat} {W : Type} `{Transport W}.

(** X2.  Whatever the random source yields, [__generate_session] returns
    [qs_] and [__generate_chart_session] returns [cs_], each followed by
    twelve lowercase letters (fifteen characters in all); neither raises or
    touches the connection, and a quote-session identifier never equals a
    chart-session identifier. *)
Theorem session_id_format (c : client W) :
  (exists s c', generate_session c = (Ok s, c', [])
                /\ ws c' = ws c
                /\ String.length s = 15 /\ is_prefix "qs_" s = true
                /\ all_chars is_lower (drop_str 3 s) = true)
  /\ (exists s c', generate_chart_session c = (Ok s, c', [])
                   /\ ws c' = ws c
                   /\ String.length s = 15 /\ is_prefix "cs_" s = true
                   /\ all_chars is_lower (drop_str 3 s) = true)
  /\ (forall c1 c2 : client W,
        result (generate_session c1) <> result (generate_chart_session c2)).
Proof.
  assert (Hws : forall n (c0 : client W) r c' t,
             random_string n c0 = (r, c', t) -> ws c' = ws c0).
  { induction n as [|n IH]; intros c0 r c' t Hrun; cbn [random_string] in Hrun;
      inv_run; try reflexivity.
    all: repeat match goal with
           | Hc : random_choice _ _ = _ |- _ =>
               unfold random_choice in Hc;
               destruct (randbelow _ (world _)) as [k w]; simplify_eq
           | Hs : random_string _ _ = _ |- _ => apply IH in Hs
           end; cbn in *; congruence. }
  split; [| split].
  - destruct (random_string_run 12 c) as (s & c' & Hs & Hlen & Hlow).
    exists ("qs_" +:+ s), c'. unfold generate_session, bind. rewrite Hs.
    repeat split; [exact (Hws _ _ _ _ _ Hs) | cbn; now rewrite Hlen | exact Hlow].
  - destruct (random_string_run 12 c) as (s & c' & Hs & Hlen & Hlow).
    exists ("cs_" +:+ s), c'. unfold generate_chart_session, bind. rewrite Hs.
    repeat split; [exact (Hws _ _ _ _ _ Hs) | cbn; now rewrite Hlen | exact Hlow].
  - intros c1 c2.
    destruct (generate_session_run c1) as (s1 & ? & -> & _).
    destruct (generate_chart_session_run c2) as (s2 & ? & -> & _).
    cbn. discriminate.
Qed.

End SessionIds.

(** ** [__create_connection] *)

#[local] Arguments sleeps {_} !t / : simpl nomatch.
#[local] Arguments handles_used {_} !t / : simpl nomatch.
#[local] Arguments closes {_} !t / : simpl nomatch.

Section MoreObservations.
Context `{PyFloat}.

Lemma sleeps_app t1 t2 : sleeps (t1 ++ t2) = sleeps t1 ++ sleeps t2.
Proof. apply omap_app. Qed.

Lemma handles_used_app t1 t2 : handles_used (t1 ++ t2) = handles_used t1 ++ handles_used t2.
Proof. apply omap_app. Qed.

Lemma closes_app t1 t2 : closes (t1 ++ t2) = closes t1 ++ closes t2.
Proof. apply omap_app. Qed.

Lemma without_sleeps_app t1 t2 :
  without_sleeps (t1 ++ t2) = without_sleeps t1 ++ without_sleeps t2.
Proof. apply List.filter_app. Qed.

End MoreObservations.

#[local] Hint Rewrite @sleeps_app @handles_used_app @closes_app @without_sleeps_app : run.

(** Inverts one [create_connection] call. *)
Ltac inv_connect :=
  repeat match goal with
    | Hc : connect_once ?c0 = (_, _, _) |- _ =>
        unfold connect_once in Hc;
        destruct (create_connection (world c0)) as [[?h|?e] ?w] eqn:?;
        simplify_eq
    end.

Section ConnectionRetry.
Context `{PyFloat} {W : Type} `{Transport W}.

(** X3.  [__create_connection] calls [create_connection] until it succeeds,
    at most [max_retries] times.  On success it stores the new handle in
    [self.ws]; all calls before the successful one failed.  It raises, with
    [self.ws] left as it was, exactly when all [max_retries] calls failed.
    It sleeps [retry_delay] seconds between two calls and not after the last
    one. *)
Theorem create_connection_retry_shape (c : client W) :
  let out := create_connection_retry c in
  let opened := connects (trace out) in
  match result out with
  | Ok _ =>
      exists h, last opened = Some (Ok h)
                /\ ws (final out) = Some h
                /\ forallb is_raise (removelast opened) = true
                /\ length opened <= max_retries
  | Raise e =>
      e = Exception "Failed to create WebSocket connection after all retries"
      /\ forallb is_raise opened = true
      /\ length opened = max_retries
      /\ ws (final out) = ws c
  end
  /\ sleeps (trace out) = repeat retry_delay (length opened - 1)
  /\ sent (trace out) = [] /\ received (trace out) = [] /\ closes (trace out) = [].
Proof.
  destruct (create_connection_retry c) as [[r c'] t] eqn:Hrun.
  unfold create_connection_retry in Hrun.
  change (seq 0 max_retries) with [0; 1; 2] in Hrun.
  cbn [create_connection_loop] in Hrun.
  cbv zeta. unfold result, final, trace. cbn [fst snd].
  inv_run; inv_connect; inv_run; inv_connect; inv_run; inv_connect; inv_run;
    cbn; try discriminate.
  all: split; [| repeat split; reflexivity].
  all: unfold max_retries;
    first [ eexists; repeat split; first [reflexivity | lia]
          | repeat split; first [reflexivity | lia] ].
Qed.

End ConnectionRetry.

(** ** One attempt, in detail *)

(** Closes the goals about where the events of a composed trace went. *)
Ltac solve_handles :=
  autorewrite with run; rewrite ?app_nil_r; repeat split;
  first
    [ congruence
    | repeat match goal with Hx : _ = [] |- _ => rewrite Hx; clear Hx end; reflexivity
    | repeat match goal with
        | Hx : without_sleeps _ = _ |- _ => rewrite Hx; clear Hx
        end; reflexivity
    | repeat (apply Forall_app; split); try done;
      (eapply Forall_impl; [eassumption |]); cbn; congruence ].

Section AttemptAnatomy.
Context `{PyFloat} {W : Type} `{Transport W}.
Variable token : string.

Lemma connection_retry_run (c : client W) r c1 t :
  create_connection_retry c = (r, c1, t) ->
  handles_used t = [] /\ closes t = [] /\ sent t = [] /\ received t = []
  /\ without_sleeps t = List.map EvConnect (connects t)
  /\ list_sum (sleeps t) <= 2 * retry_delay
  /\ match r with
     | Ok _ => exists h, last (connects t) = Some (Ok h) /\ ws c1 = Some h
     | Raise _ => ws c1 = ws c /\ exists e, last (connects t) = Some (Raise e)
     end.
Proof.
  unfold create_connection_retry. change (seq 0 max_retries) with [0; 1; 2].
  cbn [create_connection_loop]. intros Hrun.
  inv_run; inv_connect; inv_run; inv_connect; inv_run; inv_connect; inv_run;
    cbn; try discriminate.
  all: repeat split; try reflexivity; try (unfold retry_delay; lia); eauto.
Qed.

Lemma send_message_handle func args (c : client W) r c' t :
  send_message func args c = (r, c', t) ->
  ws c' = ws c /\ connects t = [] /\ closes t = [] /\ sleeps t = []
  /\ without_sleeps t = t
  /\ Forall (fun h => ws c = Some h) (handles_used t).
Proof.
  unfold send_message. destruct (ws c) as [h|] eqn:Hws.
  - destruct (ws_send h _ (world c)) as [r0 w]. intros [= <- <- <-]. cbn.
    repeat split; try done. now repeat constructor.
  - intros [= <- <- <-]. cbn. repeat split; try done.
Qed.

Lemma send_all_handle msgs (c : client W) r c' t :
  send_all msgs c = (r, c', t) ->
  ws c' = ws c /\ connects t = [] /\ closes t = [] /\ sleeps t = []
  /\ without_sleeps t = t
  /\ Forall (fun h => ws c = Some h) (handles_used t).
Proof.
  revert c r c' t. induction msgs as [|[func args] rest IH]; intros c r c' t Hrun.
  - cbn in Hrun. inv_run. cbn. repeat split; done.
  - cbn [send_all] in Hrun. inv_run.
    all: repeat match goal with
           | Hs : send_message _ _ _ = _ |- _ =>
               apply send_message_handle in Hs as (? & ? & ? & ? & ? & ?)
           | Hl : send_all _ _ = _ |- _ => apply IH in Hl as (? & ? & ? & ? & ? & ?)
           end.
    all: solve_handles.
Qed.

Lemma recv_handle (c : client W) r c' t :
  recv c = (r, c', t) ->
  ws c' = ws c /\ connects t = [] /\ closes t = [] /\ sleeps t = []
  /\ without_sleeps t = t
  /\ Forall (fun h => ws c = Some h) (handles_used t).
Proof.
  unfold recv. destruct (ws c) as [h|] eqn:Hws.
  - destruct (ws_recv h (world c)) as [r0 w]. intros [= <- <- <-]. cbn.
    repeat split; try done. now repeat constructor.
  - intros [= <- <- <-]. cbn. repeat split; try done.
Qed.

Lemma read_turn_handle formatted_symbol raw_data (c : client W) r c' t :
  read_turn formatted_symbol raw_data c = (r, c', t) ->
  ws c' = ws c /\ connects t = [] /\ closes t = [] /\ sleeps t = []
  /\ without_sleeps t = t
  /\ Forall (fun h => ws c = Some h) (handles_used t).
Proof.
  unfold read_turn. intros Hrun. inv_run.
  all: repeat match goal with
         | Hr : recv _ = _ |- _ => apply recv_handle in Hr as (? & ? & ? & ? & ? & ?)
         end.
  all: solve_handles.
Qed.

Lemma read_loop_handle formatted_symbol remaining raw_data (c : client W) r c' t :
  read_loop formatted_symbol remaining raw_data c = (r, c', t) ->
  ws c' = ws c /\ connects t = [] /\ closes t = [] /\ sleeps t = []
  /\ without_sleeps t = t
  /\ Forall (fun h => ws c = Some h) (handles_used t).
Proof.
  revert raw_data c r c' t.
  induction remaining as [|k IH]; intros raw_data c r c' t Hrun.
  - cbn in Hrun. inv_run. cbn. repeat split; done.
  - cbn [read_loop] in Hrun. inv_run.
    all: repeat match goal with
           | Ht : read_turn _ _ _ = _ |- _ =>
               apply read_turn_handle in Ht as (? & ? & ? & ? & ? & ?)
           | Hl : read_loop _ _ _ _ = _ |- _ =>
               apply IH in Hl as (? & ? & ? & ? & ? & ?)
           end.
    all: solve_handles.
Qed.

Lemma close_ws_handle (c : client W) r c' t :
  close_ws c = (r, c', t) ->
  r = Ok tt /\ ws c' = ws c
  /\ t = match ws c with Some h => [EvClose h] | None => [] end.
Proof.
  unfold close_ws. destruct (ws c) as [h|] eqn:Hws.
  - destruct (ws_close h (world c)) as [r0 w]. intros [= <- <- <-]. cbn. auto.
  - intros [= <- <- <-]. auto.
Qed.

Lemma pause_facts (b : bool) secs (c : client W) r c' t :
  (if b then sleep secs else ret tt) c = (r, c', t) ->
  r = Ok tt /\ c' = c /\ t = if b then [EvSleep secs] else [].
Proof. destruct b; now intros [= <- <- <-]. Qed.

(** The message phase of an attempt: everything between connecting and
    closing. *)
Lemma message_phase_handle msgs formatted_symbol remaining raw_data (c : client W)
    r c' t :
  (send_all msgs >> read_loop formatted_symbol remaining raw_data) c = (r, c', t) ->
  ws c' = ws c /\ connects t = [] /\ closes t = [] /\ sleeps t = []
  /\ without_sleeps t = t
  /\ Forall (fun h => ws c = Some h) (handles_used t).
Proof.
  intros Hrun.
  apply bind_run in Hrun as [(e & Hs & ->) | (u & c1 & t1 & t2 & Hs & Hl & ->)].
  - now apply send_all_handle in Hs.
  - apply send_all_handle in Hs as (? & ? & ? & ? & ? & ?).
    apply read_loop_handle in Hl as (? & ? & ? & ? & ? & ?).
    solve_handles.
Qed.

Lemma attempt_try_anatomy session chart_session formatted_symbol interval_value
    n_bars extended_session (c : client W) r c' t :
  attempt_try token session chart_session formatted_symbol interval_value n_bars
    extended_session c = (r, c', t) ->
  exists tc tm,
    t = tc ++ tm
    /\ handles_used tc = [] /\ closes tc = []
    /\ without_sleeps tc = List.map EvConnect (connects tc)
    /\ list_sum (sleeps tc) <= 2 * retry_delay
    /\ connects tm = [] /\ closes tm = [] /\ sleeps tm = [] /\ without_sleeps tm = tm
    /\ match last (connects tc) with
       | Some (Ok h) => ws c' = Some h /\ Forall (eq h) (handles_used tm)
       | _ => tm = [] /\ ws c' = ws c
       end.
Proof.
  unfold attempt_try. intros Hrun.
  apply bind_run in Hrun as [(e & Hc & ->) | (u & c1 & tc & tm & Hc & Hm & ->)].
  - apply connection_retry_run in Hc as (? & ? & ? & ? & ? & ? & Hws & e' & Hlast).
    exists t, []. rewrite app_nil_r, Hlast. repeat split; done.
  - apply connection_retry_run in Hc as (? & ? & ? & ? & ? & ? & h & Hlast & Hws).
    apply message_phase_handle in Hm as (Hws' & ? & ? & ? & ? & Hall).
    exists tc, tm. rewrite Hlast. repeat split; try done; [congruence |].
    eapply Forall_impl; [exact Hall |]. cbn. congruence.
Qed.

Lemma attempt_body_hygiene session chart_session formatted_symbol interval_value
    n_bars extended_session attempt (c : client W) r c' t :
  attempt_body token session chart_session formatted_symbol interval_value n_bars
    extended_session attempt c = (r, c', t) ->
  list_sum (sleeps t)
  <= 2 * retry_delay + (if attempt <? max_retries - 1 then retry_delay else 0)
  /\ match last (connects t) with
     | Some (Ok h) =>
         Forall (eq h) (handles_used t) /\ closes t = [h]
         /\ last (without_sleeps t) = Some (EvClose h)
     | _ => handles_used t = [] /\ length (closes t) <= 1
     end.
Proof.
  unfold attempt_body. intros Hrun.
  assert (Hshape : exists tc tm wsf tz,
             t = tc ++ tm ++ (match wsf with Some h => [EvClose h] | None => [] end) ++ tz
             /\ handles_used tc = [] /\ closes tc = []
             /\ without_sleeps tc = List.map EvConnect (connects tc)
             /\ list_sum (sleeps tc) <= 2 * retry_delay
             /\ connects tm = [] /\ closes tm = [] /\ sleeps tm = []
             /\ without_sleeps tm = tm
             /\ match last (connects tc) with
                | Some (Ok h) => wsf = Some h /\ Forall (eq h) (handles_used tm)
                | _ => tm = []
                end
             /\ (tz = [] \/ tz = [EvSleep retry_delay] /\ (attempt <? max_retries - 1) = true)).
  { apply bind_run in Hrun as [(e & Hf & ->) | (ret0 & c3 & t3 & tz & Hf & Hk & ->)];
      apply try_finally_run in Hf as (r1 & c1 & t1 & rf & t2 & Htry & Hclose & -> & Hr);
      apply close_ws_handle in Hclose as (-> & Hws2 & ->).
    { subst r1.
      apply try_except_run in Htry as [(a0 & Ha & ?) | (e0 & c0 & t0 & th & Ha & Hh & ->)];
        [discriminate |].
      unfold ret in Hh. discriminate Hh. }
    subst r1.
    assert (Htz : tz = [] \/ tz = [EvSleep retry_delay] /\ (attempt <? max_retries - 1) = true).
    { destruct ret0 as [df|].
      - unfold ret in Hk. injection Hk as <- <- <-. now left.
      - apply bind_run in Hk as [(e & Hp & ?) | (u & c4 & t4 & t5 & Hp & Hret & ->)];
          apply pause_facts in Hp as (? & -> & ->); [discriminate |].
        unfold ret in Hret. injection Hret as <- <- <-. rewrite app_nil_r.
        destruct (attempt <? max_retries - 1); auto. }
    apply try_except_run in Htry as [(a0 & Ha & Heq) | (e & c0 & t0 & th & Ha & Hh & ->)].
    - apply attempt_try_anatomy in Ha as (tc & tm & -> & ? & ? & ? & ? & ? & ? & ? & ? & Hl).
      exists tc, tm, (ws c1), tz. rewrite <- !app_assoc.
      repeat split; try done.
      destruct (last (connects tc)) as [[h|]|]; [| tauto | tauto].
      destruct Hl as [Hl1 Hl2]. now rewrite Hl1.
    - apply attempt_try_anatomy in Ha as (tc & tm & -> & ? & ? & ? & ? & ? & ? & ? & ? & Hl).
      unfold ret in Hh. injection Hh as <- <- <-.
      exists tc, tm, (ws c0), tz. rewrite app_nil_r, <- !app_assoc.
      repeat split; try done.
      destruct (last (connects tc)) as [[h|]|]; [| tauto | tauto].
      destruct Hl as [Hl1 Hl2]. now rewrite Hl1. }
  destruct Hshape as (tc & tm & wsf & tz & -> & Hu & Hcl & Hwo & Hsl & Hcm & Hclm & Hsm
                      & Hwm & Hl & Htz).
  assert (Hz : connects tz = [] /\ closes tz = [] /\ handles_used tz = []
               /\ without_sleeps tz = []
               /\ list_sum (sleeps tz)
                  <= (if attempt <? max_retries - 1 then retry_delay else 0)).
  { destruct Htz as [-> | [-> ->]]; cbn; repeat split; unfold retry_delay; lia. }
  destruct Hz as (Hz1 & Hz2 & Hz3 & Hz4 & Hz5).
  assert (Hcc : forall o : option nat,
             connects (match o with Some h => [EvClose h] | None => [] end) = []
             /\ sleeps (match o with Some h => [EvClose h] | None => [] end) = []
             /\ handles_used (match o with Some h => [EvClose h] | None => [] end) = [])
    by (now intros [h|]).
  destruct (Hcc wsf) as (Hc1 & Hc2 & Hc3).
  split.
  - autorewrite with run. rewrite Hsm, Hc2. cbn [app]. rewrite list_sum_app. lia.
  - autorewrite with run.
    rewrite Hcm, Hc1, Hz1, !app_nil_r, Hu, Hc3, Hz3, Hcl, Hclm, Hz2, Hwm, Hz4.
    cbn [app]. rewrite !app_nil_r.
    destruct (last (connects tc)) as [[h|e]|] eqn:Hlast.
    + destruct Hl as [-> Hall]. cbn. repeat split; [exact Hall |].
      rewrite app_assoc. apply last_snoc.
    + subst tm. split; [reflexivity |]. destruct wsf; cbn; lia.
    + subst tm. split; [reflexivity |]. destruct wsf; cbn; lia.
Qed.

Lemma attempt_traces_forall (P : list event -> Prop)
    (body : nat -> M W (option DataFrame)) attempts (c : client W) :
  (forall a c r c' t, body a c = (r, c', t) -> P t) ->
  Forall P (attempt_traces body attempts c).
Proof.
  intros Hbody. revert c. induction attempts as [|a rest IH]; intros c; cbn; [constructor |].
  destruct (body a c) as [[r c1] t1] eqn:Hb. constructor; [eauto |].
  destruct r as [[df|]|e]; [constructor | apply IH | constructor].
Qed.

Lemma get_hist_attempts_forall (P : string -> list event -> Prop) symbol interval
    n_bars fut_contract extended_session (c : client W) :
  (forall s cs fs a c r c' t,
     format_symbol symbol None fut_contract = Ok fs ->
     attempt_body token s cs fs (interval_value interval) n_bars extended_session a c
     = (r, c', t) -> P fs t) ->
  match format_symbol symbol None fut_contract with
  | Ok fs =>
      Forall (P fs) (get_hist_attempts token symbol interval n_bars fut_contract
                       extended_session c)
  | Raise _ =>
      get_hist_attempts token symbol interval n_bars fut_contract extended_session c = []
  end.
Proof.
  intros Hbody. destruct (format_symbol symbol None fut_contract) as [fs|e] eqn:Hfmt.
  - destruct (get_hist_unfold token symbol "" interval n_bars fut_contract
                extended_session c fs Hfmt) as (s & c1 & cs & c2 & _ & _ & _ & ->).
    apply attempt_traces_forall. intros a c0 r c0' t. now apply Hbody.
  - unfold get_hist_attempts. now rewrite Hfmt.
Qed.

(** X4.  In every attempt of [get_hist]: if the attempt obtained a
    connection, every [send] and [recv] of the attempt goes to that
    connection, the connection is closed exactly once, and the close is the
    last thing done to the transport in that attempt.  If the attempt obtained
    no connection, nothing is sent or received; the only call besides the
    connection attempts is at most one [close], of the handle [self.ws] still
    holds from an earlier attempt. *)
Theorem attempts_close_their_connection symbol interval n_bars fut_contract
    extended_session (c : client W) :
  Forall
    (fun t =>
       match last (connects t) with
       | Some (Ok h) =>
           Forall (eq h) (handles_used t) /\ closes t = [h]
           /\ last (without_sleeps t) = Some (EvClose h)
       | _ => handles_used t = [] /\ length (closes t) <= 1
       end)
    (get_hist_attempts token symbol interval n_bars fut_contract extended_session c).
Proof.
  pose proof (get_hist_attempts_forall
                (fun _ t =>
                   match last (connects t) with
                   | Some (Ok h) =>
                       Forall (eq h) (handles_used t) /\ closes t = [h]
                       /\ last (without_sleeps t) = Some (EvClose h)
                   | _ => handles_used t = [] /\ length (closes t) <= 1
                   end)
                symbol interval n_bars fut_contract extended_session c) as Hall.
  destruct (format_symbol symbol None fut_contract) as [fs|e].
  - apply Hall. intros s cs fs' a c0 r c0' t _ Hrun.
    now apply attempt_body_hygiene in Hrun as [_ Hh].
  - rewrite Hall; [constructor |]. intros s cs fs' a c0 r c0' t Hfs. discriminate.
Qed.

Lemma attempt_loop_sleeps session chart_session formatted_symbol interval_value
    n_bars extended_session attempts (c : client W) r c' t :
  attempt_loop
    (attempt_body token session chart_session formatted_symbol interval_value
       n_bars extended_session) attempts c = (r, c', t) ->
  list_sum (sleeps t)
  <= list_sum (List.map
                 (fun a => 2 * retry_delay
                           + (if a <? max_retries - 1 then retry_delay else 0))
                 attempts).
Proof.
  revert c r c' t. induction attempts as [|a rest IH]; intros c r c' t Hrun.
  - cbn in Hrun. inv_run. cbn. lia.
  - cbn [attempt_loop] in Hrun.
    apply bind_run in Hrun as [(e & Hb & ->) | (o & c1 & t1 & t2 & Hb & Hk & ->)];
      apply attempt_body_hygiene in Hb as [Hs _]; cbn [List.map];
      match goal with
      | |- _ <= list_sum (?x :: ?l) => change (list_sum (x :: l)) with (x + list_sum l)
      end; [lia |].
    rewrite sleeps_app, list_sum_app. destruct o as [df|].
    + unfold ret in Hk. injection Hk as <- <- <-.
      change (list_sum (sleeps [])) with 0. lia.
    + apply IH in Hk. lia.
Qed.

Lemma length_concat_le {A} (f : list event -> list A) (k : nat) (ts : list (list event)) :
  (forall t1 t2, f (t1 ++ t2) = f t1 ++ f t2) -> f [] = [] ->
  Forall (fun t => length (f t) <= k) ts ->
  length (f (concat ts)) <= k * length ts.
Proof.
  intros Happ Hnil. induction 1 as [|t ts Ht _ IH]; cbn.
  - rewrite Hnil. cbn. lia.
  - rewrite Happ, length_app. lia.
Qed.

(** X5.  One call of [get_hist], whatever the transport does, opens at most
    [max_retries * max_retries] = 9 connections, sends at most 27 messages,
    receives at most [max_retries * max_messages] = 300 messages, sleeps at
    most 24 seconds in total and emits no signal. *)
Theorem get_hist_resource_bounds symbol exchange interval n_bars fut_contract
    extended_session (c : client W) :
  let t := trace (get_hist token symbol exchange interval n_bars fut_contract
                    extended_session c) in
  length (connects t) <= max_retries * max_retries
  /\ length (sent t) <= 27
  /\ length (received t) <= max_retries * max_messages
  /\ list_sum (sleeps t) <= 24
  /\ signals t = [].
Proof.
  cbv zeta. destruct (format_symbol symbol None fut_contract) as [fs|e] eqn:Hfmt.
  - destruct (get_hist_run token symbol exchange interval n_bars fut_contract
                extended_session c fs Hfmt)
      as (s & c1 & cs & c2 & _ & _ & _ & Ht & Hlen & Hall).
    destruct (get_hist_unfold token symbol exchange interval n_bars fut_contract
                extended_session c fs Hfmt) as (s' & c1' & cs' & c2' & _ & _ & Hg & _).
    split; [| split; [| split; [| split]]].
    + rewrite Ht. etrans.
      * apply (length_concat_le connects max_retries); [apply connects_app | done |].
        eapply Forall_impl; [exact Hall | now intros t0 []].
      * apply Nat.mul_le_mono_l, Hlen.
    + rewrite Ht. etrans.
      * apply (length_concat_le sent 9); [apply sent_app | done |].
        eapply Forall_impl; [exact Hall |]. intros t0 [Hp _ _ _ _ _].
        now apply prefix_length in Hp.
      * unfold max_retries in Hlen. lia.
    + rewrite Ht. etrans.
      * apply (length_concat_le received max_messages); [apply received_app | done |].
        eapply Forall_impl; [exact Hall | now intros t0 []].
      * rewrite Nat.mul_comm. apply Nat.mul_le_mono_r, Hlen.
    + rewrite Hg.
      destruct (attempt_loop _ _ c2') as [[r c'] t] eqn:Hloop.
      apply attempt_loop_sleeps in Hloop. cbn in Hloop. cbn [trace snd]. lia.
    + rewrite Ht. apply signals_concat.
      eapply Forall_impl; [exact Hall | now intros t0 []].
  - unfold get_hist, bind, lift. rewrite Hfmt. cbn. repeat split; lia.
Qed.

(** *** What a returned frame was built from *)

Lemma read_turn_return formatted_symbol raw_data (c : client W) df c' t :
  read_turn formatted_symbol raw_data c = (Ok (Return df), c', t) ->
  exists msg, received t = [Ok msg] /\ str_in completed_marker msg = true
              /\ create_df (raw_data +:+ msg +:+ nl) formatted_symbol = Ok df.
Proof.
  unfold read_turn. intros Hrun. inv_run.
  match goal with
  | Hr : recv _ = _ |- _ => apply recv_run in Hr as [[h ->] | [-> Hr]]; [| done]
  end.
  obs. eexists. repeat split; done.
Qed.

Lemma read_loop_return formatted_symbol remaining raw_data (c : client W) df c' t :
  read_loop formatted_symbol remaining raw_data c = (Ok (Some df), c', t) ->
  exists msgs final,
    received t = List.map Ok (msgs ++ [final])
    /\ Forall unmarked msgs /\ str_in completed_marker final = true
    /\ create_df
         (fold_left (fun raw_data result => raw_data +:+ result +:+ nl)
            (msgs ++ [final]) raw_data) formatted_symbol = Ok df.
Proof.
  revert raw_data c c' t.
  induction remaining as [|k IH]; intros raw_data c c' t Hrun.
  - cbn in Hrun. inv_run.
  - cbn [read_loop] in Hrun.
    apply bind_run in Hrun as [(e & _ & [=]) | (o & c1 & t1 & t2 & Ht & Hk & ->)].
    destruct o as [raw_data'| |df'].
    + apply read_turn_run in Ht as (_ & _ & _ & msg & R1 & Hmsg & ->).
      apply IH in Hk as (msgs & final & R2 & Hall & Hfin & Hdf).
      exists (msg :: msgs), final. rewrite received_app, R1, R2. cbn.
      repeat split; auto.
    + unfold ret in Hk. discriminate.
    + unfold ret in Hk. injection Hk as -> <- <-.
      apply read_turn_return in Ht as (msg & R1 & Hmsg & Hdf).
      exists [], msg. rewrite received_app, R1. cbn. repeat split; auto.
Qed.

Lemma attempt_try_return session chart_session formatted_symbol interval_value
    n_bars extended_session (c : client W) df c' t :
  attempt_try token session chart_session formatted_symbol interval_value n_bars
    extended_session c = (Ok (Some df), c', t) ->
  exists msgs final,
    received t = List.map Ok (msgs ++ [final])
    /\ Forall unmarked msgs /\ str_in completed_marker final = true
    /\ create_df (accumulated (msgs ++ [final])) formatted_symbol = Ok df.
Proof.
  unfold attempt_try. intros Hrun.
  apply bind_run in Hrun as [(e & _ & [=]) | (u & c1 & t1 & t2 & Hc & Hk & ->)].
  apply bind_run in Hk as [(e & _ & [=]) | (u' & c2 & t3 & t4 & Hs & Hl & ->)].
  apply create_connection_loop_run in Hc as ((_ & R1 & _) & _).
  apply send_all_run in Hs as (R3 & _).
  apply read_loop_return in Hl as (msgs & final & R4 & Hrest).
  exists msgs, final. rewrite !received_app, R1, R3, R4. now cbn.
Qed.

Lemma attempt_body_return session chart_session formatted_symbol interval_value
    n_bars extended_session attempt (c : client W) df c' t :
  attempt_body token session chart_session formatted_symbol interval_value n_bars
    extended_session attempt c = (Ok (Some df), c', t) ->
  exists msgs final,
    received t = List.map Ok (msgs ++ [final])
    /\ Forall unmarked msgs /\ str_in completed_marker final = true
    /\ create_df (accumulated (msgs ++ [final])) formatted_symbol = Ok df.
Proof.
  unfold attempt_body. intros Hrun. inv_run.
  all: repeat match goal with
         | Hc : close_ws _ = _ |- _ => apply close_ws_run in Hc as [? [? | [? ?]]]
         end; simplify_eq.
  all: match goal with
       | Ha : attempt_try _ _ _ _ _ _ _ _ = _ |- _ =>
           apply attempt_try_return in Ha as (msgs & final & R & Hrest)
       end.
  all: exists msgs, final; obs; rewrite ?app_nil_r, R; done.
Qed.

Lemma attempt_loop_return (P : DataFrame -> list event -> Prop)
    (body : nat -> M W (option DataFrame)) attempts (c : client W) df c' t :
  (forall a c df c' t, body a c = (Ok (Some df), c', t) -> P df t) ->
  attempt_loop body attempts c = (Ok df, c', t) -> df <> [] ->
  exists tl, last (attempt_traces body attempts c) = Some tl /\ P df tl.
Proof.
  intros Hbody. revert c c' t.
  induction attempts as [|a rest IH]; intros c c' t Hrun Hdf.
  - cbn in Hrun. unfold ret in Hrun. congruence.
  - cbn [attempt_loop attempt_traces] in *.
    apply bind_run in Hrun as [(e & _ & [=]) | (o & c1 & t1 & t2 & Hb & Hk & ->)].
    rewrite Hb. destruct o as [df'|].
    + unfold ret in Hk. injection Hk as -> <- <-. exists t1. split; [done | eauto].
    + apply IH in Hk as (tl & Hl & HP); [| done].
      exists tl. split; [| done]. rewrite last_cons, Hl. done.
Qed.

Lemma create_df_tagged raw_data symbol (df : DataFrame) :
  create_df raw_data symbol = Ok df -> Forall (fun b => b_symbol b = symbol) df.
Proof.
  unfold create_df. destruct (search_series raw_data) as [out|].
  - destruct (parse_rows true (py_split record_sep out)) as [rows|[]];
      intros [= <-]; try constructor.
    induction rows as [|[[ts cols] g] rows IH]; cbn [List.map]; constructor; auto.
  - intros [= <-]. constructor.
Qed.

(** X6.  When [get_hist] returns a non-empty frame, the last attempt it
    made received a run of messages without a terminal marker followed by one
    message that contains [series_completed]; the frame is what [__create_df]
    makes of those messages, each followed by a newline, and every row of it
    carries the formatted symbol. *)
Theorem get_hist_frame_origin symbol exchange interval n_bars fut_contract
    extended_session (c : client W) (df : DataFrame) :
  result (get_hist token symbol exchange interval n_bars fut_contract
            extended_session c) = Ok df ->
  df <> [] ->
  exists formatted_symbol tl msgs final,
    format_symbol symbol None fut_contract = Ok formatted_symbol
    /\ last (get_hist_attempts token symbol interval n_bars fut_contract
               extended_session c) = Some tl
    /\ received tl = List.map Ok (msgs ++ [final])
    /\ Forall unmarked msgs
    /\ str_in completed_marker final = true
    /\ create_df (accumulated (msgs ++ [final])) formatted_symbol = Ok df
    /\ Forall (fun b => b_symbol b = formatted_symbol) df.
Proof.
  intros Hres Hdf.
  destruct (format_symbol symbol None fut_contract) as [fs|e] eqn:Hfmt.
  - destruct (get_hist_unfold token symbol exchange interval n_bars fut_contract
                extended_session c fs Hfmt) as (s & c1 & cs & c2 & _ & _ & Hg & Ha).
    rewrite Hg in Hres. rewrite Ha.
    destruct (attempt_loop _ _ c2) as [[r c'] t] eqn:Hloop.
    cbn in Hres. subst r.
    eapply (attempt_loop_return
              (fun df tl => exists msgs final,
                   received tl = List.map Ok (msgs ++ [final])
                   /\ Forall unmarked msgs /\ str_in completed_marker final = true
                   /\ create_df (accumulated (msgs ++ [final])) fs = Ok df))
      in Hloop as (tl & Hlast & msgs & final & R & Hall & Hfin & Hcdf); [| | done].
    + exists fs, tl, msgs, final. repeat split; try done.
      eapply create_df_tagged, Hcdf.
    + intros a c0 df0 c0' t0. apply attempt_body_return.
  - unfold get_hist, bind, lift in Hres. rewrite Hfmt in Hres. discriminate.
Qed.

End AttemptAnatomy.

Lemma get_hist_frame_origin_witness :
  exists formatted_symbol tl msgs final,
    format_symbol "RELIANCE" None PyNone = Ok formatted_symbol
    /\ last (get_hist_attempts (H := int_floats) anonymous_token "RELIANCE" in_daily 5
               PyNone false (fresh_client five_bar_world)) = Some tl
    /\ received tl = List.map Ok (msgs ++ [final])
    /\ Forall unmarked msgs
    /\ str_in completed_marker final = true
    /\ create_df (accumulated (msgs ++ [final])) formatted_symbol = Ok five_bar_frame
    /\ Forall (fun b => b_symbol b = formatted_symbol) five_bar_frame.
Proof.
  apply (get_hist_frame_origin (H := int_floats) anonymous_token "RELIANCE" "NSE"
           in_daily 5 PyNone
           false (fresh_client five_bar_world) five_bar_frame).
  - vm_compute. reflexivity.
  - discriminate.
Defined.

(** ** A series the server rejects *)

Section Rejected.
Context `{PyFloat} {W : Type} `{Transport W}.
Variable token : string.
Hypothesis opens_ok : forall w : W, is_ok (create_connection w).1 = true.
Hypothesis sends_ok : forall h m (w : W), is_ok (ws_send h m w).1 = true.
Hypothesis recv_error : forall h (w : W),
  exists msg, (ws_recv h w).1 = Ok msg
              /\ str_in completed_marker msg = false /\ str_in error_marker msg = true.

Lemma sleeps_one_read_attempt h msgs msg : sleeps (one_read_attempt h msgs msg) = [].
Proof.
  unfold one_read_attempt. change (EvConnect (Ok h) :: ?l) with ([EvConnect (Ok h)] ++ l).
  rewrite !sleeps_app. cbn. rewrite app_nil_r.
  induction msgs as [|m rest IH]; [reflexivity | exact IH].
Qed.

Lemma connection_opens (c : client W) :
  exists h w, create_connection_retry c
              = (Ok tt, {| world := w; ws := Some h |}, [EvConnect (Ok h)]).
Proof.
  unfold create_connection_retry. change (seq 0 max_retries) with [0; 1; 2].
  cbn [create_connection_loop]. unfold bind, try_except, connect_once.
  pose proof (opens_ok (world c)) as Hopen.
  destruct (create_connection (world c)) as [[h|e] w]; [| discriminate].
  cbn. eauto.
Qed.

Lemma send_all_accepted msgs (c : client W) h :
  ws c = Some h ->
  exists w, send_all msgs c
            = (Ok tt, {| world := w; ws := Some h |},
               List.map (fun m => EvSend h m.1 m.2 (Ok tt)) msgs).
Proof.
  revert c. induction msgs as [|[func args] rest IH]; intros c Hws.
  - destruct c as [w o]. cbn in *. subst o. now exists w.
  - cbn [send_all]. unfold bind, send_message. rewrite Hws.
    pose proof (sends_ok h (create_message func args) (world c)) as Hsend.
    destruct (ws_send h _ (world c)) as [[[]|e] w]; [| discriminate].
    destruct (IH (set_world c w) Hws) as (w' & ->). now exists w'.
Qed.

Lemma read_loop_rejected formatted_symbol remaining raw_data (c : client W) h :
  ws c = Some h ->
  exists w msg,
    read_loop formatted_symbol (S remaining) raw_data c
    = (Ok None, {| world := w; ws := Some h |}, [EvRecv h (Ok msg)])
    /\ str_in error_marker msg = true.
Proof.
  intros Hws. cbn [read_loop]. unfold bind at 1. unfold read_turn, try_except, bind, recv.
  rewrite Hws.
  destruct (recv_error h (world c)) as (msg & Hm & Hc & He).
  destruct (ws_recv h (world c)) as [r w]. cbn in Hm. subst r.
  unfold completed_marker, error_marker in *. rewrite Hc, He. cbn.
  exists w, msg. unfold set_world. rewrite Hws. now split.
Qed.

Lemma attempt_body_rejected session chart_session formatted_symbol interval_value
    n_bars extended_session attempt (c : client W) :
  exists c' h msg,
    attempt_body token session chart_session formatted_symbol interval_value n_bars
      extended_session attempt c
    = (Ok None, c',
       one_read_attempt h
         (handshake token session chart_session formatted_symbol interval_value
            n_bars extended_session) msg
       ++ (if attempt <? max_retries - 1 then [EvSleep retry_delay] else []))
    /\ str_in error_marker msg = true.
Proof.
  unfold attempt_body, attempt_try.
  destruct (connection_opens c) as (h & w1 & Hconn).
  destruct (send_all_accepted
              (handshake token session chart_session formatted_symbol interval_value
                 n_bars extended_session) {| world := w1; ws := Some h |} h eq_refl)
    as (w2 & Hsend).
  destruct (read_loop_rejected formatted_symbol (pred max_messages) EmptyString
              {| world := w2; ws := Some h |} h eq_refl) as (w3 & msg & Hread & Hmsg).
  change (S (pred max_messages)) with max_messages in Hread.
  unfold bind at 1. unfold try_finally, try_except.
  unfold bind at 1. rewrite Hconn.
  unfold bind at 1. rewrite Hsend, Hread.
  unfold close_ws. cbn [ws world].
  destruct (ws_close h w3) as [rc w4].
  exists {| world := w4; ws := Some h |}, h, msg. split; [| exact Hmsg].
  unfold one_read_attempt.
  destruct (attempt <? max_retries - 1); cbn; rewrite <- ?app_assoc; reflexivity.
Qed.

Lemma attempt_loop_rejected session chart_session formatted_symbol interval_value
    n_bars extended_session attempts (c : client W) :
  let body := attempt_body token session chart_session formatted_symbol
                interval_value n_bars extended_session in
  let msgs := handshake token session chart_session formatted_symbol interval_value
                n_bars extended_session in
  exists c',
    attempt_loop body attempts c
    = (Ok [], c', concat (attempt_traces body attempts c))
    /\ Forall2
         (fun a t => exists h msg,
              str_in error_marker msg = true
              /\ t = one_read_attempt h msgs msg
                     ++ (if a <? max_retries - 1 then [EvSleep retry_delay] else []))
         attempts (attempt_traces body attempts c).
Proof.
  cbv zeta. revert c. induction attempts as [|a rest IH]; intros c.
  - exists c. split; [reflexivity | constructor].
  - cbn [attempt_loop attempt_traces]. unfold bind.
    destruct (attempt_body_rejected session chart_session formatted_symbol
                interval_value n_bars extended_session a c)
      as (c1 & h & msg & -> & Hmsg).
    destruct (IH c1) as (c' & -> & Hall).
    exists c'. split; [reflexivity |]. constructor; eauto.
Qed.

(** X7.  Against a peer that accepts every connection and every message and
    answers each read with a message carrying [series_error] and no
    [series_completed], [get_hist] makes all [max_retries] attempts; each is
    exactly one connection, the nine handshake messages, a single read and the
    close of that connection; the attempts are separated by a sleep of
    [retry_delay] seconds, with none after the last, and the result is the
    empty frame. *)
Theorem rejected_series_attempts symbol exchange interval n_bars fut_contract
    extended_session (c : client W) :
  contract_accepted symbol fut_contract = true ->
  let out := get_hist token symbol exchange interval n_bars fut_contract
               extended_session c in
  result out = Ok []
  /\ sleeps (trace out) = [retry_delay; retry_delay]
  /\ exists msgs,
       List.map fst msgs = send_order
       /\ Forall2
            (fun a t => exists h msg,
                 str_in error_marker msg = true
                 /\ t = one_read_attempt h msgs msg
                        ++ (if a <? max_retries - 1 then [EvSleep retry_delay] else []))
            (seq 0 max_retries)
            (get_hist_attempts token symbol interval n_bars fut_contract
               extended_session c).
Proof.
  intros Hacc. cbv zeta.
  destruct (format_symbol_accepted symbol None fut_contract Hacc) as [fs Hfmt].
  destruct (get_hist_unfold token symbol exchange interval n_bars fut_contract
              extended_session c fs Hfmt) as (s & c1 & cs & c2 & _ & _ & -> & ->).
  destruct (attempt_loop_rejected s cs fs (interval_value interval) n_bars
              extended_session (seq 0 max_retries) c2) as (c' & -> & Hall).
  cbn [result trace fst snd]. split; [reflexivity |]. split.
  - remember (attempt_traces _ _ c2) as ts eqn:Ets. clear Ets.
    change (seq 0 max_retries) with [0; 1; 2] in Hall.
    inversion Hall as [|a0 t0 l0 ts0 (h0 & m0 & _ & E0) Hall1 Ea0 Et0]; subst.
    inversion Hall1 as [|a1 t1 l1 ts1 (h1 & m1 & _ & E1) Hall2 Ea1 Et1]; subst.
    inversion Hall2 as [|a2 t2 l2 ts2 (h2 & m2 & _ & E2) Hall3 Ea2 Et2]; subst.
    inversion Hall3; subst.
    cbn [concat]. rewrite !sleeps_app, !sleeps_one_read_attempt. reflexivity.
  - eexists. split; [| exact Hall]. reflexivity.
Qed.
End Rejected.

Lemma rejected_series_attempts_witness :
  contract_accepted "RELIANCE" PyNone = true
  /\ let out := get_hist (H := int_floats) (W := nat) anonymous_token "RELIANCE" "NSE"
                  in_daily 10 PyNone false {| world := 0; ws := None |} in
     result out = Ok []
     /\ sleeps (trace out) = [retry_delay; retry_delay]
     /\ exists msgs,
          List.map fst msgs = send_order
          /\ Forall2
               (fun a t => exists h msg,
                    str_in error_marker msg = true
                    /\ t = one_read_attempt h msgs msg
                           ++ (if a <? max_retries - 1 then [EvSleep retry_delay]
                               else []))
               (seq 0 max_retries)
               (get_hist_attempts (H := int_floats) (W := nat) anonymous_token
                  "RELIANCE" in_daily 10 PyNone false {| world := 0; ws := None |}).
Proof.
  split; [reflexivity |].
  apply (rejected_series_attempts (H := int_floats) (W := nat) anonymous_token).
  - intros w. reflexivity.
  - intros h m w. reflexivity.
  - intros h w. eexists. split; [reflexivity |]. split; vm_compute; reflexivity.
  - reflexivity.
Defined.

(** ** ChartStreamParser: what [__create_df] finds, and what it gives up on *)

Lemma str_in_drop_str needle k s :
  str_in needle s = false -> str_in needle (drop_str k s) = false.
Proof.
  revert s. induction k as [|k IH]; intros s Hs; [exact Hs |].
  destruct s as [|c s]; [exact Hs |]. cbn [drop_str]. apply IH.
  cbn [str_in] in Hs. now apply orb_false_iff in Hs as [_ Hs].
Qed.

Lemma lazy_until_close_unclosed s :
  str_in "}]" s = false -> lazy_until_close s = None.
Proof.
  induction s as [|c s IH]; intros Hs; [reflexivity |].
  cbn [str_in] in Hs. apply orb_false_iff in Hs as [_ Hs].
  cbn [lazy_until_close]. destruct (Ascii.eqb c newline); [reflexivity |].
  replace (is_prefix "}]" s) with false.
  - now rewrite IH.
  - destruct s as [|d s]; [reflexivity |]. cbn [str_in] in Hs.
    now apply orb_false_iff in Hs as [-> _].
Qed.

Lemma search_series_no_key raw_data :
  str_in series_key raw_data = false -> search_series raw_data = None.
Proof.
  induction raw_data as [|c r IH]; intros Hs.
  - reflexivity.
  - cbn [str_in] in Hs. apply orb_false_iff in Hs as [Hp Hs].
    cbn [search_series]. rewrite Hp. now apply IH.
Qed.

Lemma search_series_unclosed raw_data :
  str_in "}]" raw_data = false -> search_series raw_data = None.
Proof.
  induction raw_data as [|c r IH]; intros Hs.
  - reflexivity.
  - cbn [search_series].
    rewrite (lazy_until_close_unclosed
               (drop_str (String.length series_key) (String c r)))
      by now apply str_in_drop_str.
    destruct (is_prefix series_key (String c r)); apply IH;
      cbn [str_in] in Hs; now apply orb_false_iff in Hs as [_ Hs].
Qed.

Lemma lazy_until_close_line s rest :
  lazy_until_close (s +:+ String newline rest) = lazy_until_close s.
Proof.
  induction s as [|c s IH].
  - cbn. reflexivity.
  - change (String c s +:+ String newline rest)
      with (String c (s +:+ String newline rest)).
    cbn [lazy_until_close]. destruct (Ascii.eqb c newline); [reflexivity |].
    now rewrite is_prefix_app_newline, IH by reflexivity.
Qed.

Lemma is_prefix_length p s : is_prefix p s = true -> String.length p <= String.length s.
Proof.
  revert s. induction p as [|a p IH]; intros s Hp; cbn; [lia |].
  destruct s as [|b s]; [discriminate |]. cbn in *.
  apply andb_true_iff in Hp as [_ Hp]. apply IH in Hp. lia.
Qed.

Lemma drop_str_app k s t :
  k <= String.length s -> drop_str k (s +:+ t) = drop_str k s +:+ t.
Proof.
  revert s. induction k as [|k IH]; intros s Hk; [reflexivity |].
  destruct s as [|c s]; cbn in Hk; [lia |].
  change (String c s +:+ t) with (String c (s +:+ t)). cbn [drop_str].
  apply IH. lia.
Qed.

(** A match of the series pattern never runs over the end of a line. *)
Lemma search_series_line m rest :
  search_series (m +:+ String newline rest)
  = match search_series m with
    | Some g => Some g
    | None => search_series rest
    end.
Proof.
  induction m as [|c m IH].
  - reflexivity.
  - change (String c m +:+ String newline rest)
      with (String c (m +:+ String newline rest)).
    cbn [search_series].
    change (String c (m +:+ String newline rest))
      with (String c m +:+ String newline rest).
    rewrite is_prefix_app_newline by reflexivity.
    destruct (is_prefix series_key (String c m)) eqn:Hp.
    + rewrite drop_str_app by now apply is_prefix_length.
      rewrite lazy_until_close_line.
      destruct (lazy_until_close _); [reflexivity | exact IH].
    + exact IH.
Qed.

Lemma search_series_skip pre rest :
  Forall (fun m => search_series m = None) pre ->
  search_series (joined_lines (pre ++ rest)) = search_series (joined_lines rest).
Proof.
  induction 1 as [|m pre Hm _ IH]; [reflexivity |].
  cbn [app joined_lines]. now rewrite search_series_line, Hm.
Qed.

Section ParserEdges.
Context `{PyFloat}.

(** X8.  Text in which the series key or the closing [}]] does not occur
    gives the empty frame: the failed [re.search] is caught inside
    [__create_df] and nothing is raised. *)
Theorem create_df_without_series raw_data symbol :
  str_in series_key raw_data = false \/ str_in "}]" raw_data = false ->
  create_df raw_data symbol = Ok [].
Proof.
  intros Hno. unfold create_df.
  replace (search_series raw_data) with (@None string); [reflexivity |].
  symmetry. destruct Hno; [now apply search_series_no_key |].
  now apply search_series_unclosed.
Qed.

(** X9.  The frame is built from a single received message: messages
    before the first one in which the series pattern matches contribute
    nothing, and whatever is received after that message is ignored, because
    every message is followed by a newline and the pattern cannot match
    across one. *)
Theorem create_df_first_matching_message pre m post symbol :
  Forall (fun x => search_series x = None) pre ->
  search_series m <> None ->
  create_df (accumulated (pre ++ m :: post)) symbol = create_df m symbol.
Proof.
  intros Hpre Hm. unfold create_df.
  rewrite accumulated_joined, search_series_skip by done.
  cbn [joined_lines]. rewrite search_series_line.
  now destruct (search_series m).
Qed.

Lemma parse_rows_stops vd good bad rest e :
  forallb timestamp_parses good = true ->
  parse_ts (re_split_fields bad) = Raise e ->
  parse_rows vd (good ++ bad :: rest) = Raise e.
Proof.
  revert vd. induction good as [|chunk good IH]; intros vd Hgood Hbad.
  - cbn [app parse_rows]. now rewrite Hbad.
  - cbn in Hgood. apply andb_true_iff in Hgood as [Hc Hgood].
    unfold timestamp_parses in Hc. cbn [app parse_rows].
    destruct (parse_ts (re_split_fields chunk)); [| discriminate].
    now rewrite IH.
Qed.

(** X10.  One record whose timestamp cannot be read decides the outcome
    for the whole text, and the rows of the records before it are dropped:
    when the record has fewer than five fields the result is the empty frame
    (the [IndexError] is caught); when its fifth field is not a number the
    [ValueError] of [float] leaves [__create_df]; and when [fromtimestamp]
    rejects the number, the exception it raises ([ValueError], [OverflowError]
    or [OSError]) leaves [__create_df]. *)
Theorem create_df_bad_record raw_data symbol out good bad rest :
  search_series raw_data = Some out ->
  py_split record_sep out = good ++ bad :: rest ->
  forallb timestamp_parses good = true ->
  timestamp_parses bad = false ->
  (re_split_fields bad !! 4 = None /\ create_df raw_data symbol = Ok [])
  \/ (exists tok,
        re_split_fields bad !! 4 = Some tok /\ float_of_str tok = None
        /\ create_df raw_data symbol
           = Raise (ValueError "could not convert string to float"))
  \/ (exists tok f err,
        re_split_fields bad !! 4 = Some tok /\ float_of_str tok = Some f
        /\ fromtimestamp f = inr err
        /\ create_df raw_data symbol = Raise (timestamp_exn err)
        /\ ((exists msg, timestamp_exn err = ValueError msg)
            \/ timestamp_exn err = OverflowError
            \/ (exists msg, timestamp_exn err = OSError msg))).
Proof.
  intros Hs Hx Hgood Hbad. unfold create_df. rewrite Hs, Hx.
  unfold timestamp_parses in Hbad.
  destruct (parse_ts (re_split_fields bad)) as [ts|e] eqn:Hts; [discriminate |].
  rewrite (parse_rows_stops true good bad rest e Hgood Hts).
  unfold parse_ts in Hts.
  destruct (re_split_fields bad !! 4) as [tok|]; [| injection Hts as <-; now left].
  right. destruct (float_of_str tok) as [f|] eqn:Hf.
  - right. destruct (fromtimestamp f) as [ts|err] eqn:Hft; [discriminate |].
    injection Hts as <-. exists tok, f, err. repeat split; try done.
    + now destruct err.
    + destruct err; cbn; eauto.
  - left. injection Hts as <-. now exists tok.
Qed.
End ParserEdges.

Lemma create_df_without_series_witness :
  create_df (H := int_floats) "~m~4~m~~h~1" "RELIANCE" = Ok [].
Proof.
  apply (create_df_without_series (H := int_floats)). left. reflexivity.
Defined.

Lemma create_df_first_matching_message_witness :
  create_df (H := int_floats)
    (accumulated (["~m~4~m~~h~1"] ++ five_bar_message :: ["~m~4~m~~h~2"])) "RELIANCE"
  = create_df (H := int_floats) five_bar_message "RELIANCE".
Proof.
  apply (create_df_first_matching_message (H := int_floats)).
  - repeat constructor.
  - vm_compute. discriminate.
Defined.

Lemma create_df_bad_record_witness :
  let good := nth 0 late_timestamp_records "" in
  let bad := nth 1 late_timestamp_records "" in
  exists out tok f err,
    search_series late_timestamp_message = Some out
    /\ py_split record_sep out = [good] ++ bad :: []
    /\ forallb (timestamp_parses (H := int_floats)) [good] = true
    /\ timestamp_parses (H := int_floats) bad = false
    /\ re_split_fields bad !! 4 = Some tok
    /\ float_of_str (PyFloat := int_floats) tok = Some f
    /\ fromtimestamp (PyFloat := int_floats) f = inr err
    /\ create_df (H := int_floats) late_timestamp_message "RELIANCE"
       = Raise (timestamp_exn err).
Proof.
  cbv zeta.
  destruct (search_series late_timestamp_message) as [out|] eqn:Hs;
    [| vm_compute in Hs; discriminate].
  assert (Hx : py_split record_sep out
               = [nth 0 late_timestamp_records ""]
                   ++ nth 1 late_timestamp_records "" :: []).
  { vm_compute in Hs. injection Hs as <-. vm_compute. reflexivity. }
  assert (Hgood : forallb (timestamp_parses (H := int_floats))
                    [nth 0 late_timestamp_records ""] = true)
    by (vm_compute; reflexivity).
  assert (Hbad : timestamp_parses (H := int_floats) (nth 1 late_timestamp_records "")
                 = false)
    by (vm_compute; reflexivity).
  destruct (create_df_bad_record (H := int_floats) late_timestamp_message "RELIANCE"
              out _ _ [] Hs Hx Hgood Hbad)
    as [[Hnone _] | [(tok & Htok & Hfloat & _) | (tok & f & err & Htok & Hf & Hft & Hr & _)]].
  - vm_compute in Hnone. discriminate.
  - vm_compute in Htok. injection Htok as <-. vm_compute in Hfloat. discriminate.
  - exists out, tok, f, err. repeat split; assumption.
Defined.

(** The three ways a record can end the parse: a timestamp that is not a
    number, a record that is too short, a timestamp in milliseconds. *)
Example create_df_bad_record_cases :
  create_df (H := int_floats) bad_timestamp_message "RELIANCE"
  = Raise (ValueError "could not convert string to float")
  /\ create_df (H := int_floats) short_record_message "RELIANCE" = Ok []
  /\ create_df (H := int_floats) late_timestamp_message "RELIANCE"
     = Raise (ValueError "year is out of range").
Proof. vm_compute. repeat split; reflexivity. Qed.

(** ** [get_multiple_hist]: one symbol after the other *)

Section MultipleHistOrder.
Context `{PyFloat} {W : Type} `{Transport W}.
Variable token : string.
Variables (exchange : string) (interval : Interval) (n_bars : Z).
Variables (fut_contract : pyval) (extended_session : bool).

Lemma pause_run (b : bool) secs (c : client W) :
  (if b then sleep secs else ret tt) c
  = (Ok tt, c, if b then [EvSleep secs] else []).
Proof. now destruct b. Qed.

Lemma get_multiple_hist_loop_sequential n_symbols results symbols (c : client W) :
  Forall (fun s => contract_accepted s fut_contract = true) symbols ->
  exists ts,
    Forall2
      (fun s t => exists c0 : client W,
           t = trace (get_hist token s exchange interval n_bars fut_contract
                        extended_session c0))
      symbols ts
    /\ trace (get_multiple_hist_loop token n_symbols exchange interval n_bars
                fut_contract extended_session results symbols c)
       = concat (List.map (fun t => t ++ (if 1 <? n_symbols then [EvSleep 2] else []))
                   ts).
Proof.
  intros Hacc. revert results c.
  induction Hacc as [|symbol rest Hs _ IH]; intros results c.
  - exists []. split; [constructor | reflexivity].
  - cbn [get_multiple_hist_loop]. rewrite trace_bind.
    destruct (get_hist_returns token symbol exchange interval n_bars fut_contract
                extended_session c Hs) as [df Hdf].
    rewrite Hdf, trace_bind, pause_run. cbn [result final trace fst snd].
    destruct (IH (<[symbol := df]> results)
                (final (get_hist token symbol exchange interval n_bars fut_contract
                          extended_session c))) as (ts & Hall & ->).
    exists (trace (get_hist token symbol exchange interval n_bars fut_contract
                     extended_session c) :: ts).
    split; [constructor; eauto |]. cbn [List.map concat]. now rewrite <- app_assoc.
Qed.

(** X11.  [get_multiple_hist] fetches the symbols one after the other, in
    the order of the input list: its events are the events of one [get_hist]
    call per symbol, each call followed by a sleep of two seconds when more
    than one symbol was asked for, also after the last symbol. *)
Theorem get_multiple_hist_sequential symbols (c : client W) :
  is_None fut_contract || isinstance_int fut_contract = true ->
  exists ts,
    Forall2
      (fun s t => exists c0 : client W,
           t = trace (get_hist token s exchange interval n_bars fut_contract
                        extended_session c0))
      symbols ts
    /\ trace (get_multiple_hist token symbols exchange interval n_bars fut_contract
                extended_session c)
       = concat (List.map
                   (fun t => t ++ (if 1 <? length symbols then [EvSleep 2] else []))
                   ts).
Proof.
  intros Hc. unfold get_multiple_hist. apply get_multiple_hist_loop_sequential.
  apply Forall_forall. intros s _.
  unfold contract_accepted. rewrite <- orb_assoc, Hc. apply orb_true_r.
Qed.

Lemma get_hist_rejected_run symbol (c : client W) :
  contract_accepted symbol fut_contract = false ->
  get_hist token symbol exchange interval n_bars fut_contract extended_session c
  = (Raise (ValueError "Not a valid contract"), c, []).
Proof.
  intros Hrej. unfold get_hist, bind, lift.
  now rewrite (format_symbol_rejected symbol None fut_contract Hrej).
Qed.

Lemma get_multiple_hist_loop_rejected n_symbols results pre bad post (c : client W) :
  Forall (fun s => contract_accepted s fut_contract = true) pre ->
  contract_accepted bad fut_contract = false ->
  let whole := get_multiple_hist_loop token n_symbols exchange interval n_bars
                 fut_contract extended_session results (pre ++ bad :: post) c in
  let before := get_multiple_hist_loop token n_symbols exchange interval n_bars
                  fut_contract extended_session results pre c in
  result whole = Raise (ValueError "Not a valid contract")
  /\ trace whole = trace before.
Proof.
  intros Hacc Hrej. cbv zeta. revert results c.
  induction Hacc as [|symbol rest Hs _ IH]; intros results c.
  - cbn [app get_multiple_hist_loop].
    rewrite result_bind, trace_bind, (get_hist_rejected_run bad c Hrej).
    split; reflexivity.
  - cbn [app get_multiple_hist_loop].
    rewrite !result_bind, !trace_bind.
    destruct (get_hist_returns token symbol exchange interval n_bars fut_contract
                extended_session c Hs) as [df Hdf].
    rewrite Hdf, !result_bind, !trace_bind, !pause_run.
    cbn [result final trace fst snd].
    destruct (IH (<[symbol := df]> results)
                (final (get_hist token symbol exchange interval n_bars fut_contract
                          extended_session c))) as [-> ->].
    split; reflexivity.
Qed.

(** X12.  When [__format_symbol] rejects one of the symbols (a contract that
    is neither [None] nor an [int], for a symbol without a colon),
    [get_multiple_hist] raises the [ValueError] instead of returning: the
    frames already fetched for the symbols before it are lost, and nothing is
    done for that symbol or the symbols after it. *)
Theorem get_multiple_hist_rejected pre bad post (c : client W) :
  Forall (fun s => contract_accepted s fut_contract = true) pre ->
  contract_accepted bad fut_contract = false ->
  let out := get_multiple_hist token (pre ++ bad :: post) exchange interval n_bars
               fut_contract extended_session c in
  result out = Raise (ValueError "Not a valid contract")
  /\ trace out
     = trace (get_multiple_hist_loop token (length (pre ++ bad :: post)) exchange
                interval n_bars fut_contract extended_session ∅ pre c).
Proof.
  intros Hacc Hrej. unfold get_multiple_hist.
  now apply get_multiple_hist_loop_rejected.
Qed.
End MultipleHistOrder.

Lemma get_multiple_hist_sequential_witness :
  exists ts,
    Forall2
      (fun s t => exists c0 : client scripted,
           t = trace (get_hist (H := int_floats) anonymous_token s "NSE" in_daily 10
                        PyNone false c0))
      ["TCS"; "INFY"] ts
    /\ trace (get_multiple_hist (H := int_floats) anonymous_token ["TCS"; "INFY"] "NSE"
                in_daily 10 PyNone false (fresh_client dead_world))
       = concat (List.map (fun t => t ++ [EvSleep 2]) ts).
Proof.
  apply (get_multiple_hist_sequential (H := int_floats) anonymous_token "NSE" in_daily
           10 PyNone false ["TCS"; "INFY"] (fresh_client dead_world)).
  reflexivity.
Defined.

Lemma get_multiple_hist_rejected_witness :
  let out := get_multiple_hist (H := int_floats) anonymous_token
               (["NSE:TCS"] ++ "INFY" :: ["SBIN"]) "NSE" in_daily 10 (PyStr "1") false
               (fresh_client dead_world) in
  result out = Raise (ValueError "Not a valid contract")
  /\ trace out
     = trace (get_multiple_hist_loop (H := int_floats) anonymous_token 3 "NSE" in_daily
                10 (PyStr "1") false ∅ ["NSE:TCS"] (fresh_client dead_world)).
Proof.
  apply (get_multiple_hist_rejected (H := int_floats) anonymous_token "NSE" in_daily 10
           (PyStr "1") false ["NSE:TCS"] "INFY" ["SBIN"] (fresh_client dead_world)).
  - repeat constructor.
  - reflexivity.
Defined.

(** ** The batch coordinator: what is stored, reported and spent *)

Ltac inv_emit :=
  repeat (simplify_eq;
          first [ inv_step
                | match goal with
                  | He : emit _ _ = (_, _, _) |- _ => unfold emit in He
                  end ]);
  simplify_eq.

Lemma without_logs_app `{PyFloat} (s1 s2 : list signal) :
  without_logs (s1 ++ s2) = without_logs s1 ++ without_logs s2.
Proof. unfold without_logs. apply List.filter_app. Qed.

(** Computes the signals other than log lines of a composed trace. *)
Ltac batch_signals :=
  rewrite ?signals_app, ?without_logs_app;
  repeat match goal with
    | Hx : without_logs (signals _) = _ |- _ => rewrite Hx; clear Hx
    end;
  cbn [signals omap list_omap without_logs List.filter is_log negb app];
  rewrite ?app_nil_r; try reflexivity.

(** Bounds the number of connections of a composed trace. *)
Ltac batch_connects :=
  rewrite ?connects_app, ?length_app;
  cbn [connects omap list_omap length app];
  rewrite ?length_seq in *; nia.

Section BatchMore.
Context `{PyFloat} {W : Type} `{Transport W}.
Variable token : string.
Variables (exchange : string) (interval : Interval) (n_bars : Z).
Variable thread_max_retries : nat.

Lemma get_hist_spent symbol (c : client W) r c' t :
  get_hist token symbol exchange interval n_bars PyNone false c = (r, c', t) ->
  signals t = [] /\ length (connects t) <= max_retries * max_retries.
Proof.
  intros Hrun.
  assert (Hacc : contract_accepted symbol PyNone = true).
  { unfold contract_accepted. cbn. now rewrite orb_true_r. }
  destruct (format_symbol_accepted symbol None PyNone Hacc) as [fs Hfmt].
  destruct (get_hist_run token symbol exchange interval n_bars PyNone false c fs Hfmt)
    as (s & c1 & cs & c2 & _ & _ & _ & Ht & Hlen & Hall).
  rewrite Hrun in Ht. cbn in Ht. subst t. split.
  - apply signals_concat. eapply Forall_impl; [exact Hall | now intros t0 []].
  - etrans.
    + apply (length_concat_le connects max_retries); [apply connects_app | done |].
      eapply Forall_impl; [exact Hall | now intros t0 []].
    + apply Nat.mul_le_mono_l, Hlen.
Qed.

Lemma fetch_once_more ph symbol attempt (c : client W) r c' t :
  fetch_once token exchange interval n_bars ph symbol attempt c = (r, c', t) ->
  without_logs (signals t) = []
  /\ length (connects t) <= max_retries * max_retries
  /\ forall df, r = Ok (Some df) -> stored_frame token exchange interval n_bars symbol df.
Proof.
  unfold fetch_once. intros Hrun. inv_emit.
  all: match goal with
       | Hg : get_hist _ _ _ _ _ _ _ _ = _ |- _ =>
           destruct (get_hist_spent _ _ _ _ _ Hg) as [Hsig Hcon]
       end.
  all: rewrite !signals_app, !connects_app, Hsig, !length_app, !app_nil_r.
  all: split; [reflexivity |]; split; [cbn [connects omap list_omap length]; lia |].
  all: intros df [= <-].
  exists c, x0. rewrite Hrun. repeat split. now destruct x0.
Qed.

Lemma fetch_attempts_more ph symbol results attempts (c : client W) r c' t :
  fetch_attempts token exchange interval n_bars thread_max_retries ph symbol results
    attempts c = (r, c', t) ->
  without_logs (signals t) = []
  /\ length (connects t) <= max_retries * max_retries * length attempts
  /\ (map_Forall (stored_frame token exchange interval n_bars) results ->
      forall success results', r = Ok (success, results') ->
        map_Forall (stored_frame token exchange interval n_bars) results').
Proof.
  revert c r c' t. induction attempts as [|a rest IH]; intros c r c' t Hrun.
  - cbn in Hrun. inv_emit. repeat split; [cbn; lia |]. now intros Hall ? ? [= <- <-].
  - cbn [fetch_attempts] in Hrun. inv_emit.
    all: repeat match goal with
           | Hf : fetch_once _ _ _ _ _ _ _ _ = _ |- _ =>
               apply fetch_once_more in Hf as (? & ? & Hst)
           | Hl : fetch_attempts _ _ _ _ _ _ _ _ _ _ = _ |- _ =>
               apply IH in Hl as (? & ? & Hrest)
           end.
    all: split; [batch_signals |]; split; [batch_connects |].
    + intros _ ? ? [=].
    + intros Hall ? ? [= <- <-]. apply map_Forall_insert_2; auto.
    + exact Hrest.
Qed.

Lemma first_pass_more total_symbols idx results failed symbols (c : client W) r c' t :
  first_pass token exchange interval n_bars thread_max_retries total_symbols idx
    results failed symbols c = (r, c', t) ->
  without_logs (signals t) = progress_steps total_symbols idx (length symbols)
  /\ length (connects t)
     <= max_retries * max_retries * thread_max_retries * length symbols
  /\ exists results' failed' l,
       r = Ok (results', failed')
       /\ failed' = failed ++ l /\ l `sublist_of` symbols
       /\ (map_Forall (stored_frame token exchange interval n_bars) results ->
           map_Forall (stored_frame token exchange interval n_bars) results').
Proof.
  revert idx results failed c r c' t.
  induction symbols as [|symbol rest IH]; intros idx results failed c r c' t Hrun.
  - cbn in Hrun. inv_emit. split; [reflexivity |]. split; [cbn; lia |].
    exists results, failed, []. rewrite app_nil_r. repeat split; auto.
  - cbn [first_pass] in Hrun. inv_emit.
    all: repeat match goal with
           | Hf : fetch_attempts _ _ _ _ _ _ _ _ _ _ = _ |- _ =>
               let Hok := fresh "Hok" in
               pose proof Hf as Hok;
               apply fetch_attempts_run in Hok as (_ & ? & ? & ? & _ & _);
               apply fetch_attempts_more in Hf as (? & ? & Hst)
           | Hl : first_pass _ _ _ _ _ _ _ _ _ _ _ = _ |- _ =>
               apply IH in Hl as (? & ? & ? & ? & ? & ? & ? & ? & ?)
           end; simplify_eq; try done.
    all: split; [batch_signals |]; split; [batch_connects |].
    + eexists _, _, _. split; [reflexivity |]. split; [reflexivity |].
      split; [now apply sublist_cons | eauto].
    + eexists _, _, (symbol :: _). split; [reflexivity |].
      split; [now rewrite <- app_assoc |].
      split; [now apply sublist_skip | eauto].
Qed.

Lemma retry_symbols_more retry_round results new_failed symbols (c : client W) r c' t :
  retry_symbols token exchange interval n_bars thread_max_retries retry_round
    results new_failed symbols c = (r, c', t) ->
  without_logs (signals t) = []
  /\ length (connects t)
     <= max_retries * max_retries * thread_max_retries * length symbols
  /\ exists results' failed' l,
       r = Ok (results', failed')
       /\ failed' = new_failed ++ l /\ l `sublist_of` symbols
       /\ (map_Forall (stored_frame token exchange interval n_bars) results ->
           map_Forall (stored_frame token exchange interval n_bars) results').
Proof.
  revert results new_failed c r c' t.
  induction symbols as [|symbol rest IH]; intros results new_failed c r c' t Hrun.
  - cbn in Hrun. inv_emit. split; [reflexivity |]. split; [cbn; lia |].
    exists results, new_failed, []. rewrite app_nil_r. repeat split; auto.
  - cbn [retry_symbols] in Hrun. inv_emit.
    all: repeat match goal with
           | Hf : fetch_attempts _ _ _ _ _ _ _ _ _ _ = _ |- _ =>
               let Hok := fresh "Hok" in
               pose proof Hf as Hok;
               apply fetch_attempts_run in Hok as (_ & ? & ? & ? & _ & _);
               apply fetch_attempts_more in Hf as (? & ? & Hst)
           | Hl : retry_symbols _ _ _ _ _ _ _ _ _ _ = _ |- _ =>
               apply IH in Hl as (? & ? & ? & ? & ? & ? & ? & ? & ?)
           end; simplify_eq; try done.
    split; [batch_signals |]. split; [batch_connects |].
    match goal with b : bool |- _ => destruct b end.
    + eexists _, _, _. split; [reflexivity |]. split; [reflexivity |].
      split; [now apply sublist_cons | eauto].
    + eexists _, _, (symbol :: _). split; [reflexivity |].
      split; [now rewrite <- app_assoc |].
      split; [now apply sublist_skip | eauto].
Qed.

Lemma retry_rounds_more rounds results failed (c : client W) r c' t :
  retry_rounds token exchange interval n_bars thread_max_retries rounds results
    failed c = (r, c', t) ->
  without_logs (signals t) = []
  /\ length (connects t)
     <= max_retries * max_retries * thread_max_retries * length failed * length rounds
  /\ exists results' failed',
       r = Ok (results', failed')
       /\ failed' `sublist_of` failed
       /\ (map_Forall (stored_frame token exchange interval n_bars) results ->
           map_Forall (stored_frame token exchange interval n_bars) results').
Proof.
  revert results failed c r c' t.
  induction rounds as [|retry_round rest IH]; intros results failed c r c' t Hrun.
  - cbn in Hrun. inv_emit. split; [reflexivity |]. split; [cbn; lia |].
    exists results, failed. repeat split; auto.
  - cbn [retry_rounds] in Hrun. destruct failed as [|f failed].
    + inv_emit. split; [reflexivity |]. split; [cbn; lia |].
      exists results, []. repeat split; auto.
    + inv_emit.
      all: repeat match goal with
             | Hf : retry_symbols _ _ _ _ _ _ _ _ _ _ = _ |- _ =>
                 apply retry_symbols_more in Hf as (? & ? & ? & ? & ? & ? & ? & Hsub & ?)
             | Hl : retry_rounds _ _ _ _ _ _ _ _ _ = _ |- _ =>
                 apply IH in Hl as (? & ? & ? & ? & ? & Hsub' & ?)
             end; simplify_eq; try done.
      split; [batch_signals |]. split.
      * rewrite ?connects_app, ?length_app. cbn [connects omap list_omap app].
        apply sublist_length in Hsub.
        match goal with
        | Hb : length (connects _) <= ?A * length ?l2 * length rest |- _ =>
            assert (A * length l2 * length rest
                    <= A * length (f :: failed) * length rest)
              by (apply Nat.mul_le_mono_r, Nat.mul_le_mono_l; exact Hsub)
        end.
        change (length (retry_round :: rest)) with (S (length rest)).
        change (length (@nil (res nat))) with 0. lia.
      * eexists _, _. split; [reflexivity |].
        split; [etrans; eassumption | eauto].
Qed.

Lemma run_fetch_more symbols (c : client W) r c' t :
  run_fetch token exchange interval n_bars thread_max_retries symbols c = (r, c', t) ->
  without_logs (signals t) = progress_steps (length symbols) 0 (length symbols)
  /\ length (connects t)
     <= max_retries * max_retries * thread_max_retries * length symbols
        * (1 + thread_max_retries)
  /\ exists results failed,
       r = Ok (results, failed)
       /\ failed `sublist_of` symbols
       /\ map_Forall (stored_frame token exchange interval n_bars) results.
Proof.
  unfold run_fetch. intros Hrun. inv_emit.
  all: repeat match goal with
         | Hf : first_pass _ _ _ _ _ _ _ _ _ _ _ = _ |- _ =>
             apply first_pass_more in Hf as (? & ? & ? & ? & ? & ? & ? & Hsub & Hst)
         | Hl : retry_rounds _ _ _ _ _ _ _ _ _ = _ |- _ =>
             apply retry_rounds_more in Hl as (? & ? & ? & ? & ? & Hsub' & Hst')
         end; simplify_eq; try done.
  split; [batch_signals |]. split.
  - rewrite connects_app, length_app, length_seq in *.
    apply sublist_length in Hsub.
    match goal with
    | Hb : length (connects _) <= ?A * length ?l2 * thread_max_retries |- _ =>
        assert (A * length l2 * thread_max_retries
                <= A * length symbols * thread_max_retries)
          by (apply Nat.mul_le_mono_r, Nat.mul_le_mono_l; exact Hsub)
    end.
    lia.
  - eexists _, _. split; [reflexivity |]. split; [etrans; eassumption |].
    apply Hst', Hst, map_Forall_empty.
Qed.

Lemma run_more symbols (c : client W) :
  let out := run token exchange interval n_bars thread_max_retries symbols c in
  exists results failed before,
    signals (trace out)
    = before ++ [final_log (length symbols) failed; data_fetched results]
    /\ without_logs before = progress_steps (length symbols) 0 (length symbols)
    /\ length (connects (trace out))
       <= max_retries * max_retries * thread_max_retries * length symbols
          * (1 + thread_max_retries)
    /\ failed `sublist_of` symbols
    /\ map_Forall (stored_frame token exchange interval n_bars) results.
Proof.
  cbv zeta.
  destruct (run token exchange interval n_bars thread_max_retries symbols c)
    as [[r c'] t] eqn:Hrun.
  unfold run in Hrun. inv_emit.
  all: repeat match goal with
         | Hf : run_fetch _ _ _ _ _ _ _ = _ |- _ =>
             apply run_fetch_more in Hf as (Hlog & Hcon & ? & ? & ? & Hsub & Hst)
         end; simplify_eq; try done.
  match type of Hlog with without_logs (signals ?t0) = _ =>
    match type of Hsub with ?failed `sublist_of` _ =>
      match type of Hst with map_Forall _ ?results =>
        exists results, failed, (signals t0)
      end
    end
  end.
  unfold trace. cbn [fst snd].
  split; [now rewrite !signals_app |]. split; [exact Hlog |].
  split; [| split; [exact Hsub | exact Hst]].
  rewrite !connects_app, !length_app. cbn [connects omap list_omap app length]. lia.
Qed.

Lemma get_hist_rows_tagged symbol interval' n_bars' fut_contract extended_session
    (c : client W) formatted_symbol (df : DataFrame) :
  format_symbol symbol None fut_contract = Ok formatted_symbol ->
  result (get_hist token symbol exchange interval' n_bars' fut_contract
            extended_session c) = Ok df ->
  Forall (fun b => b_symbol b = formatted_symbol) df.
Proof.
  intros Hfmt Hres. destruct df as [|b df]; [constructor |].
  destruct (get_hist_unfold token symbol exchange interval' n_bars' fut_contract
              extended_session c formatted_symbol Hfmt)
    as (s & c1 & cs & c2 & _ & _ & Hg & _).
  rewrite Hg in Hres.
  destruct (attempt_loop _ _ c2) as [[r c'] t] eqn:Hloop. cbn in Hres. subst r.
  eapply (attempt_loop_return
            (fun df _ => Forall (fun b => b_symbol b = formatted_symbol) df))
    in Hloop as (tl & _ & Hall); [exact Hall | | done].
  intros a c0 df0 c0' t0 Hbody.
  apply attempt_body_return in Hbody as (msgs & final & _ & _ & _ & Hdf).
  eapply create_df_tagged, Hdf.
Qed.

(** X13.  Every frame in the [data_fetched] payload is the non-empty frame a
    [get_hist] call for its key returned, with the [exchange:] prefix removed
    from the symbol column; every row of the frame stored under a symbol
    carries that symbol without the prefix. *)
Theorem run_stores_fetched_frames symbols (c : client W) :
  let out := run token exchange interval n_bars thread_max_retries symbols c in
  exists results failed before,
    signals (trace out)
    = before ++ [final_log (length symbols) failed; data_fetched results]
    /\ forall s df, results !! s = Some df ->
         stored_frame token exchange interval n_bars s df
         /\ Forall (fun b => b_symbol b = str_replace (exchange +:+ ":") "" s) df.
Proof.
  destruct (run_more symbols c) as (results & failed & before & Hsig & _ & _ & _ & Hst).
  exists results, failed, before. split; [exact Hsig |].
  intros s df Hs. pose proof (Hst s df Hs) as Hsf. split; [exact Hsf |].
  destruct Hsf as (c0 & df0 & Hres & _ & ->).
  assert (Hfmt : format_symbol s None PyNone = Ok s).
  { unfold format_symbol. now destruct (str_in ":" s). }
  pose proof (get_hist_rows_tagged s interval n_bars PyNone false c0 s df0 Hfmt Hres)
    as Htag.
  clear Hs Hres. unfold strip_exchange.
  induction Htag as [|b l Hb _ IH]; cbn [List.map]; constructor.
  - cbn. now rewrite Hb.
  - exact IH.
Qed.

(** X14.  Apart from log lines, [run] emits one [progress] signal per input
    symbol, in input order and whether or not the symbol was fetched,
    carrying positions 1 to [len(symbols)], and then [data_fetched]; the retry
    rounds report no progress.  The symbols named in the closing log line are
    a subsequence of the input list: in input order, none more often than it
    was asked for. *)
Theorem run_progress_and_failures symbols (c : client W) :
  let out := run token exchange interval n_bars thread_max_retries symbols c in
  exists results failed before,
    signals (trace out)
    = before ++ [final_log (length symbols) failed; data_fetched results]
    /\ without_logs (signals (trace out))
       = progress_steps (length symbols) 0 (length symbols) ++ [data_fetched results]
    /\ failed `sublist_of` symbols.
Proof.
  destruct (run_more symbols c) as (results & failed & before & Hsig & Hlog & _ & Hsub & _).
  exists results, failed, before. split; [exact Hsig |]. split; [| exact Hsub].
  rewrite Hsig, without_logs_app, Hlog. f_equal. now destruct failed.
Qed.

(** X15.  One [run] opens at most
    [9 * max_retries * (1 + max_retries)] connections per input symbol, for
    the thread's own [max_retries]: that many [get_hist] calls in the first
    pass and in each of the retry rounds, of at most nine connection attempts
    each. *)
Theorem run_connection_budget symbols (c : client W) :
  length (connects (trace (run token exchange interval n_bars thread_max_retries
                             symbols c)))
  <= max_retries * max_retries * thread_max_retries * (1 + thread_max_retries)
     * length symbols.
Proof.
  destruct (run_more symbols c) as (results & failed & before & _ & _ & Hcon & _).
  cbv zeta in Hcon. lia.
Qed.
End BatchMore.

(** ** Sign-in and symbol search *)

Section HttpFacts.
Context `{PyValue} {W : Type} `{!Http W}.

Lemma auth_loop_retry data attempts (w : W) :
  auth_loop data attempts w
  = retry_loop (requests_post sign_in_url data) auth_token_of py_none
      (HttpPost sign_in_url data) attempts w.
Proof.
  revert w. induction attempts as [|a rest IH]; intros w; [reflexivity |].
  cbn [auth_loop retry_loop]. destruct (requests_post sign_in_url data w) as [r w1].
  now rewrite IH.
Qed.

Lemma search_loop_retry url attempts (w : W) :
  search_loop url attempts w
  = retry_loop (requests_get url) symbols_list_of py_list_empty (HttpGet url)
      attempts w.
Proof.
  revert w. induction attempts as [|a rest IH]; intros w; [reflexivity |].
  cbn [search_loop retry_loop]. destruct (requests_get url w) as [r w1].
  now rewrite IH.
Qed.

Lemma http_requests_app t1 t2 :
  http_requests (t1 ++ t2) = http_requests t1 ++ http_requests t2.
Proof. apply omap_app. Qed.

Lemma http_sleeps_app t1 t2 : http_sleeps (t1 ++ t2) = http_sleeps t1 ++ http_sleeps t2.
Proof. apply omap_app. Qed.

Lemma pause_after_requests attempt : http_requests (pause_after attempt) = [].
Proof. unfold pause_after. now destruct (attempt <? max_retries - 1). Qed.

Section Loop.
Variables (request : W -> res response * W) (extract : response -> option V).
Variables (default : V) (event : res response -> http_event) (url : string).
Hypothesis event_request : forall r, http_requests [event r] = [(url, r)].
Hypothesis event_sleep : forall r, http_sleeps [event r] = [].

Lemma retry_loop_shape attempts (w : W) :
  let out := retry_loop request extract default event attempts w in
  let rs := responses out.2 in
  length rs <= length attempts
  /\ Forall (fun ur => ur.1 = url) (http_requests out.2)
  /\ Forall (fun r => yielded extract r = None) (removelast rs)
  /\ out.1.1 = match last rs ≫= yielded extract with
               | Some v => v
               | None => default
               end
  /\ (last rs ≫= yielded extract = None -> length rs = length attempts)
  /\ http_sleeps out.2
     = concat (zip_with
                 (fun a r => if ended_in_except (usable extract) r
                             then http_sleeps (pause_after a) else [])
                 attempts rs).
Proof.
  cbv zeta. revert w. induction attempts as [|a rest IH]; intros w.
  - cbn. repeat split; auto.
  - cbn [retry_loop]. destruct (request w) as [r w1].
    specialize (IH w1).
    destruct (retry_loop request extract default event rest w1) as [[v w2] t].
    cbn [fst snd] in IH. destruct IH as (Hlen & Hurl & Hpre & Hv & Hall & Hsl).
    assert (Hfail : yielded extract r = None ->
              let out := (v, w2, event r :: pause_after a ++ t) in
              let out' := (v, w2, event r :: [] ++ t) in
              responses out.2 = r :: responses t
              /\ responses out'.2 = r :: responses t
              /\ Forall (fun ur => ur.1 = url) (http_requests out.2)
              /\ Forall (fun ur => ur.1 = url) (http_requests out'.2)
              /\ Forall (fun r => yielded extract r = None)
                   (removelast (r :: responses t))
              /\ v = match last (r :: responses t) ≫= yielded extract with
                     | Some v => v
                     | None => default
                     end
              /\ (last (r :: responses t) ≫= yielded extract = None ->
                  length (r :: responses t) = length (a :: rest))).
    { intros Hr. cbv zeta. cbn [snd].
      assert (Hreq : forall pause, http_requests pause = [] ->
                http_requests (event r :: pause ++ t) = (url, r) :: http_requests t).
      { intros pause Hp.
        change (event r :: pause ++ t) with ([event r] ++ pause ++ t).
        now rewrite !http_requests_app, event_request, Hp. }
      unfold responses.
      rewrite (Hreq _ (pause_after_requests a)), (Hreq [] eq_refl). cbn [List.map snd].
      repeat split; try (constructor; [reflexivity | exact Hurl]).
      - fold (responses t). destruct (responses t) as [|r' rs'] eqn:Ers.
        + constructor.
        + cbn [removelast]. constructor; [exact Hr | exact Hpre].
      - fold (responses t). rewrite last_cons.
        destruct (last (responses t)) as [l|] eqn:El; [exact Hv |].
        cbn. rewrite Hr. exact Hv.
      - fold (responses t). rewrite last_cons.
        destruct (last (responses t)) as [l|] eqn:El.
        + intros Hn. cbn [length]. now rewrite (Hall Hn).
        + intros _. cbn [length]. now rewrite (Hall eq_refl). }
    destruct r as [resp|e]; cbn [yielded] in Hfail.
    + destruct (status_code resp =? 200)%Z eqn:Hst.
      * destruct (extract resp) as [v'|] eqn:Hex.
        -- cbn [fst snd]. unfold responses. rewrite event_request, event_sleep. cbn.
           unfold usable. rewrite Hst, Hex. cbn. repeat split; auto using Forall_nil.
           ++ lia.
           ++ discriminate.
           ++ now destruct rest.
        -- destruct (Hfail eq_refl) as (E1 & _ & U1 & _ & P1 & V1 & L1).
           cbn [fst snd] in *. rewrite E1.
           repeat split; auto; [cbn; lia |].
           change (event (Ok resp) :: pause_after a ++ t)
             with ([event (Ok resp)] ++ pause_after a ++ t).
           rewrite !http_sleeps_app, event_sleep, Hsl. cbn [zip_with concat app].
           unfold usable. cbn [ended_in_except]. now rewrite Hst, Hex.
      * destruct (Hfail eq_refl) as (_ & E1 & _ & U1 & P1 & V1 & L1).
        cbn [fst snd] in *. rewrite E1.
        repeat split; auto; [cbn; lia |].
        change (event (Ok resp) :: [] ++ t) with ([event (Ok resp)] ++ t).
        rewrite !http_sleeps_app, event_sleep, Hsl. cbn [zip_with concat app].
        cbn [ended_in_except]. now rewrite Hst.
    + destruct (Hfail eq_refl) as (E1 & _ & U1 & _ & P1 & V1 & L1).
      cbn [fst snd] in *. rewrite E1.
      repeat split; auto; [cbn; lia |].
      change (event (Raise e) :: pause_after a ++ t)
        with ([event (Raise e)] ++ pause_after a ++ t).
      now rewrite !http_sleeps_app, event_sleep, Hsl.
Qed.
End Loop.

Lemma retry_sleeps (extract : response -> option V) rs t :
  length rs <= max_retries ->
  http_sleeps t
  = concat (zip_with
              (fun a r => if ended_in_except (usable extract) r
                          then http_sleeps (pause_after a) else [])
              (seq 0 max_retries) rs) ->
  http_sleeps t
  = repeat retry_delay
      (length (List.filter (ended_in_except (usable extract))
                 (take (max_retries - 1) rs))).
Proof.
  intros Hlen ->. change (seq 0 max_retries) with [0; 1; 2].
  change (max_retries - 1) with 2.
  destruct rs as [|r0 [|r1 [|r2 [|r3 rs]]]]; cbn [length] in Hlen;
    [reflexivity | | | | unfold max_retries in Hlen; lia].
  all: cbn [zip_with concat take List.filter].
  all: destruct (ended_in_except (usable extract) r0); try reflexivity.
  all: try (destruct (ended_in_except (usable extract) r1); try reflexivity).
  all: try (destruct (ended_in_except (usable extract) r2); reflexivity).
Qed.

(** X16.  [__auth] makes no request when the user name or the password is
    missing.  Otherwise it posts the credentials to the sign-in address at
    most [max_retries] times and stops at the first answer with status 200
    from which [json()['user']['auth_token']] can be read; its result is that
    token, or [None] after [max_retries] requests without one.  It sleeps
    [retry_delay] seconds after each of the first two requests that raised or
    carried an unusable body, and not after an answer with another status. *)
Theorem auth_outcome username password (w : W) :
  let out := auth username password w in
  let rs := responses out.2 in
  match username, password with
  | Some _, Some _ => length rs = max_retries \/ is_Some (last rs ≫= signed_in)
  | _, _ => out = (py_none, w, [])
  end
  /\ length rs <= max_retries
  /\ Forall (fun ur => ur.1 = sign_in_url) (http_requests out.2)
  /\ Forall (fun r => signed_in r = None) (removelast rs)
  /\ out.1.1 = match last rs ≫= signed_in with
               | Some token => token
               | None => py_none
               end
  /\ http_sleeps out.2
     = repeat retry_delay
         (length (List.filter (ended_in_except (usable auth_token_of))
                    (take (max_retries - 1) rs))).
Proof.
  cbv zeta. unfold auth.
  destruct username as [u|]; [destruct password as [p|] |];
    [| cbn; repeat split; auto; lia ..].
  rewrite auth_loop_retry.
  pose proof (retry_loop_shape (requests_post sign_in_url
                   [("username", u); ("password", p); ("remember", "on")])
                auth_token_of py_none
                (HttpPost sign_in_url [("username", u); ("password", p);
                                       ("remember", "on")])
                sign_in_url (fun _ => eq_refl) (fun _ => eq_refl)
                (seq 0 max_retries) w) as Hshape.
  cbv zeta in Hshape. rewrite length_seq in Hshape.
  destruct Hshape as (Hlen & Hurl & Hpre & Hv & Hall & Hsl).
  repeat split; try assumption.
  - change signed_in with (yielded auth_token_of).
    destruct (last _ ≫= yielded auth_token_of) as [token|]; [right; eauto | left; auto].
  - now apply retry_sleeps.
Qed.

(** X17.  The token [__init__] stores is never [None]: it is the token of
    the sign-in request that succeeded, unless that token is itself [None],
    and is ["unauthorized_user_token"] in that case and whenever no request
    signed in, in particular when no credentials were given.  [__init__]
    makes the requests of [__auth] and no others. *)
Theorem init_token username password (w : W) :
  let out := init username password w in
  let rs := responses out.2 in
  is_none out.1.1 = false
  /\ out.1.1 = match last rs ≫= signed_in with
               | Some token =>
                   if is_none token then py_str "unauthorized_user_token" else token
               | None => py_str "unauthorized_user_token"
               end
  /\ out.2 = (auth username password w).2
  /\ out.1.2 = (auth username password w).1.2
  /\ match username, password with
     | Some _, Some _ => True
     | _, _ => out = (py_str "unauthorized_user_token", w, [])
     end.
Proof.
  cbv zeta. unfold init.
  assert (Hv : (auth username password w).1.1
               = match last (responses (auth username password w).2) ≫= signed_in with
                 | Some token => token
                 | None => py_none
                 end).
  { unfold auth. destruct username as [u|]; [destruct password as [p|] |];
      [| reflexivity ..].
    rewrite auth_loop_retry.
    now destruct (retry_loop_shape (requests_post sign_in_url
                   [("username", u); ("password", p); ("remember", "on")])
                auth_token_of py_none
                    (HttpPost sign_in_url [("username", u); ("password", p);
                                           ("remember", "on")])
                    sign_in_url (fun _ => eq_refl) (fun _ => eq_refl)
                    (seq 0 max_retries) w) as (_ & _ & _ & Hv & _). }
  assert (Hnone : match username, password with
                  | Some _, Some _ => True
                  | _, _ => auth username password w = (py_none, w, [])
                  end).
  { unfold auth. destruct username; [destruct password |]; auto. }
  destruct (auth username password w) as [[token w1] t]. cbn [fst snd] in *.
  repeat split.
  - destruct (is_none token) eqn:Hn; [apply is_none_str | exact Hn].
  - rewrite Hv. destruct (last (responses t) ≫= signed_in) as [tok|]; [reflexivity |].
    now rewrite is_none_none.
  - destruct username; [destruct password |]; auto;
      injection Hnone as -> -> ->; now rewrite is_none_none.
Qed.

(** X18.  [search_symbol] sends at most [max_retries] GET requests, all to
    the search address built from [text] and [exchange], and stops at the
    first answer with status 200 whose text, with the [<em>] and [</em>] tags
    removed, decodes to a value that has a length; it returns that value, and
    the empty list after [max_retries] requests without one.  What it returns
    always has a length.  It sleeps as [__auth] does. *)
Theorem search_symbol_outcome text exchange (w : W) :
  let out := search_symbol text exchange w in
  let rs := responses out.2 in
  (length rs = max_retries \/ is_Some (last rs ≫= found_symbols))
  /\ length rs <= max_retries
  /\ Forall (fun ur => ur.1 = search_url text exchange) (http_requests out.2)
  /\ Forall (fun r => found_symbols r = None) (removelast rs)
  /\ out.1.1 = match last rs ≫= found_symbols with
               | Some symbols_list => symbols_list
               | None => py_list_empty
               end
  /\ has_len out.1.1 = true
  /\ http_sleeps out.2
     = repeat retry_delay
         (length (List.filter (ended_in_except (usable symbols_list_of))
                    (take (max_retries - 1) rs))).
Proof.
  cbv zeta. unfold search_symbol. rewrite search_loop_retry.
  pose proof (retry_loop_shape (requests_get (search_url text exchange))
                symbols_list_of py_list_empty (HttpGet (search_url text exchange))
                (search_url text exchange) (fun _ => eq_refl) (fun _ => eq_refl)
                (seq 0 max_retries) w) as Hshape.
  cbv zeta in Hshape. rewrite length_seq in Hshape.
  destruct Hshape as (Hlen & Hurl & Hpre & Hv & Hall & Hsl).
  split; [| repeat split; try assumption].
  - change found_symbols with (yielded symbols_list_of).
    destruct (last _ ≫= yielded symbols_list_of) as [l|]; [right; eauto | left; auto].
  - rewrite Hv. clear.
    destruct (last _) as [[resp|e]|]; cbn; try apply has_len_empty.
    destruct (status_code resp =? 200)%Z; [| apply has_len_empty].
    unfold symbols_list_of. destruct (json_loads _) as [v|]; [| apply has_len_empty].
    destruct (has_len v) eqn:Hl; [exact Hl | apply has_len_empty].
  - now apply retry_sleeps.
Qed.
End HttpFacts.

(** A refused sign-in is followed by the next attempt without a pause, an
    answer of status 200 without a token by a pause; the token of the third
    answer is returned. *)
Example sign_in_third_attempt :
  auth (Some "u") (Some "p")
    {| post_replies :=
         [ reply 403 (JDict [("error", JStr "invalid credentials")]);
           reply 200 (JDict [("error", JStr "invalid credentials")]);
           reply 200 (JDict [("user", JDict [("auth_token", JStr "secret")])]) ];
       get_replies := [] |}
  = (JStr "secret", {| post_replies := []; get_replies := [] |},
     [ HttpPost sign_in_url credentials
         (reply 403 (JDict [("error", JStr "invalid credentials")]));
       HttpPost sign_in_url credentials
         (reply 200 (JDict [("error", JStr "invalid credentials")]));
       HttpSleep 3;
       HttpPost sign_in_url credentials
         (reply 200 (JDict [("user", JDict [("auth_token", JStr "secret")])])) ]).
Proof. vm_compute. reflexivity. Qed.

(** A search answered with a number is retried, since a number has no
    length; the list of the second answer is returned. *)
Example search_skips_a_number :
  (search_symbol "RELIANCE" "NSE"
     {| post_replies := [];
        get_replies := [ reply 200 (JInt 7);
                         reply 200 (JList [JDict [("symbol", JStr "RELIANCE")]]) ] |}).1.1
  = JList [JDict [("symbol", JStr "RELIANCE")]].
Proof. vm_compute. reflexivity. Qed.

(** ** The thread's failures and the window's *)

Section Failures.
Context `{PyFloat} {W : Type} `{Transport W}.
Variable token : string.
Variables (exchange : string) (interval : Interval) (n_bars : Z).
Variable thread_max_retries : nat.









End Failures.


(** ** The handshake of an attempt *)

Section Handshake.
Context `{PyFloat} {W : Type} `{Transport W}.
Variable token : string.







End Handshake.
